(** * Simpler Vulkan Synchronization: the mapping functions

    A shallow embedding of [thsvs_simpler_vulkan_synchronization.h]:
    the access-type enumeration, the [ThsvsAccessMap] table, the three
    mapping functions [thsvsGetVulkanMemoryBarrier],
    [thsvsGetVulkanBufferMemoryBarrier], [thsvsGetVulkanImageMemoryBarrier]
    and the two batching wrappers [thsvsCmdPipelineBarrier] and
    [thsvsCmdWaitEvents].

    Conventions of the embedding.
    - [VkFlags] words, handles, sizes and queue family indices are [Z];
      [|=] is [Z.lor].
    - A (count, pointer) pair of the C structs is a [list]; the count is
      the length of the list.
    - The memory behind the three out-pointers of a mapping function is a
      [MapState]; a mapping function takes the state the caller hands in
      and gives the state it leaves behind.
    - [assert] either goes on or aborts the process: [run A] is either
      [Returns a] or [Aborts].
    - The [#ifdef THSVS_ERROR_CHECK_*] toggles are a [Build] record. *)

From Stdlib Require Import ZArith List Bool Lia Permutation.
From Stdlib Require String.
Import String.StringSyntax.
Delimit Scope string_scope with string.
Import ListNotations.
Local Open Scope Z_scope.

(** ** The enumerations of the header *)

Inductive ThsvsAccessType : Type :=
  | THSVS_ACCESS_NONE
  (* Read access *)
  | THSVS_ACCESS_COMMAND_BUFFER_READ_NVX
  | THSVS_ACCESS_INDIRECT_BUFFER
  | THSVS_ACCESS_INDEX_BUFFER
  | THSVS_ACCESS_VERTEX_BUFFER
  | THSVS_ACCESS_VERTEX_SHADER_READ_UNIFORM_BUFFER
  | THSVS_ACCESS_VERTEX_SHADER_READ_SAMPLED_IMAGE_OR_UNIFORM_TEXEL_BUFFER
  | THSVS_ACCESS_VERTEX_SHADER_READ_OTHER
  | THSVS_ACCESS_TESSELLATION_CONTROL_SHADER_READ_UNIFORM_BUFFER
  | THSVS_ACCESS_TESSELLATION_CONTROL_SHADER_READ_SAMPLED_IMAGE_OR_UNIFORM_TEXEL_BUFFER
  | THSVS_ACCESS_TESSELLATION_CONTROL_SHADER_READ_OTHER
  | THSVS_ACCESS_TESSELLATION_EVALUATION_SHADER_READ_UNIFORM_BUFFER
  | THSVS_ACCESS_TESSELLATION_EVALUATION_SHADER_READ_SAMPLED_IMAGE_OR_UNIFORM_TEXEL_BUFFER
  | THSVS_ACCESS_TESSELLATION_EVALUATION_SHADER_READ_OTHER
  | THSVS_ACCESS_GEOMETRY_SHADER_READ_UNIFORM_BUFFER
  | THSVS_ACCESS_GEOMETRY_SHADER_READ_SAMPLED_IMAGE_OR_UNIFORM_TEXEL_BUFFER
  | THSVS_ACCESS_GEOMETRY_SHADER_READ_OTHER
  | THSVS_ACCESS_FRAGMENT_SHADER_READ_UNIFORM_BUFFER
  | THSVS_ACCESS_FRAGMENT_SHADER_READ_SAMPLED_IMAGE_OR_UNIFORM_TEXEL_BUFFER
  | THSVS_ACCESS_FRAGMENT_SHADER_READ_COLOR_INPUT_ATTACHMENT
  | THSVS_ACCESS_FRAGMENT_SHADER_READ_DEPTH_STENCIL_INPUT_ATTACHMENT
  | THSVS_ACCESS_FRAGMENT_SHADER_READ_OTHER
  | THSVS_ACCESS_COLOR_ATTACHMENT_READ
  | THSVS_ACCESS_DEPTH_STENCIL_ATTACHMENT_READ
  | THSVS_ACCESS_COMPUTE_SHADER_READ_UNIFORM_BUFFER
  | THSVS_ACCESS_COMPUTE_SHADER_READ_SAMPLED_IMAGE_OR_UNIFORM_TEXEL_BUFFER
  | THSVS_ACCESS_COMPUTE_SHADER_READ_OTHER
  | THSVS_ACCESS_ANY_SHADER_READ_UNIFORM_BUFFER
  | THSVS_ACCESS_ANY_SHADER_READ_UNIFORM_BUFFER_OR_VERTEX_BUFFER
  | THSVS_ACCESS_ANY_SHADER_READ_SAMPLED_IMAGE_OR_UNIFORM_TEXEL_BUFFER
  | THSVS_ACCESS_ANY_SHADER_READ_OTHER
  | THSVS_ACCESS_TRANSFER_READ
  | THSVS_ACCESS_HOST_READ
  | THSVS_ACCESS_PRESENT
  (* Write access *)
  | THSVS_ACCESS_COMMAND_BUFFER_WRITE_NVX
  | THSVS_ACCESS_VERTEX_SHADER_WRITE
  | THSVS_ACCESS_TESSELLATION_CONTROL_SHADER_WRITE
  | THSVS_ACCESS_TESSELLATION_EVALUATION_SHADER_WRITE
  | THSVS_ACCESS_GEOMETRY_SHADER_WRITE
  | THSVS_ACCESS_FRAGMENT_SHADER_WRITE
  | THSVS_ACCESS_COLOR_ATTACHMENT_WRITE
  | THSVS_ACCESS_DEPTH_STENCIL_ATTACHMENT_WRITE
  | THSVS_ACCESS_DEPTH_ATTACHMENT_WRITE_STENCIL_READ_ONLY
  | THSVS_ACCESS_STENCIL_ATTACHMENT_WRITE_DEPTH_READ_ONLY
  | THSVS_ACCESS_COMPUTE_SHADER_WRITE
  | THSVS_ACCESS_ANY_SHADER_WRITE
  | THSVS_ACCESS_TRANSFER_WRITE
  | THSVS_ACCESS_HOST_WRITE
  | THSVS_ACCESS_COLOR_ATTACHMENT_READ_WRITE
  (* General access *)
  | THSVS_ACCESS_GENERAL.

(** The enumerators in declaration order; the integer value of an
    enumerator is its position here. *)
Definition ThsvsAccessType_enumerators : list ThsvsAccessType :=
  [ THSVS_ACCESS_NONE;
    THSVS_ACCESS_COMMAND_BUFFER_READ_NVX;
    THSVS_ACCESS_INDIRECT_BUFFER;
    THSVS_ACCESS_INDEX_BUFFER;
    THSVS_ACCESS_VERTEX_BUFFER;
    THSVS_ACCESS_VERTEX_SHADER_READ_UNIFORM_BUFFER;
    THSVS_ACCESS_VERTEX_SHADER_READ_SAMPLED_IMAGE_OR_UNIFORM_TEXEL_BUFFER;
    THSVS_ACCESS_VERTEX_SHADER_READ_OTHER;
    THSVS_ACCESS_TESSELLATION_CONTROL_SHADER_READ_UNIFORM_BUFFER;
    THSVS_ACCESS_TESSELLATION_CONTROL_SHADER_READ_SAMPLED_IMAGE_OR_UNIFORM_TEXEL_BUFFER;
    THSVS_ACCESS_TESSELLATION_CONTROL_SHADER_READ_OTHER;
    THSVS_ACCESS_TESSELLATION_EVALUATION_SHADER_READ_UNIFORM_BUFFER;
    THSVS_ACCESS_TESSELLATION_EVALUATION_SHADER_READ_SAMPLED_IMAGE_OR_UNIFORM_TEXEL_BUFFER;
    THSVS_ACCESS_TESSELLATION_EVALUATION_SHADER_READ_OTHER;
    THSVS_ACCESS_GEOMETRY_SHADER_READ_UNIFORM_BUFFER;
    THSVS_ACCESS_GEOMETRY_SHADER_READ_SAMPLED_IMAGE_OR_UNIFORM_TEXEL_BUFFER;
    THSVS_ACCESS_GEOMETRY_SHADER_READ_OTHER;
    THSVS_ACCESS_FRAGMENT_SHADER_READ_UNIFORM_BUFFER;
    THSVS_ACCESS_FRAGMENT_SHADER_READ_SAMPLED_IMAGE_OR_UNIFORM_TEXEL_BUFFER;
    THSVS_ACCESS_FRAGMENT_SHADER_READ_COLOR_INPUT_ATTACHMENT;
    THSVS_ACCESS_FRAGMENT_SHADER_READ_DEPTH_STENCIL_INPUT_ATTACHMENT;
    THSVS_ACCESS_FRAGMENT_SHADER_READ_OTHER;
    THSVS_ACCESS_COLOR_ATTACHMENT_READ;
    THSVS_ACCESS_DEPTH_STENCIL_ATTACHMENT_READ;
    THSVS_ACCESS_COMPUTE_SHADER_READ_UNIFORM_BUFFER;
    THSVS_ACCESS_COMPUTE_SHADER_READ_SAMPLED_IMAGE_OR_UNIFORM_TEXEL_BUFFER;
    THSVS_ACCESS_COMPUTE_SHADER_READ_OTHER;
    THSVS_ACCESS_ANY_SHADER_READ_UNIFORM_BUFFER;
    THSVS_ACCESS_ANY_SHADER_READ_UNIFORM_BUFFER_OR_VERTEX_BUFFER;
    THSVS_ACCESS_ANY_SHADER_READ_SAMPLED_IMAGE_OR_UNIFORM_TEXEL_BUFFER;
    THSVS_ACCESS_ANY_SHADER_READ_OTHER;
    THSVS_ACCESS_TRANSFER_READ;
    THSVS_ACCESS_HOST_READ;
    THSVS_ACCESS_PRESENT;
    THSVS_ACCESS_COMMAND_BUFFER_WRITE_NVX;
    THSVS_ACCESS_VERTEX_SHADER_WRITE;
    THSVS_ACCESS_TESSELLATION_CONTROL_SHADER_WRITE;
    THSVS_ACCESS_TESSELLATION_EVALUATION_SHADER_WRITE;
    THSVS_ACCESS_GEOMETRY_SHADER_WRITE;
    THSVS_ACCESS_FRAGMENT_SHADER_WRITE;
    THSVS_ACCESS_COLOR_ATTACHMENT_WRITE;
    THSVS_ACCESS_DEPTH_STENCIL_ATTACHMENT_WRITE;
    THSVS_ACCESS_DEPTH_ATTACHMENT_WRITE_STENCIL_READ_ONLY;
    THSVS_ACCESS_STENCIL_ATTACHMENT_WRITE_DEPTH_READ_ONLY;
    THSVS_ACCESS_COMPUTE_SHADER_WRITE;
    THSVS_ACCESS_ANY_SHADER_WRITE;
    THSVS_ACCESS_TRANSFER_WRITE;
    THSVS_ACCESS_HOST_WRITE;
    THSVS_ACCESS_COLOR_ATTACHMENT_READ_WRITE;
    THSVS_ACCESS_GENERAL ].

(** The last enumerator of the C enum: the number of access types. *)
Definition THSVS_NUM_ACCESS_TYPES : nat := 50.

Scheme Equality for ThsvsAccessType.

(** Position of the first occurrence of [a] in [l] ([length l] if none). *)
Fixpoint index_of (a : ThsvsAccessType) (l : list ThsvsAccessType) : nat :=
  match l with
  | [] => O
  | x :: rest => if ThsvsAccessType_beq a x then O else S (index_of a rest)
  end.

(** The integer value the C compiler gives an enumerator. *)
Definition ordinal (a : ThsvsAccessType) : nat :=
  index_of a ThsvsAccessType_enumerators.

Inductive ThsvsImageLayout : Type :=
  | THSVS_IMAGE_LAYOUT_OPTIMAL
  | THSVS_IMAGE_LAYOUT_GENERAL
  | THSVS_IMAGE_LAYOUT_GENERAL_AND_PRESENTATION.

(** ** What the source takes from [vulkan.h]

    The header includes the Khronos [vulkan.h], which is not part of the
    repository.  The names below are the ones the source uses, with the
    values the Vulkan headers give them. *)

Definition VkFlags := Z.
Definition VkPipelineStageFlags := VkFlags.
Definition VkAccessFlags := VkFlags.
Definition VkBool32 := Z.

Definition VK_TRUE : VkBool32 := 1.
Definition VK_FALSE : VkBool32 := 0.

(* VkPipelineStageFlagBits *)
Definition VK_PIPELINE_STAGE_TOP_OF_PIPE_BIT : Z := 0x00000001.
Definition VK_PIPELINE_STAGE_DRAW_INDIRECT_BIT : Z := 0x00000002.
Definition VK_PIPELINE_STAGE_VERTEX_INPUT_BIT : Z := 0x00000004.
Definition VK_PIPELINE_STAGE_VERTEX_SHADER_BIT : Z := 0x00000008.
Definition VK_PIPELINE_STAGE_TESSELLATION_CONTROL_SHADER_BIT : Z := 0x00000010.
Definition VK_PIPELINE_STAGE_TESSELLATION_EVALUATION_SHADER_BIT : Z := 0x00000020.
Definition VK_PIPELINE_STAGE_GEOMETRY_SHADER_BIT : Z := 0x00000040.
Definition VK_PIPELINE_STAGE_FRAGMENT_SHADER_BIT : Z := 0x00000080.
Definition VK_PIPELINE_STAGE_EARLY_FRAGMENT_TESTS_BIT : Z := 0x00000100.
Definition VK_PIPELINE_STAGE_LATE_FRAGMENT_TESTS_BIT : Z := 0x00000200.
Definition VK_PIPELINE_STAGE_COLOR_ATTACHMENT_OUTPUT_BIT : Z := 0x00000400.
Definition VK_PIPELINE_STAGE_COMPUTE_SHADER_BIT : Z := 0x00000800.
Definition VK_PIPELINE_STAGE_TRANSFER_BIT : Z := 0x00001000.
Definition VK_PIPELINE_STAGE_BOTTOM_OF_PIPE_BIT : Z := 0x00002000.
Definition VK_PIPELINE_STAGE_HOST_BIT : Z := 0x00004000.
Definition VK_PIPELINE_STAGE_ALL_COMMANDS_BIT : Z := 0x00010000.
Definition VK_PIPELINE_STAGE_COMMAND_PROCESS_BIT_NVX : Z := 0x00020000.

(* VkAccessFlagBits *)
Definition VK_ACCESS_INDIRECT_COMMAND_READ_BIT : Z := 0x00000001.
Definition VK_ACCESS_INDEX_READ_BIT : Z := 0x00000002.
Definition VK_ACCESS_VERTEX_ATTRIBUTE_READ_BIT : Z := 0x00000004.
Definition VK_ACCESS_UNIFORM_READ_BIT : Z := 0x00000008.
Definition VK_ACCESS_INPUT_ATTACHMENT_READ_BIT : Z := 0x00000010.
Definition VK_ACCESS_SHADER_READ_BIT : Z := 0x00000020.
Definition VK_ACCESS_SHADER_WRITE_BIT : Z := 0x00000040.
Definition VK_ACCESS_COLOR_ATTACHMENT_READ_BIT : Z := 0x00000080.
Definition VK_ACCESS_COLOR_ATTACHMENT_WRITE_BIT : Z := 0x00000100.
Definition VK_ACCESS_DEPTH_STENCIL_ATTACHMENT_READ_BIT : Z := 0x00000200.
Definition VK_ACCESS_DEPTH_STENCIL_ATTACHMENT_WRITE_BIT : Z := 0x00000400.
Definition VK_ACCESS_TRANSFER_READ_BIT : Z := 0x00000800.
Definition VK_ACCESS_TRANSFER_WRITE_BIT : Z := 0x00001000.
Definition VK_ACCESS_HOST_READ_BIT : Z := 0x00002000.
Definition VK_ACCESS_HOST_WRITE_BIT : Z := 0x00004000.
Definition VK_ACCESS_MEMORY_READ_BIT : Z := 0x00008000.
Definition VK_ACCESS_MEMORY_WRITE_BIT : Z := 0x00010000.
Definition VK_ACCESS_COMMAND_PROCESS_READ_BIT_NVX : Z := 0x00020000.
Definition VK_ACCESS_COMMAND_PROCESS_WRITE_BIT_NVX : Z := 0x00040000.

(** Modelled from the spec: the entry of [THSVS_ACCESS_GENERAL] names
    [VK_ACCESS_TYPE_MEMORY_READ_BIT] and [VK_ACCESS_TYPE_MEMORY_WRITE_BIT],
    which no declaration under the sources gives a value; the
    specification says that a general access resolves to the memory-read
    and memory-write bits, so they stand for [VK_ACCESS_MEMORY_READ_BIT]
    and [VK_ACCESS_MEMORY_WRITE_BIT]. *)
Definition VK_ACCESS_TYPE_MEMORY_READ_BIT : Z := VK_ACCESS_MEMORY_READ_BIT.
Definition VK_ACCESS_TYPE_MEMORY_WRITE_BIT : Z := VK_ACCESS_MEMORY_WRITE_BIT.

(* VkStructureType, kept as the integer the enumerator stands for *)
Definition VkStructureType := Z.
Definition VK_STRUCTURE_TYPE_BUFFER_MEMORY_BARRIER : VkStructureType := 44.
Definition VK_STRUCTURE_TYPE_IMAGE_MEMORY_BARRIER : VkStructureType := 45.
Definition VK_STRUCTURE_TYPE_MEMORY_BARRIER : VkStructureType := 46.

(* A pointer is an address; NULL is address 0. *)
Definition pointer := Z.
Definition NULL : pointer := 0.

Inductive VkImageLayout : Type :=
  | VK_IMAGE_LAYOUT_UNDEFINED
  | VK_IMAGE_LAYOUT_GENERAL
  | VK_IMAGE_LAYOUT_COLOR_ATTACHMENT_OPTIMAL
  | VK_IMAGE_LAYOUT_DEPTH_STENCIL_ATTACHMENT_OPTIMAL
  | VK_IMAGE_LAYOUT_DEPTH_STENCIL_READ_ONLY_OPTIMAL
  | VK_IMAGE_LAYOUT_SHADER_READ_ONLY_OPTIMAL
  | VK_IMAGE_LAYOUT_TRANSFER_SRC_OPTIMAL
  | VK_IMAGE_LAYOUT_TRANSFER_DST_OPTIMAL
  | VK_IMAGE_LAYOUT_PREINITIALIZED
  | VK_IMAGE_LAYOUT_PRESENT_SRC_KHR
  | VK_IMAGE_LAYOUT_SHARED_PRESENT_KHR
  | VK_IMAGE_LAYOUT_DEPTH_READ_ONLY_STENCIL_ATTACHMENT_OPTIMAL_KHR
  | VK_IMAGE_LAYOUT_DEPTH_ATTACHMENT_STENCIL_READ_ONLY_OPTIMAL_KHR.

Scheme Equality for VkImageLayout.

Record VkImageSubresourceRange : Type := {
  aspectMask : VkFlags;
  baseMipLevel : Z;
  levelCount : Z;
  baseArrayLayer : Z;
  layerCount : Z
}.

Record VkMemoryBarrier : Type := {
  mem_sType : VkStructureType;
  mem_pNext : pointer;
  mem_srcAccessMask : VkAccessFlags;
  mem_dstAccessMask : VkAccessFlags
}.

Record VkBufferMemoryBarrier : Type := {
  buf_sType : VkStructureType;
  buf_pNext : pointer;
  buf_srcAccessMask : VkAccessFlags;
  buf_dstAccessMask : VkAccessFlags;
  buf_srcQueueFamilyIndex : Z;
  buf_dstQueueFamilyIndex : Z;
  buf_buffer : Z;
  buf_offset : Z;
  buf_size : Z
}.

Record VkImageMemoryBarrier : Type := {
  img_sType : VkStructureType;
  img_pNext : pointer;
  img_srcAccessMask : VkAccessFlags;
  img_dstAccessMask : VkAccessFlags;
  img_oldLayout : VkImageLayout;
  img_newLayout : VkImageLayout;
  img_srcQueueFamilyIndex : Z;
  img_dstQueueFamilyIndex : Z;
  img_image : Z;
  img_subresourceRange : VkImageSubresourceRange
}.

(** ** The barrier structs of the header *)

Record ThsvsGlobalBarrier : Type := {
  glob_pPrevAccesses : list ThsvsAccessType;
  glob_pNextAccesses : list ThsvsAccessType
}.

Record ThsvsBufferBarrier : Type := {
  bb_pPrevAccesses : list ThsvsAccessType;
  bb_pNextAccesses : list ThsvsAccessType;
  bb_srcQueueFamilyIndex : Z;
  bb_dstQueueFamilyIndex : Z;
  bb_buffer : Z;
  bb_offset : Z;
  bb_size : Z
}.

Record ThsvsImageBarrier : Type := {
  ib_pPrevAccesses : list ThsvsAccessType;
  ib_pNextAccesses : list ThsvsAccessType;
  ib_prevLayout : ThsvsImageLayout;
  ib_nextLayout : ThsvsImageLayout;
  ib_discardContents : VkBool32;
  ib_srcQueueFamilyIndex : Z;
  ib_dstQueueFamilyIndex : Z;
  ib_image : Z;
  ib_subresourceRange : VkImageSubresourceRange
}.

(** ** The access table *)

Record ThsvsVkAccessInfo : Type := {
  stageMask : VkPipelineStageFlags;
  accessMask : VkAccessFlags;
  imageLayout : VkImageLayout
}.

Definition ThsvsAccessMap : list ThsvsVkAccessInfo :=
  [ (* THSVS_ACCESS_NONE *)
    {| stageMask := 0;
       accessMask := 0;
       imageLayout := VK_IMAGE_LAYOUT_UNDEFINED |};
    (* THSVS_ACCESS_COMMAND_BUFFER_READ_NVX *)
    {| stageMask := VK_PIPELINE_STAGE_COMMAND_PROCESS_BIT_NVX;
       accessMask := VK_ACCESS_COMMAND_PROCESS_READ_BIT_NVX;
       imageLayout := VK_IMAGE_LAYOUT_UNDEFINED |};
    (* THSVS_ACCESS_INDIRECT_BUFFER *)
    {| stageMask := VK_PIPELINE_STAGE_DRAW_INDIRECT_BIT;
       accessMask := VK_ACCESS_INDIRECT_COMMAND_READ_BIT;
       imageLayout := VK_IMAGE_LAYOUT_UNDEFINED |};
    (* THSVS_ACCESS_INDEX_BUFFER *)
    {| stageMask := VK_PIPELINE_STAGE_VERTEX_INPUT_BIT;
       accessMask := VK_ACCESS_INDEX_READ_BIT;
       imageLayout := VK_IMAGE_LAYOUT_UNDEFINED |};
    (* THSVS_ACCESS_VERTEX_BUFFER *)
    {| stageMask := VK_PIPELINE_STAGE_VERTEX_INPUT_BIT;
       accessMask := VK_ACCESS_VERTEX_ATTRIBUTE_READ_BIT;
       imageLayout := VK_IMAGE_LAYOUT_UNDEFINED |};
    (* THSVS_ACCESS_VERTEX_SHADER_READ_UNIFORM_BUFFER *)
    {| stageMask := VK_PIPELINE_STAGE_VERTEX_SHADER_BIT;
       accessMask := VK_ACCESS_UNIFORM_READ_BIT;
       imageLayout := VK_IMAGE_LAYOUT_UNDEFINED |};
    (* THSVS_ACCESS_VERTEX_SHADER_READ_SAMPLED_IMAGE *)
    {| stageMask := VK_PIPELINE_STAGE_VERTEX_SHADER_BIT;
       accessMask := VK_ACCESS_SHADER_READ_BIT;
       imageLayout := VK_IMAGE_LAYOUT_SHADER_READ_ONLY_OPTIMAL |};
    (* THSVS_ACCESS_VERTEX_SHADER_READ_OTHER *)
    {| stageMask := VK_PIPELINE_STAGE_VERTEX_SHADER_BIT;
       accessMask := VK_ACCESS_SHADER_READ_BIT;
       imageLayout := VK_IMAGE_LAYOUT_GENERAL |};
    (* THSVS_ACCESS_TESSELLATION_CONTROL_SHADER_READ_UNIFORM_BUFFER *)
    {| stageMask := VK_PIPELINE_STAGE_TESSELLATION_CONTROL_SHADER_BIT;
       accessMask := VK_ACCESS_UNIFORM_READ_BIT;
       imageLayout := VK_IMAGE_LAYOUT_UNDEFINED |};
    (* THSVS_ACCESS_TESSELLATION_CONTROL_SHADER_READ_SAMPLED_IMAGE *)
    {| stageMask := VK_PIPELINE_STAGE_TESSELLATION_CONTROL_SHADER_BIT;
       accessMask := VK_ACCESS_SHADER_READ_BIT;
       imageLayout := VK_IMAGE_LAYOUT_SHADER_READ_ONLY_OPTIMAL |};
    (* THSVS_ACCESS_TESSELLATION_CONTROL_SHADER_READ_OTHER *)
    {| stageMask := VK_PIPELINE_STAGE_TESSELLATION_CONTROL_SHADER_BIT;
       accessMask := VK_ACCESS_SHADER_READ_BIT;
       imageLayout := VK_IMAGE_LAYOUT_GENERAL |};
    (* THSVS_ACCESS_TESSELLATION_EVALUATION_SHADER_READ_UNIFORM_BUFFER *)
    {| stageMask := VK_PIPELINE_STAGE_TESSELLATION_EVALUATION_SHADER_BIT;
       accessMask := VK_ACCESS_UNIFORM_READ_BIT;
       imageLayout := VK_IMAGE_LAYOUT_UNDEFINED |};
    (* THSVS_ACCESS_TESSELLATION_EVALUATION_SHADER_READ_SAMPLED_IMAGE *)
    {| stageMask := VK_PIPELINE_STAGE_TESSELLATION_EVALUATION_SHADER_BIT;
       accessMask := VK_ACCESS_SHADER_READ_BIT;
       imageLayout := VK_IMAGE_LAYOUT_SHADER_READ_ONLY_OPTIMAL |};
    (* THSVS_ACCESS_TESSELLATION_EVALUATION_SHADER_READ_OTHER *)
    {| stageMask := VK_PIPELINE_STAGE_TESSELLATION_EVALUATION_SHADER_BIT;
       accessMask := VK_ACCESS_SHADER_READ_BIT;
       imageLayout := VK_IMAGE_LAYOUT_GENERAL |};
    (* THSVS_ACCESS_GEOMETRY_SHADER_READ_UNIFORM_BUFFER *)
    {| stageMask := VK_PIPELINE_STAGE_GEOMETRY_SHADER_BIT;
       accessMask := VK_ACCESS_UNIFORM_READ_BIT;
       imageLayout := VK_IMAGE_LAYOUT_UNDEFINED |};
    (* THSVS_ACCESS_GEOMETRY_SHADER_READ_SAMPLED_IMAGE *)
    {| stageMask := VK_PIPELINE_STAGE_GEOMETRY_SHADER_BIT;
       accessMask := VK_ACCESS_SHADER_READ_BIT;
       imageLayout := VK_IMAGE_LAYOUT_SHADER_READ_ONLY_OPTIMAL |};
    (* THSVS_ACCESS_GEOMETRY_SHADER_READ_OTHER *)
    {| stageMask := VK_PIPELINE_STAGE_GEOMETRY_SHADER_BIT;
       accessMask := VK_ACCESS_SHADER_READ_BIT;
       imageLayout := VK_IMAGE_LAYOUT_GENERAL |};
    (* THSVS_ACCESS_FRAGMENT_SHADER_READ_UNIFORM_BUFFER *)
    {| stageMask := VK_PIPELINE_STAGE_FRAGMENT_SHADER_BIT;
       accessMask := VK_ACCESS_UNIFORM_READ_BIT;
       imageLayout := VK_IMAGE_LAYOUT_UNDEFINED |};
    (* THSVS_ACCESS_FRAGMENT_SHADER_READ_SAMPLED_IMAGE *)
    {| stageMask := VK_PIPELINE_STAGE_FRAGMENT_SHADER_BIT;
       accessMask := VK_ACCESS_SHADER_READ_BIT;
       imageLayout := VK_IMAGE_LAYOUT_SHADER_READ_ONLY_OPTIMAL |};
    (* THSVS_ACCESS_FRAGMENT_SHADER_READ_COLOR_INPUT_ATTACHMENT *)
    {| stageMask := VK_PIPELINE_STAGE_FRAGMENT_SHADER_BIT;
       accessMask := VK_ACCESS_INPUT_ATTACHMENT_READ_BIT;
       imageLayout := VK_IMAGE_LAYOUT_SHADER_READ_ONLY_OPTIMAL |};
    (* THSVS_ACCESS_FRAGMENT_SHADER_READ_DEPTH_STENCIL_INPUT_ATTACHMENT *)
    {| stageMask := VK_PIPELINE_STAGE_FRAGMENT_SHADER_BIT;
       accessMask := VK_ACCESS_DEPTH_STENCIL_ATTACHMENT_READ_BIT;
       imageLayout := VK_IMAGE_LAYOUT_DEPTH_STENCIL_READ_ONLY_OPTIMAL |};
    (* THSVS_ACCESS_FRAGMENT_SHADER_READ_OTHER *)
    {| stageMask := VK_PIPELINE_STAGE_FRAGMENT_SHADER_BIT;
       accessMask := VK_ACCESS_SHADER_READ_BIT;
       imageLayout := VK_IMAGE_LAYOUT_GENERAL |};
    (* THSVS_ACCESS_COLOR_ATTACHMENT_READ *)
    {| stageMask := VK_PIPELINE_STAGE_COLOR_ATTACHMENT_OUTPUT_BIT;
       accessMask := VK_ACCESS_COLOR_ATTACHMENT_READ_BIT;
       imageLayout := VK_IMAGE_LAYOUT_COLOR_ATTACHMENT_OPTIMAL |};
    (* THSVS_ACCESS_DEPTH_STENCIL_ATTACHMENT_READ *)
    {| stageMask := Z.lor VK_PIPELINE_STAGE_EARLY_FRAGMENT_TESTS_BIT
                          VK_PIPELINE_STAGE_LATE_FRAGMENT_TESTS_BIT;
       accessMask := VK_ACCESS_DEPTH_STENCIL_ATTACHMENT_READ_BIT;
       imageLayout := VK_IMAGE_LAYOUT_DEPTH_STENCIL_READ_ONLY_OPTIMAL |};
    (* THSVS_ACCESS_COMPUTE_SHADER_READ_UNIFORM_BUFFER *)
    {| stageMask := VK_PIPELINE_STAGE_COMPUTE_SHADER_BIT;
       accessMask := VK_ACCESS_UNIFORM_READ_BIT;
       imageLayout := VK_IMAGE_LAYOUT_UNDEFINED |};
    (* THSVS_ACCESS_COMPUTE_SHADER_READ_SAMPLED_IMAGE *)
    {| stageMask := VK_PIPELINE_STAGE_COMPUTE_SHADER_BIT;
       accessMask := VK_ACCESS_SHADER_READ_BIT;
       imageLayout := VK_IMAGE_LAYOUT_SHADER_READ_ONLY_OPTIMAL |};
    (* THSVS_ACCESS_COMPUTE_SHADER_READ_OTHER *)
    {| stageMask := VK_PIPELINE_STAGE_COMPUTE_SHADER_BIT;
       accessMask := VK_ACCESS_SHADER_READ_BIT;
       imageLayout := VK_IMAGE_LAYOUT_GENERAL |};
    (* THSVS_ACCESS_ANY_SHADER_READ_UNIFORM_BUFFER *)
    {| stageMask := VK_PIPELINE_STAGE_ALL_COMMANDS_BIT;
       accessMask := VK_ACCESS_UNIFORM_READ_BIT;
       imageLayout := VK_IMAGE_LAYOUT_UNDEFINED |};
    (* THSVS_ACCESS_ANY_SHADER_READ_UNIFORM_BUFFER_OR_VERTEX_BUFFER *)
    {| stageMask := VK_PIPELINE_STAGE_ALL_COMMANDS_BIT;
       accessMask := Z.lor VK_ACCESS_UNIFORM_READ_BIT
                           VK_ACCESS_VERTEX_ATTRIBUTE_READ_BIT;
       imageLayout := VK_IMAGE_LAYOUT_UNDEFINED |};
    (* THSVS_ACCESS_ANY_SHADER_READ_SAMPLED_IMAGE *)
    {| stageMask := VK_PIPELINE_STAGE_ALL_COMMANDS_BIT;
       accessMask := VK_ACCESS_SHADER_READ_BIT;
       imageLayout := VK_IMAGE_LAYOUT_SHADER_READ_ONLY_OPTIMAL |};
    (* THSVS_ACCESS_ANY_SHADER_READ_OTHER *)
    {| stageMask := VK_PIPELINE_STAGE_ALL_COMMANDS_BIT;
       accessMask := VK_ACCESS_SHADER_READ_BIT;
       imageLayout := VK_IMAGE_LAYOUT_GENERAL |};
    (* THSVS_ACCESS_TRANSFER_READ *)
    {| stageMask := VK_PIPELINE_STAGE_TRANSFER_BIT;
       accessMask := VK_ACCESS_TRANSFER_READ_BIT;
       imageLayout := VK_IMAGE_LAYOUT_TRANSFER_SRC_OPTIMAL |};
    (* THSVS_ACCESS_HOST_READ *)
    {| stageMask := VK_PIPELINE_STAGE_HOST_BIT;
       accessMask := VK_ACCESS_HOST_READ_BIT;
       imageLayout := VK_IMAGE_LAYOUT_GENERAL |};
    (* THSVS_ACCESS_PRESENT *)
    {| stageMask := VK_PIPELINE_STAGE_TOP_OF_PIPE_BIT;
       accessMask := 0;
       imageLayout := VK_IMAGE_LAYOUT_PRESENT_SRC_KHR |};
    (* THSVS_ACCESS_COMMAND_BUFFER_WRITE_NVX *)
    {| stageMask := VK_PIPELINE_STAGE_COMMAND_PROCESS_BIT_NVX;
       accessMask := VK_ACCESS_COMMAND_PROCESS_WRITE_BIT_NVX;
       imageLayout := VK_IMAGE_LAYOUT_UNDEFINED |};
    (* THSVS_ACCESS_VERTEX_SHADER_WRITE *)
    {| stageMask := VK_PIPELINE_STAGE_VERTEX_SHADER_BIT;
       accessMask := VK_ACCESS_SHADER_WRITE_BIT;
       imageLayout := VK_IMAGE_LAYOUT_GENERAL |};
    (* THSVS_ACCESS_TESSELLATION_CONTROL_SHADER_WRITE *)
    {| stageMask := VK_PIPELINE_STAGE_TESSELLATION_CONTROL_SHADER_BIT;
       accessMask := VK_ACCESS_SHADER_WRITE_BIT;
       imageLayout := VK_IMAGE_LAYOUT_GENERAL |};
    (* THSVS_ACCESS_TESSELLATION_EVALUATION_SHADER_WRITE *)
    {| stageMask := VK_PIPELINE_STAGE_TESSELLATION_EVALUATION_SHADER_BIT;
       accessMask := VK_ACCESS_SHADER_WRITE_BIT;
       imageLayout := VK_IMAGE_LAYOUT_GENERAL |};
    (* THSVS_ACCESS_GEOMETRY_SHADER_WRITE *)
    {| stageMask := VK_PIPELINE_STAGE_GEOMETRY_SHADER_BIT;
       accessMask := VK_ACCESS_SHADER_WRITE_BIT;
       imageLayout := VK_IMAGE_LAYOUT_GENERAL |};
    (* THSVS_ACCESS_FRAGMENT_SHADER_WRITE *)
    {| stageMask := VK_PIPELINE_STAGE_FRAGMENT_SHADER_BIT;
       accessMask := VK_ACCESS_SHADER_WRITE_BIT;
       imageLayout := VK_IMAGE_LAYOUT_GENERAL |};
    (* THSVS_ACCESS_COLOR_ATTACHMENT_WRITE *)
    {| stageMask := VK_PIPELINE_STAGE_COLOR_ATTACHMENT_OUTPUT_BIT;
       accessMask := VK_ACCESS_COLOR_ATTACHMENT_WRITE_BIT;
       imageLayout := VK_IMAGE_LAYOUT_COLOR_ATTACHMENT_OPTIMAL |};
    (* THSVS_ACCESS_DEPTH_STENCIL_ATTACHMENT_WRITE *)
    {| stageMask := Z.lor VK_PIPELINE_STAGE_EARLY_FRAGMENT_TESTS_BIT
                          VK_PIPELINE_STAGE_LATE_FRAGMENT_TESTS_BIT;
       accessMask := VK_ACCESS_DEPTH_STENCIL_ATTACHMENT_WRITE_BIT;
       imageLayout := VK_IMAGE_LAYOUT_DEPTH_STENCIL_ATTACHMENT_OPTIMAL |};
    (* THSVS_ACCESS_DEPTH_ATTACHMENT_WRITE_STENCIL_READ_ONLY *)
    {| stageMask := Z.lor VK_PIPELINE_STAGE_EARLY_FRAGMENT_TESTS_BIT
                          VK_PIPELINE_STAGE_LATE_FRAGMENT_TESTS_BIT;
       accessMask := Z.lor VK_ACCESS_DEPTH_STENCIL_ATTACHMENT_WRITE_BIT
                           VK_ACCESS_DEPTH_STENCIL_ATTACHMENT_READ_BIT;
       imageLayout := VK_IMAGE_LAYOUT_DEPTH_ATTACHMENT_STENCIL_READ_ONLY_OPTIMAL_KHR |};
    (* THSVS_ACCESS_STENCIL_ATTACHMENT_WRITE_DEPTH_READ_ONLY *)
    {| stageMask := Z.lor VK_PIPELINE_STAGE_EARLY_FRAGMENT_TESTS_BIT
                          VK_PIPELINE_STAGE_LATE_FRAGMENT_TESTS_BIT;
       accessMask := Z.lor VK_ACCESS_DEPTH_STENCIL_ATTACHMENT_WRITE_BIT
                           VK_ACCESS_DEPTH_STENCIL_ATTACHMENT_READ_BIT;
       imageLayout := VK_IMAGE_LAYOUT_DEPTH_READ_ONLY_STENCIL_ATTACHMENT_OPTIMAL_KHR |};
    (* THSVS_ACCESS_COMPUTE_SHADER_WRITE *)
    {| stageMask := VK_PIPELINE_STAGE_COMPUTE_SHADER_BIT;
       accessMask := VK_ACCESS_SHADER_WRITE_BIT;
       imageLayout := VK_IMAGE_LAYOUT_GENERAL |};
    (* THSVS_ACCESS_ANY_SHADER_WRITE *)
    {| stageMask := VK_PIPELINE_STAGE_ALL_COMMANDS_BIT;
       accessMask := VK_ACCESS_SHADER_WRITE_BIT;
       imageLayout := VK_IMAGE_LAYOUT_GENERAL |};
    (* THSVS_ACCESS_TRANSFER_WRITE *)
    {| stageMask := VK_PIPELINE_STAGE_TRANSFER_BIT;
       accessMask := VK_ACCESS_TRANSFER_WRITE_BIT;
       imageLayout := VK_IMAGE_LAYOUT_TRANSFER_DST_OPTIMAL |};
    (* THSVS_ACCESS_HOST_WRITE *)
    {| stageMask := VK_PIPELINE_STAGE_HOST_BIT;
       accessMask := VK_ACCESS_HOST_WRITE_BIT;
       imageLayout := VK_IMAGE_LAYOUT_GENERAL |};
    (* THSVS_ACCESS_COLOR_ATTACHMENT_READ_WRITE *)
    {| stageMask := VK_PIPELINE_STAGE_COLOR_ATTACHMENT_OUTPUT_BIT;
       accessMask := Z.lor VK_ACCESS_COLOR_ATTACHMENT_READ_BIT
                           VK_ACCESS_COLOR_ATTACHMENT_WRITE_BIT;
       imageLayout := VK_IMAGE_LAYOUT_COLOR_ATTACHMENT_OPTIMAL |};
    (* THSVS_ACCESS_GENERAL *)
    {| stageMask := VK_PIPELINE_STAGE_ALL_COMMANDS_BIT;
       accessMask := Z.lor VK_ACCESS_TYPE_MEMORY_READ_BIT
                           VK_ACCESS_TYPE_MEMORY_WRITE_BIT;
       imageLayout := VK_IMAGE_LAYOUT_GENERAL |} ].

(** [ThsvsAccessMap[a]]: the table is indexed by the enumerator's value.
    Every enumerator has an entry, so the default of [nth] is never
    reached. *)
Definition access_info (a : ThsvsAccessType) : ThsvsVkAccessInfo :=
  nth (ordinal a) ThsvsAccessMap
      {| stageMask := 0; accessMask := 0;
         imageLayout := VK_IMAGE_LAYOUT_UNDEFINED |}.

(** ** Builds, assertions and the memory behind the out-pointers *)

(** The [#define]s of the "Optional Error Checking" block that guard an
    [assert].  All are commented out in the header as shipped.  The third
    toggle of the header, [THSVS_ERROR_CHECK_COULD_USE_GLOBAL_BARRIER],
    guards statements that select members of the pointer [pVkBarrier]
    with [.]; a translation unit that defines it is rejected by the
    compiler, so no build with it exists to be embedded. *)
Record Build : Type := {
  THSVS_ERROR_CHECK_MIXED_IMAGE_LAYOUT : bool;
  THSVS_ERROR_CHECK_POTENTIAL_HAZARD : bool
}.

(** The header as shipped: no error check compiled in. *)
Definition default_build : Build :=
  {| THSVS_ERROR_CHECK_MIXED_IMAGE_LAYOUT := false;
     THSVS_ERROR_CHECK_POTENTIAL_HAZARD := false |}.

(** Only [THSVS_ERROR_CHECK_POTENTIAL_HAZARD] defined. *)
Definition hazard_build : Build :=
  {| THSVS_ERROR_CHECK_MIXED_IMAGE_LAYOUT := false;
     THSVS_ERROR_CHECK_POTENTIAL_HAZARD := true |}.

(** A computation either runs to its end or dies in a failed [assert]. *)
Inductive run (A : Type) : Type :=
  | Returns (a : A)
  | Aborts.
Arguments Returns {A} a.
Arguments Aborts {A}.

Definition bind {A B : Type} (c : run A) (k : A -> run B) : run B :=
  match c with
  | Returns a => k a
  | Aborts => Aborts
  end.

Declare Scope run_scope.
Delimit Scope run_scope with run.
Notation "x <- c ;; k" := (bind c (fun x => k))
  (at level 100, c at next level, right associativity) : run_scope.
Notation "c ;; k" := (bind c (fun _ => k))
  (at level 100, right associativity) : run_scope.
Local Open Scope run_scope.

(** [assert(c)] *)
Definition assert (c : bool) : run unit :=
  if c then Returns tt else Aborts.

(** An [assert] inside [#ifdef]: present only when the toggle is on. *)
Definition ifdef (toggle : bool) (c : run unit) : run unit :=
  if toggle then c else Returns tt.

(** [for (int i = 0; i < count; ++i) body(p[i])] over the [count]
    elements behind [p]. *)
Fixpoint for_each {A S : Type} (l : list A) (body : A -> S -> run S) (s : S)
  : run S :=
  match l with
  | [] => Returns s
  | a :: rest => s' <- body a s ;; for_each rest body s'
  end.

(** What [*pSrcStages], [*pDstStages] and [*pVkBarrier] hold. *)
Record MapState (B : Type) : Type := {
  pSrcStages : VkPipelineStageFlags;
  pDstStages : VkPipelineStageFlags;
  pVkBarrier : B
}.
Arguments pSrcStages {B} _.
Arguments pDstStages {B} _.
Arguments pVkBarrier {B} _.

(** [*pSrcStages |= m] *)
Definition or_pSrcStages {B} (m : Z) (st : MapState B) : MapState B :=
  {| pSrcStages := Z.lor (pSrcStages st) m;
     pDstStages := pDstStages st;
     pVkBarrier := pVkBarrier st |}.

(** [*pDstStages |= m] *)
Definition or_pDstStages {B} (m : Z) (st : MapState B) : MapState B :=
  {| pSrcStages := pSrcStages st;
     pDstStages := Z.lor (pDstStages st) m;
     pVkBarrier := pVkBarrier st |}.

(** A store through [pVkBarrier]. *)
Definition store {B} (f : B -> B) (st : MapState B) : MapState B :=
  {| pSrcStages := pSrcStages st;
     pDstStages := pDstStages st;
     pVkBarrier := f (pVkBarrier st) |}.

(** [prevAccess > THSVS_ACCESS_PRESENT] *)
Definition after_present (a : ThsvsAccessType) : bool :=
  (ordinal THSVS_ACCESS_PRESENT <? ordinal a)%nat.

(** [access <= THSVS_ACCESS_PRESENT || count == 1]: the condition of the
    potential-hazard assertions. *)
Definition hazard_free (a : ThsvsAccessType) (count : nat) : bool :=
  (ordinal a <=? ordinal THSVS_ACCESS_PRESENT)%nat || (count =? 1)%nat.

(** ** [thsvsGetVulkanMemoryBarrier] *)

Definition set_mem_sType (v : VkStructureType) (b : VkMemoryBarrier) :=
  {| mem_sType := v; mem_pNext := mem_pNext b;
     mem_srcAccessMask := mem_srcAccessMask b;
     mem_dstAccessMask := mem_dstAccessMask b |}.
Definition set_mem_pNext (v : pointer) (b : VkMemoryBarrier) :=
  {| mem_sType := mem_sType b; mem_pNext := v;
     mem_srcAccessMask := mem_srcAccessMask b;
     mem_dstAccessMask := mem_dstAccessMask b |}.
Definition set_mem_srcAccessMask (v : VkAccessFlags) (b : VkMemoryBarrier) :=
  {| mem_sType := mem_sType b; mem_pNext := mem_pNext b;
     mem_srcAccessMask := v;
     mem_dstAccessMask := mem_dstAccessMask b |}.
Definition set_mem_dstAccessMask (v : VkAccessFlags) (b : VkMemoryBarrier) :=
  {| mem_sType := mem_sType b; mem_pNext := mem_pNext b;
     mem_srcAccessMask := mem_srcAccessMask b;
     mem_dstAccessMask := v |}.

Definition memory_prev_body (cfg : Build) (thBarrier : ThsvsGlobalBarrier)
  (prevAccess : ThsvsAccessType) (st : MapState VkMemoryBarrier)
  : run (MapState VkMemoryBarrier) :=
  let pPrevAccessInfo := access_info prevAccess in
  ifdef (THSVS_ERROR_CHECK_POTENTIAL_HAZARD cfg)
    (assert (hazard_free prevAccess (length (glob_pPrevAccesses thBarrier)))) ;;
  let st := or_pSrcStages (stageMask pPrevAccessInfo) st in
  let st :=
    if after_present prevAccess
    then store (fun b => set_mem_srcAccessMask
                  (Z.lor (mem_srcAccessMask b) (accessMask pPrevAccessInfo)) b) st
    else st in
  Returns st.

Definition memory_next_body (cfg : Build) (thBarrier : ThsvsGlobalBarrier)
  (nextAccess : ThsvsAccessType) (st : MapState VkMemoryBarrier)
  : run (MapState VkMemoryBarrier) :=
  let pNextAccessInfo := access_info nextAccess in
  ifdef (THSVS_ERROR_CHECK_POTENTIAL_HAZARD cfg)
    (assert (hazard_free nextAccess (length (glob_pNextAccesses thBarrier)))) ;;
  let st := or_pDstStages (stageMask pNextAccessInfo) st in
  let st := store (fun b => set_mem_dstAccessMask
                     (Z.lor (mem_dstAccessMask b) (accessMask pNextAccessInfo)) b) st in
  Returns st.

Definition thsvsGetVulkanMemoryBarrier (cfg : Build)
  (thBarrier : ThsvsGlobalBarrier) (st : MapState VkMemoryBarrier)
  : run (MapState VkMemoryBarrier) :=
  let st := store (set_mem_sType VK_STRUCTURE_TYPE_MEMORY_BARRIER) st in
  let st := store (set_mem_pNext NULL) st in
  let st := store (set_mem_srcAccessMask 0) st in
  let st := store (set_mem_dstAccessMask 0) st in
  st <- for_each (glob_pPrevAccesses thBarrier) (memory_prev_body cfg thBarrier) st ;;
  for_each (glob_pNextAccesses thBarrier) (memory_next_body cfg thBarrier) st.

(** ** [thsvsGetVulkanBufferMemoryBarrier] *)

Definition set_buf_sType (v : VkStructureType) (b : VkBufferMemoryBarrier) :=
  {| buf_sType := v; buf_pNext := buf_pNext b;
     buf_srcAccessMask := buf_srcAccessMask b;
     buf_dstAccessMask := buf_dstAccessMask b;
     buf_srcQueueFamilyIndex := buf_srcQueueFamilyIndex b;
     buf_dstQueueFamilyIndex := buf_dstQueueFamilyIndex b;
     buf_buffer := buf_buffer b; buf_offset := buf_offset b;
     buf_size := buf_size b |}.
Definition set_buf_pNext (v : pointer) (b : VkBufferMemoryBarrier) :=
  {| buf_sType := buf_sType b; buf_pNext := v;
     buf_srcAccessMask := buf_srcAccessMask b;
     buf_dstAccessMask := buf_dstAccessMask b;
     buf_srcQueueFamilyIndex := buf_srcQueueFamilyIndex b;
     buf_dstQueueFamilyIndex := buf_dstQueueFamilyIndex b;
     buf_buffer := buf_buffer b; buf_offset := buf_offset b;
     buf_size := buf_size b |}.
Definition set_buf_srcAccessMask (v : VkAccessFlags) (b : VkBufferMemoryBarrier) :=
  {| buf_sType := buf_sType b; buf_pNext := buf_pNext b;
     buf_srcAccessMask := v;
     buf_dstAccessMask := buf_dstAccessMask b;
     buf_srcQueueFamilyIndex := buf_srcQueueFamilyIndex b;
     buf_dstQueueFamilyIndex := buf_dstQueueFamilyIndex b;
     buf_buffer := buf_buffer b; buf_offset := buf_offset b;
     buf_size := buf_size b |}.
Definition set_buf_dstAccessMask (v : VkAccessFlags) (b : VkBufferMemoryBarrier) :=
  {| buf_sType := buf_sType b; buf_pNext := buf_pNext b;
     buf_srcAccessMask := buf_srcAccessMask b;
     buf_dstAccessMask := v;
     buf_srcQueueFamilyIndex := buf_srcQueueFamilyIndex b;
     buf_dstQueueFamilyIndex := buf_dstQueueFamilyIndex b;
     buf_buffer := buf_buffer b; buf_offset := buf_offset b;
     buf_size := buf_size b |}.
Definition set_buf_srcQueueFamilyIndex (v : Z) (b : VkBufferMemoryBarrier) :=
  {| buf_sType := buf_sType b; buf_pNext := buf_pNext b;
     buf_srcAccessMask := buf_srcAccessMask b;
     buf_dstAccessMask := buf_dstAccessMask b;
     buf_srcQueueFamilyIndex := v;
     buf_dstQueueFamilyIndex := buf_dstQueueFamilyIndex b;
     buf_buffer := buf_buffer b; buf_offset := buf_offset b;
     buf_size := buf_size b |}.
Definition set_buf_dstQueueFamilyIndex (v : Z) (b : VkBufferMemoryBarrier) :=
  {| buf_sType := buf_sType b; buf_pNext := buf_pNext b;
     buf_srcAccessMask := buf_srcAccessMask b;
     buf_dstAccessMask := buf_dstAccessMask b;
     buf_srcQueueFamilyIndex := buf_srcQueueFamilyIndex b;
     buf_dstQueueFamilyIndex := v;
     buf_buffer := buf_buffer b; buf_offset := buf_offset b;
     buf_size := buf_size b |}.
Definition set_buf_buffer (v : Z) (b : VkBufferMemoryBarrier) :=
  {| buf_sType := buf_sType b; buf_pNext := buf_pNext b;
     buf_srcAccessMask := buf_srcAccessMask b;
     buf_dstAccessMask := buf_dstAccessMask b;
     buf_srcQueueFamilyIndex := buf_srcQueueFamilyIndex b;
     buf_dstQueueFamilyIndex := buf_dstQueueFamilyIndex b;
     buf_buffer := v; buf_offset := buf_offset b;
     buf_size := buf_size b |}.
Definition set_buf_offset (v : Z) (b : VkBufferMemoryBarrier) :=
  {| buf_sType := buf_sType b; buf_pNext := buf_pNext b;
     buf_srcAccessMask := buf_srcAccessMask b;
     buf_dstAccessMask := buf_dstAccessMask b;
     buf_srcQueueFamilyIndex := buf_srcQueueFamilyIndex b;
     buf_dstQueueFamilyIndex := buf_dstQueueFamilyIndex b;
     buf_buffer := buf_buffer b; buf_offset := v;
     buf_size := buf_size b |}.
Definition set_buf_size (v : Z) (b : VkBufferMemoryBarrier) :=
  {| buf_sType := buf_sType b; buf_pNext := buf_pNext b;
     buf_srcAccessMask := buf_srcAccessMask b;
     buf_dstAccessMask := buf_dstAccessMask b;
     buf_srcQueueFamilyIndex := buf_srcQueueFamilyIndex b;
     buf_dstQueueFamilyIndex := buf_dstQueueFamilyIndex b;
     buf_buffer := buf_buffer b; buf_offset := buf_offset b;
     buf_size := v |}.

Definition buffer_prev_body (cfg : Build) (thBarrier : ThsvsBufferBarrier)
  (prevAccess : ThsvsAccessType) (st : MapState VkBufferMemoryBarrier)
  : run (MapState VkBufferMemoryBarrier) :=
  let pPrevAccessInfo := access_info prevAccess in
  ifdef (THSVS_ERROR_CHECK_POTENTIAL_HAZARD cfg)
    (assert (hazard_free prevAccess (length (bb_pPrevAccesses thBarrier)))) ;;
  let st := or_pSrcStages (stageMask pPrevAccessInfo) st in
  let st :=
    if after_present prevAccess
    then store (fun b => set_buf_srcAccessMask
                  (Z.lor (buf_srcAccessMask b) (accessMask pPrevAccessInfo)) b) st
    else st in
  Returns st.

Definition buffer_next_body (cfg : Build) (thBarrier : ThsvsBufferBarrier)
  (nextAccess : ThsvsAccessType) (st : MapState VkBufferMemoryBarrier)
  : run (MapState VkBufferMemoryBarrier) :=
  let pNextAccessInfo := access_info nextAccess in
  ifdef (THSVS_ERROR_CHECK_POTENTIAL_HAZARD cfg)
    (assert (hazard_free nextAccess (length (bb_pNextAccesses thBarrier)))) ;;
  let st := or_pDstStages (stageMask pNextAccessInfo) st in
  let st := store (fun b => set_buf_dstAccessMask
                     (Z.lor (buf_dstAccessMask b) (accessMask pNextAccessInfo)) b) st in
  Returns st.

Definition thsvsGetVulkanBufferMemoryBarrier (cfg : Build)
  (thBarrier : ThsvsBufferBarrier) (st : MapState VkBufferMemoryBarrier)
  : run (MapState VkBufferMemoryBarrier) :=
  let st := store (set_buf_sType VK_STRUCTURE_TYPE_BUFFER_MEMORY_BARRIER) st in
  let st := store (set_buf_pNext NULL) st in
  let st := store (set_buf_srcAccessMask 0) st in
  let st := store (set_buf_dstAccessMask 0) st in
  let st := store (set_buf_srcQueueFamilyIndex (bb_srcQueueFamilyIndex thBarrier)) st in
  let st := store (set_buf_dstQueueFamilyIndex (bb_dstQueueFamilyIndex thBarrier)) st in
  let st := store (set_buf_buffer (bb_buffer thBarrier)) st in
  let st := store (set_buf_offset (bb_offset thBarrier)) st in
  let st := store (set_buf_size (bb_size thBarrier)) st in
  st <- for_each (bb_pPrevAccesses thBarrier) (buffer_prev_body cfg thBarrier) st ;;
  for_each (bb_pNextAccesses thBarrier) (buffer_next_body cfg thBarrier) st.

(** ** [thsvsGetVulkanImageMemoryBarrier] *)

Definition set_img_sType (v : VkStructureType) (b : VkImageMemoryBarrier) :=
  {| img_sType := v; img_pNext := img_pNext b;
     img_srcAccessMask := img_srcAccessMask b;
     img_dstAccessMask := img_dstAccessMask b;
     img_oldLayout := img_oldLayout b; img_newLayout := img_newLayout b;
     img_srcQueueFamilyIndex := img_srcQueueFamilyIndex b;
     img_dstQueueFamilyIndex := img_dstQueueFamilyIndex b;
     img_image := img_image b;
     img_subresourceRange := img_subresourceRange b |}.
Definition set_img_pNext (v : pointer) (b : VkImageMemoryBarrier) :=
  {| img_sType := img_sType b; img_pNext := v;
     img_srcAccessMask := img_srcAccessMask b;
     img_dstAccessMask := img_dstAccessMask b;
     img_oldLayout := img_oldLayout b; img_newLayout := img_newLayout b;
     img_srcQueueFamilyIndex := img_srcQueueFamilyIndex b;
     img_dstQueueFamilyIndex := img_dstQueueFamilyIndex b;
     img_image := img_image b;
     img_subresourceRange := img_subresourceRange b |}.
Definition set_img_srcAccessMask (v : VkAccessFlags) (b : VkImageMemoryBarrier) :=
  {| img_sType := img_sType b; img_pNext := img_pNext b;
     img_srcAccessMask := v; img_dstAccessMask := img_dstAccessMask b;
     img_oldLayout := img_oldLayout b; img_newLayout := img_newLayout b;
     img_srcQueueFamilyIndex := img_srcQueueFamilyIndex b;
     img_dstQueueFamilyIndex := img_dstQueueFamilyIndex b;
     img_image := img_image b;
     img_subresourceRange := img_subresourceRange b |}.
Definition set_img_dstAccessMask (v : VkAccessFlags) (b : VkImageMemoryBarrier) :=
  {| img_sType := img_sType b; img_pNext := img_pNext b;
     img_srcAccessMask := img_srcAccessMask b; img_dstAccessMask := v;
     img_oldLayout := img_oldLayout b; img_newLayout := img_newLayout b;
     img_srcQueueFamilyIndex := img_srcQueueFamilyIndex b;
     img_dstQueueFamilyIndex := img_dstQueueFamilyIndex b;
     img_image := img_image b;
     img_subresourceRange := img_subresourceRange b |}.
Definition set_img_oldLayout (v : VkImageLayout) (b : VkImageMemoryBarrier) :=
  {| img_sType := img_sType b; img_pNext := img_pNext b;
     img_srcAccessMask := img_srcAccessMask b;
     img_dstAccessMask := img_dstAccessMask b; img_oldLayout := v;
     img_newLayout := img_newLayout b;
     img_srcQueueFamilyIndex := img_srcQueueFamilyIndex b;
     img_dstQueueFamilyIndex := img_dstQueueFamilyIndex b;
     img_image := img_image b;
     img_subresourceRange := img_subresourceRange b |}.
Definition set_img_newLayout (v : VkImageLayout) (b : VkImageMemoryBarrier) :=
  {| img_sType := img_sType b; img_pNext := img_pNext b;
     img_srcAccessMask := img_srcAccessMask b;
     img_dstAccessMask := img_dstAccessMask b;
     img_oldLayout := img_oldLayout b; img_newLayout := v;
     img_srcQueueFamilyIndex := img_srcQueueFamilyIndex b;
     img_dstQueueFamilyIndex := img_dstQueueFamilyIndex b;
     img_image := img_image b;
     img_subresourceRange := img_subresourceRange b |}.
Definition set_img_srcQueueFamilyIndex (v : Z) (b : VkImageMemoryBarrier) :=
  {| img_sType := img_sType b; img_pNext := img_pNext b;
     img_srcAccessMask := img_srcAccessMask b;
     img_dstAccessMask := img_dstAccessMask b;
     img_oldLayout := img_oldLayout b; img_newLayout := img_newLayout b;
     img_srcQueueFamilyIndex := v;
     img_dstQueueFamilyIndex := img_dstQueueFamilyIndex b;
     img_image := img_image b;
     img_subresourceRange := img_subresourceRange b |}.
Definition set_img_dstQueueFamilyIndex (v : Z) (b : VkImageMemoryBarrier) :=
  {| img_sType := img_sType b; img_pNext := img_pNext b;
     img_srcAccessMask := img_srcAccessMask b;
     img_dstAccessMask := img_dstAccessMask b;
     img_oldLayout := img_oldLayout b; img_newLayout := img_newLayout b;
     img_srcQueueFamilyIndex := img_srcQueueFamilyIndex b;
     img_dstQueueFamilyIndex := v; img_image := img_image b;
     img_subresourceRange := img_subresourceRange b |}.
Definition set_img_image (v : Z) (b : VkImageMemoryBarrier) :=
  {| img_sType := img_sType b; img_pNext := img_pNext b;
     img_srcAccessMask := img_srcAccessMask b;
     img_dstAccessMask := img_dstAccessMask b;
     img_oldLayout := img_oldLayout b; img_newLayout := img_newLayout b;
     img_srcQueueFamilyIndex := img_srcQueueFamilyIndex b;
     img_dstQueueFamilyIndex := img_dstQueueFamilyIndex b; img_image := v;
     img_subresourceRange := img_subresourceRange b |}.
Definition set_img_subresourceRange (v : VkImageSubresourceRange) (b : VkImageMemoryBarrier) :=
  {| img_sType := img_sType b; img_pNext := img_pNext b;
     img_srcAccessMask := img_srcAccessMask b;
     img_dstAccessMask := img_dstAccessMask b;
     img_oldLayout := img_oldLayout b; img_newLayout := img_newLayout b;
     img_srcQueueFamilyIndex := img_srcQueueFamilyIndex b;
     img_dstQueueFamilyIndex := img_dstQueueFamilyIndex b;
     img_image := img_image b; img_subresourceRange := v |}.

Definition image_prev_body (cfg : Build) (thBarrier : ThsvsImageBarrier)
  (prevAccess : ThsvsAccessType) (st : MapState VkImageMemoryBarrier)
  : run (MapState VkImageMemoryBarrier) :=
  let pPrevAccessInfo := access_info prevAccess in
  ifdef (THSVS_ERROR_CHECK_POTENTIAL_HAZARD cfg)
    (assert (hazard_free prevAccess (length (ib_pPrevAccesses thBarrier)))) ;;
  let st := or_pSrcStages (stageMask pPrevAccessInfo) st in
  let st :=
    if after_present prevAccess
    then store (fun b => set_img_srcAccessMask
                  (Z.lor (img_srcAccessMask b) (accessMask pPrevAccessInfo)) b) st
    else st in
  if ib_discardContents thBarrier =? VK_TRUE
  then Returns (store (set_img_oldLayout VK_IMAGE_LAYOUT_UNDEFINED) st)
  else
    let layout :=
      match ib_prevLayout thBarrier with
      | THSVS_IMAGE_LAYOUT_GENERAL =>
          if ThsvsAccessType_beq prevAccess THSVS_ACCESS_PRESENT
          then VK_IMAGE_LAYOUT_PRESENT_SRC_KHR
          else VK_IMAGE_LAYOUT_GENERAL
      | THSVS_IMAGE_LAYOUT_OPTIMAL => imageLayout pPrevAccessInfo
      | THSVS_IMAGE_LAYOUT_GENERAL_AND_PRESENTATION =>
          VK_IMAGE_LAYOUT_SHARED_PRESENT_KHR
      end in
    ifdef (THSVS_ERROR_CHECK_MIXED_IMAGE_LAYOUT cfg)
      (assert (VkImageLayout_beq (img_oldLayout (pVkBarrier st))
                                 VK_IMAGE_LAYOUT_UNDEFINED
               || VkImageLayout_beq (img_oldLayout (pVkBarrier st)) layout)) ;;
    Returns (store (set_img_oldLayout layout) st).

Definition image_next_body (cfg : Build) (thBarrier : ThsvsImageBarrier)
  (nextAccess : ThsvsAccessType) (st : MapState VkImageMemoryBarrier)
  : run (MapState VkImageMemoryBarrier) :=
  let pNextAccessInfo := access_info nextAccess in
  ifdef (THSVS_ERROR_CHECK_POTENTIAL_HAZARD cfg)
    (assert (hazard_free nextAccess (length (ib_pNextAccesses thBarrier)))) ;;
  let st := or_pDstStages (stageMask pNextAccessInfo) st in
  let st := store (fun b => set_img_dstAccessMask
                     (Z.lor (img_dstAccessMask b) (accessMask pNextAccessInfo)) b) st in
  let layout :=
    match ib_nextLayout thBarrier with
    | THSVS_IMAGE_LAYOUT_GENERAL =>
        if ThsvsAccessType_beq nextAccess THSVS_ACCESS_PRESENT
        then VK_IMAGE_LAYOUT_PRESENT_SRC_KHR
        else VK_IMAGE_LAYOUT_GENERAL
    | THSVS_IMAGE_LAYOUT_OPTIMAL => imageLayout pNextAccessInfo
    | THSVS_IMAGE_LAYOUT_GENERAL_AND_PRESENTATION =>
        VK_IMAGE_LAYOUT_SHARED_PRESENT_KHR
    end in
  ifdef (THSVS_ERROR_CHECK_MIXED_IMAGE_LAYOUT cfg)
    (assert (VkImageLayout_beq (img_newLayout (pVkBarrier st))
                               VK_IMAGE_LAYOUT_UNDEFINED
             || VkImageLayout_beq (img_newLayout (pVkBarrier st)) layout)) ;;
  Returns (store (set_img_newLayout layout) st).

Definition thsvsGetVulkanImageMemoryBarrier (cfg : Build)
  (thBarrier : ThsvsImageBarrier) (st : MapState VkImageMemoryBarrier)
  : run (MapState VkImageMemoryBarrier) :=
  let st := store (set_img_sType VK_STRUCTURE_TYPE_IMAGE_MEMORY_BARRIER) st in
  let st := store (set_img_pNext NULL) st in
  let st := store (set_img_srcAccessMask 0) st in
  let st := store (set_img_dstAccessMask 0) st in
  let st := store (set_img_srcQueueFamilyIndex (ib_srcQueueFamilyIndex thBarrier)) st in
  let st := store (set_img_dstQueueFamilyIndex (ib_dstQueueFamilyIndex thBarrier)) st in
  let st := store (set_img_image (ib_image thBarrier)) st in
  let st := store (set_img_subresourceRange (ib_subresourceRange thBarrier)) st in
  st <- for_each (ib_pPrevAccesses thBarrier) (image_prev_body cfg thBarrier) st ;;
  for_each (ib_pNextAccesses thBarrier) (image_next_body cfg thBarrier) st.

(** ** [thsvsCmdPipelineBarrier] and [thsvsCmdWaitEvents] *)

(** The arguments [vkCmdPipelineBarrier] is called with.  A (count,
    pointer) pair is the list of the elements; count 0 with [NULL] is the
    empty list. *)
Record vkCmdPipelineBarrier_call : Type := {
  pb_commandBuffer : Z;
  pb_srcStageMask : VkPipelineStageFlags;
  pb_dstStageMask : VkPipelineStageFlags;
  pb_dependencyFlags : VkFlags;
  pb_pMemoryBarriers : list VkMemoryBarrier;
  pb_pBufferMemoryBarriers : list VkBufferMemoryBarrier;
  pb_pImageMemoryBarriers : list VkImageMemoryBarrier
}.

(** The arguments [vkCmdWaitEvents] is called with. *)
Record vkCmdWaitEvents_call : Type := {
  we_commandBuffer : Z;
  we_pEvents : list Z;
  we_srcStageMask : VkPipelineStageFlags;
  we_dstStageMask : VkPipelineStageFlags;
  we_pMemoryBarriers : list VkMemoryBarrier;
  we_pBufferMemoryBarriers : list VkBufferMemoryBarrier;
  we_pImageMemoryBarriers : list VkImageMemoryBarrier
}.

(** What the storage of a wrapper holds before the mapping functions
    write to it: the local [memoryBarrier] and the elements of the two
    [temp_alloc] blocks.  None of it is initialised by the wrapper. *)
Record Scratch : Type := {
  scratch_memoryBarrier : VkMemoryBarrier;
  scratch_buffer : nat -> VkBufferMemoryBarrier;
  scratch_image : nat -> VkImageMemoryBarrier
}.

(** [for (int i = 0; i < count; ++i) get(pBarriers[i], &srcStageMask,
    &dstStageMask, &pOut[i])], from index [i] on. *)
Fixpoint map_barriers {TB VB : Type}
  (get : TB -> MapState VB -> run (MapState VB)) (pOut : nat -> VB)
  (i : nat) (pBarriers : list TB)
  (srcStageMask dstStageMask : VkPipelineStageFlags)
  : run (VkPipelineStageFlags * VkPipelineStageFlags * list VB) :=
  match pBarriers with
  | [] => Returns (srcStageMask, dstStageMask, [])
  | b :: rest =>
      st <- get b {| pSrcStages := srcStageMask;
                     pDstStages := dstStageMask;
                     pVkBarrier := pOut i |} ;;
      r <- map_barriers get pOut (S i) rest (pSrcStages st) (pDstStages st) ;;
      Returns (fst (fst r), snd (fst r), pVkBarrier st :: snd r)
  end.

Definition thsvsCmdPipelineBarrier (cfg : Build) (mem : Scratch)
  (commandBuffer : Z)
  (pGlobalBarrier : option ThsvsGlobalBarrier)
  (pBufferBarriers : list ThsvsBufferBarrier)
  (pImageBarriers : list ThsvsImageBarrier)
  : run vkCmdPipelineBarrier_call :=
  let srcStageMask := VK_PIPELINE_STAGE_TOP_OF_PIPE_BIT in
  let dstStageMask := VK_PIPELINE_STAGE_BOTTOM_OF_PIPE_BIT in
  (* Global memory barrier *)
  g <- match pGlobalBarrier with
       | Some thBarrier =>
           st <- thsvsGetVulkanMemoryBarrier cfg thBarrier
                   {| pSrcStages := srcStageMask;
                      pDstStages := dstStageMask;
                      pVkBarrier := scratch_memoryBarrier mem |} ;;
           Returns (pSrcStages st, pDstStages st, [pVkBarrier st])
       | None => Returns (srcStageMask, dstStageMask, [])
       end ;;
  (* Buffer memory barriers *)
  b <- map_barriers (thsvsGetVulkanBufferMemoryBarrier cfg)
         (scratch_buffer mem) O pBufferBarriers (fst (fst g)) (snd (fst g)) ;;
  (* Image memory barriers *)
  i <- map_barriers (thsvsGetVulkanImageMemoryBarrier cfg)
         (scratch_image mem) O pImageBarriers (fst (fst b)) (snd (fst b)) ;;
  Returns {| pb_commandBuffer := commandBuffer;
             pb_srcStageMask := fst (fst i);
             pb_dstStageMask := snd (fst i);
             pb_dependencyFlags := 0;
             pb_pMemoryBarriers := snd g;
             pb_pBufferMemoryBarriers := snd b;
             pb_pImageMemoryBarriers := snd i |}.

Definition thsvsCmdWaitEvents (cfg : Build) (mem : Scratch)
  (commandBuffer : Z) (pEvents : list Z)
  (pGlobalBarrier : option ThsvsGlobalBarrier)
  (pBufferBarriers : list ThsvsBufferBarrier)
  (pImageBarriers : list ThsvsImageBarrier)
  : run vkCmdWaitEvents_call :=
  let srcStageMask := VK_PIPELINE_STAGE_TOP_OF_PIPE_BIT in
  let dstStageMask := VK_PIPELINE_STAGE_BOTTOM_OF_PIPE_BIT in
  (* Global memory barrier *)
  g <- match pGlobalBarrier with
       | Some thBarrier =>
           st <- thsvsGetVulkanMemoryBarrier cfg thBarrier
                   {| pSrcStages := srcStageMask;
                      pDstStages := dstStageMask;
                      pVkBarrier := scratch_memoryBarrier mem |} ;;
           Returns (pSrcStages st, pDstStages st, [pVkBarrier st])
       | None => Returns (srcStageMask, dstStageMask, [])
       end ;;
  (* Buffer memory barriers *)
  b <- map_barriers (thsvsGetVulkanBufferMemoryBarrier cfg)
         (scratch_buffer mem) O pBufferBarriers (fst (fst g)) (snd (fst g)) ;;
  (* Image memory barriers *)
  i <- map_barriers (thsvsGetVulkanImageMemoryBarrier cfg)
         (scratch_image mem) O pImageBarriers (fst (fst b)) (snd (fst b)) ;;
  Returns {| we_commandBuffer := commandBuffer;
             we_pEvents := pEvents;
             we_srcStageMask := fst (fst i);
             we_dstStageMask := snd (fst i);
             we_pMemoryBarriers := snd g;
             we_pBufferMemoryBarriers := snd b;
             we_pImageMemoryBarriers := snd i |}.

(** ** Vocabulary of the statements *)

(** The bitwise OR of a list of masks. *)
Definition mask_or (l : list Z) : Z := fold_right Z.lor 0 l.

(** OR over [l] of [ThsvsAccessMap[a].stageMask]. *)
Definition stage_bits (l : list ThsvsAccessType) : Z :=
  mask_or (map (fun a => stageMask (access_info a)) l).

(** OR over [l] of [ThsvsAccessMap[a].accessMask]. *)
Definition access_bits (l : list ThsvsAccessType) : Z :=
  mask_or (map (fun a => accessMask (access_info a)) l).

(** The entries of [l] after [THSVS_ACCESS_PRESENT] in the enumeration:
    the write and general accesses. *)
Definition write_entries (l : list ThsvsAccessType) : list ThsvsAccessType :=
  filter after_present l.

(** Every bit of [bits] is set in [mask]. *)
Definition has_bits (mask bits : Z) : Prop := Z.land mask bits = bits.

(** The layout the specification's mode table gives an access:
    OPTIMAL is the canonical layout of the access, GENERAL the general
    layout except for the present access, GENERAL_AND_PRESENTATION the
    shared-presentable layout whatever the access. *)
Definition mode_layout (mode : ThsvsImageLayout) (a : ThsvsAccessType)
  : VkImageLayout :=
  match mode with
  | THSVS_IMAGE_LAYOUT_OPTIMAL => imageLayout (access_info a)
  | THSVS_IMAGE_LAYOUT_GENERAL =>
      match a with
      | THSVS_ACCESS_PRESENT => VK_IMAGE_LAYOUT_PRESENT_SRC_KHR
      | _ => VK_IMAGE_LAYOUT_GENERAL
      end
  | THSVS_IMAGE_LAYOUT_GENERAL_AND_PRESENTATION =>
      VK_IMAGE_LAYOUT_SHARED_PRESENT_KHR
  end.

(** All entries of one side resolve to one layout: the consistency
    precondition of the layout computation. *)
Definition one_layout (mode : ThsvsImageLayout) (l : list ThsvsAccessType)
  : Prop :=
  forall a a', In a l -> In a' l -> mode_layout mode a = mode_layout mode a'.

(** The last element of a list, if any. *)
Definition last_entry {A : Type} (l : list A) : option A := hd_error (rev l).

(** The storage the test harness hands to the mapping functions:
    zero-initialised barrier, zero stage masks. *)
Definition zero_memory_barrier : VkMemoryBarrier :=
  {| mem_sType := 0; mem_pNext := NULL;
     mem_srcAccessMask := 0; mem_dstAccessMask := 0 |}.

Definition zero_buffer_barrier : VkBufferMemoryBarrier :=
  {| buf_sType := 0; buf_pNext := NULL;
     buf_srcAccessMask := 0; buf_dstAccessMask := 0;
     buf_srcQueueFamilyIndex := 0; buf_dstQueueFamilyIndex := 0;
     buf_buffer := 0; buf_offset := 0; buf_size := 0 |}.

Definition zero_range : VkImageSubresourceRange :=
  {| aspectMask := 0; baseMipLevel := 0; levelCount := 0;
     baseArrayLayer := 0; layerCount := 0 |}.

Definition zero_image_barrier : VkImageMemoryBarrier :=
  {| img_sType := 0; img_pNext := NULL;
     img_srcAccessMask := 0; img_dstAccessMask := 0;
     img_oldLayout := VK_IMAGE_LAYOUT_UNDEFINED;
     img_newLayout := VK_IMAGE_LAYOUT_UNDEFINED;
     img_srcQueueFamilyIndex := 0; img_dstQueueFamilyIndex := 0;
     img_image := 0; img_subresourceRange := zero_range |}.

Definition zero_state {B : Type} (b : B) : MapState B :=
  {| pSrcStages := 0; pDstStages := 0; pVkBarrier := b |}.

(** The layout a loop leaves in the barrier: the one resolved for the
    last entry, or what was stored before when there is no entry. *)
Definition layout_after (resolve : ThsvsAccessType -> VkImageLayout)
  (l : list ThsvsAccessType) (stored : VkImageLayout) : VkImageLayout :=
  match last_entry l with
  | Some a => resolve a
  | None => stored
  end.

(** The old layout resolved for one previous access. *)
Definition old_layout_of (thBarrier : ThsvsImageBarrier) (a : ThsvsAccessType)
  : VkImageLayout :=
  if ib_discardContents thBarrier =? VK_TRUE
  then VK_IMAGE_LAYOUT_UNDEFINED
  else mode_layout (ib_prevLayout thBarrier) a.

(** No potential-hazard assertion fails on the list: the toggle is off,
    or every entry passes the asserted condition. *)
Definition hazard_guard (cfg : Build) (l : list ThsvsAccessType) : bool :=
  negb (THSVS_ERROR_CHECK_POTENTIAL_HAZARD cfg)
  || forallb (fun a => hazard_free a (length l)) l.

(** A list mixes a write or general access with other entries. *)
Definition mixes_write (l : list ThsvsAccessType) : Prop :=
  (1 < length l)%nat /\
  exists a, In a l /\ (ordinal THSVS_ACCESS_PRESENT < ordinal a)%nat.

(** An image barrier whose two previous reads have different optimal
    layouts, and the same barrier with the two reads exchanged. *)
Definition two_layout_barrier : ThsvsImageBarrier :=
  {| ib_pPrevAccesses :=
       [THSVS_ACCESS_FRAGMENT_SHADER_READ_SAMPLED_IMAGE_OR_UNIFORM_TEXEL_BUFFER;
        THSVS_ACCESS_TRANSFER_READ];
     ib_pNextAccesses := [THSVS_ACCESS_COLOR_ATTACHMENT_WRITE];
     ib_prevLayout := THSVS_IMAGE_LAYOUT_OPTIMAL;
     ib_nextLayout := THSVS_IMAGE_LAYOUT_OPTIMAL;
     ib_discardContents := VK_FALSE;
     ib_srcQueueFamilyIndex := 0;
     ib_dstQueueFamilyIndex := 0;
     ib_image := 0;
     ib_subresourceRange := zero_range |}.

Definition two_layout_barrier_swapped : ThsvsImageBarrier :=
  {| ib_pPrevAccesses :=
       [THSVS_ACCESS_TRANSFER_READ;
        THSVS_ACCESS_FRAGMENT_SHADER_READ_SAMPLED_IMAGE_OR_UNIFORM_TEXEL_BUFFER];
     ib_pNextAccesses := [THSVS_ACCESS_COLOR_ATTACHMENT_WRITE];
     ib_prevLayout := THSVS_IMAGE_LAYOUT_OPTIMAL;
     ib_nextLayout := THSVS_IMAGE_LAYOUT_OPTIMAL;
     ib_discardContents := VK_FALSE;
     ib_srcQueueFamilyIndex := 0;
     ib_dstQueueFamilyIndex := 0;
     ib_image := 0;
     ib_subresourceRange := zero_range |}.

(** The image barrier of the test "Graphics write to color attachment,
    Graphics fragment read from sampled image", with the [discardContents]
    the caller chooses. *)
Definition color_write_then_sample (discardContents : VkBool32)
  : ThsvsImageBarrier :=
  {| ib_pPrevAccesses := [THSVS_ACCESS_COLOR_ATTACHMENT_WRITE];
     ib_pNextAccesses :=
       [THSVS_ACCESS_FRAGMENT_SHADER_READ_SAMPLED_IMAGE_OR_UNIFORM_TEXEL_BUFFER];
     ib_prevLayout := THSVS_IMAGE_LAYOUT_OPTIMAL;
     ib_nextLayout := THSVS_IMAGE_LAYOUT_OPTIMAL;
     ib_discardContents := discardContents;
     ib_srcQueueFamilyIndex := 0;
     ib_dstQueueFamilyIndex := 0;
     ib_image := 0;
     ib_subresourceRange := zero_range |}.

(** An image barrier without accesses that asks to discard the contents. *)
Definition empty_discard_barrier : ThsvsImageBarrier :=
  {| ib_pPrevAccesses := [];
     ib_pNextAccesses := [];
     ib_prevLayout := THSVS_IMAGE_LAYOUT_OPTIMAL;
     ib_nextLayout := THSVS_IMAGE_LAYOUT_OPTIMAL;
     ib_discardContents := VK_TRUE;
     ib_srcQueueFamilyIndex := 0;
     ib_dstQueueFamilyIndex := 0;
     ib_image := 0;
     ib_subresourceRange := zero_range |}.

(** Caller storage whose layouts hold something other than zero. *)
Definition stale_image_barrier : VkImageMemoryBarrier :=
  {| img_sType := 0; img_pNext := NULL;
     img_srcAccessMask := 0; img_dstAccessMask := 0;
     img_oldLayout := VK_IMAGE_LAYOUT_TRANSFER_DST_OPTIMAL;
     img_newLayout := VK_IMAGE_LAYOUT_PREINITIALIZED;
     img_srcQueueFamilyIndex := 0; img_dstQueueFamilyIndex := 0;
     img_image := 0; img_subresourceRange := zero_range |}.

(** [m'] is [m] with further bits ORed in. *)
Definition ored_into (m m' : Z) : Prop := exists x, m' = Z.lor m x.

(** ** [thsvsCmdSetEvent] and [thsvsCmdResetEvent]

    Neither function holds an [assert]: they are the same in every
    build. *)

(** The arguments [vkCmdSetEvent] is called with. *)
Record vkCmdSetEvent_call : Type := {
  se_commandBuffer : Z;
  se_event : Z;
  se_stageMask : VkPipelineStageFlags
}.

(** The arguments [vkCmdResetEvent] is called with. *)
Record vkCmdResetEvent_call : Type := {
  re_commandBuffer : Z;
  re_event : Z;
  re_stageMask : VkPipelineStageFlags
}.

Definition thsvsCmdSetEvent (commandBuffer event : Z)
  (pPrevAccesses : list ThsvsAccessType) : vkCmdSetEvent_call :=
  let stages :=
    fold_left
      (fun stages prevAccess =>
         let pPrevAccessInfo := access_info prevAccess in
         Z.lor stages (stageMask pPrevAccessInfo))
      pPrevAccesses VK_PIPELINE_STAGE_TOP_OF_PIPE_BIT in
  {| se_commandBuffer := commandBuffer;
     se_event := event;
     se_stageMask := stages |}.

Definition thsvsCmdResetEvent (commandBuffer event : Z)
  (pPrevAccesses : list ThsvsAccessType) : vkCmdResetEvent_call :=
  let stages :=
    fold_left
      (fun stages prevAccess =>
         let pPrevAccessInfo := access_info prevAccess in
         Z.lor stages (stageMask pPrevAccessInfo))
      pPrevAccesses VK_PIPELINE_STAGE_TOP_OF_PIPE_BIT in
  {| re_commandBuffer := commandBuffer;
     re_event := event;
     re_stageMask := stages |}.

(** ** The test program [test/tests.c]

    The program includes the header with no error check defined, so it
    runs the build as shipped.  What it writes to the standard output is
    a list of lines; a number is kept as the number, not as the digits
    [printf] formats it to. *)

Inductive printed : Type :=
  | Test (testName : String.string)
  | Unexpected_source_stage (srcStages : Z)
  | Unexpected_destination_stage (dstStages : Z)
  | Unexpected_source_access_mask (srcAccessMask : Z)
  | Unexpected_destination_access_mask (dstAccessMask : Z)
  | Unexpected_old_layout (oldLayout : VkImageLayout)
  | Unexpected_new_layout (newLayout : VkImageLayout)
  | PASSED
  | FAILED.

(** [if (!same) { printf(line); testPassed = 0; }] on the output so far
    and the flag [testPassed]. *)
Definition expect (same : bool) (line : printed)
  (s : list printed * bool) : list printed * bool :=
  if same then s else (fst s ++ [line], false).

(** The closing [if (testPassed == 1) printf PASSED else printf FAILED]. *)
Definition verdict (s : list printed * bool) : list printed :=
  fst s ++ [if snd s then PASSED else FAILED].

Definition global_barrier_test_array (testName : String.string)
  (prevAccesses nextAccesses : list ThsvsAccessType)
  (expectedSrcStageMask expectedDstStageMask : VkPipelineStageFlags)
  (expectedSrcAccessMask expectedDstAccessMask : VkAccessFlags)
  : list printed :=
  let barrier := {| glob_pPrevAccesses := prevAccesses;
                    glob_pNextAccesses := nextAccesses |} in
  match thsvsGetVulkanMemoryBarrier default_build barrier
          {| pSrcStages := 0; pDstStages := 0;
             pVkBarrier := zero_memory_barrier |} with
  | Aborts => []
  | Returns st =>
      let srcStages := pSrcStages st in
      let dstStages := pDstStages st in
      let vkBarrier := pVkBarrier st in
      let s := ([Test testName], true) in
      let s := expect (srcStages =? expectedSrcStageMask)
                 (Unexpected_source_stage srcStages) s in
      let s := expect (dstStages =? expectedDstStageMask)
                 (Unexpected_destination_stage dstStages) s in
      let s := expect (mem_srcAccessMask vkBarrier =? expectedSrcAccessMask)
                 (Unexpected_source_access_mask (mem_srcAccessMask vkBarrier)) s in
      let s := expect (mem_dstAccessMask vkBarrier =? expectedDstAccessMask)
                 (Unexpected_destination_access_mask (mem_dstAccessMask vkBarrier)) s in
      verdict s
  end.

Definition global_barrier_test (testName : String.string)
  (prevAccess nextAccess : ThsvsAccessType)
  (expectedSrcStageMask expectedDstStageMask : VkPipelineStageFlags)
  (expectedSrcAccessMask expectedDstAccessMask : VkAccessFlags)
  : list printed :=
  global_barrier_test_array testName [prevAccess] [nextAccess]
    expectedSrcStageMask expectedDstStageMask
    expectedSrcAccessMask expectedDstAccessMask.

Definition image_barrier_test_array (testName : String.string)
  (prevAccesses nextAccesses : list ThsvsAccessType)
  (expectedSrcStageMask expectedDstStageMask : VkPipelineStageFlags)
  (expectedSrcAccessMask expectedDstAccessMask : VkAccessFlags)
  (expectedOldLayout expectedNewLayout : VkImageLayout)
  : list printed :=
  (* the members after the four named ones are zero-initialised *)
  let barrier := {| ib_pPrevAccesses := prevAccesses;
                    ib_pNextAccesses := nextAccesses;
                    ib_prevLayout := THSVS_IMAGE_LAYOUT_OPTIMAL;
                    ib_nextLayout := THSVS_IMAGE_LAYOUT_OPTIMAL;
                    ib_discardContents := 0;
                    ib_srcQueueFamilyIndex := 0;
                    ib_dstQueueFamilyIndex := 0;
                    ib_image := 0;
                    ib_subresourceRange := zero_range |} in
  match thsvsGetVulkanImageMemoryBarrier default_build barrier
          {| pSrcStages := 0; pDstStages := 0;
             pVkBarrier := zero_image_barrier |} with
  | Aborts => []
  | Returns st =>
      let srcStages := pSrcStages st in
      let dstStages := pDstStages st in
      let vkBarrier := pVkBarrier st in
      let s := ([Test testName], true) in
      let s := expect (srcStages =? expectedSrcStageMask)
                 (Unexpected_source_stage srcStages) s in
      let s := expect (dstStages =? expectedDstStageMask)
                 (Unexpected_destination_stage dstStages) s in
      let s := expect (img_srcAccessMask vkBarrier =? expectedSrcAccessMask)
                 (Unexpected_source_access_mask (img_srcAccessMask vkBarrier)) s in
      let s := expect (img_dstAccessMask vkBarrier =? expectedDstAccessMask)
                 (Unexpected_destination_access_mask (img_dstAccessMask vkBarrier)) s in
      let s := expect (VkImageLayout_beq (img_oldLayout vkBarrier) expectedOldLayout)
                 (Unexpected_old_layout (img_oldLayout vkBarrier)) s in
      let s := expect (VkImageLayout_beq (img_newLayout vkBarrier) expectedNewLayout)
                 (Unexpected_new_layout (img_newLayout vkBarrier)) s in
      verdict s
  end.

Definition image_barrier_test (testName : String.string)
  (prevAccess nextAccess : ThsvsAccessType)
  (expectedSrcStageMask expectedDstStageMask : VkPipelineStageFlags)
  (expectedSrcAccessMask expectedDstAccessMask : VkAccessFlags)
  (expectedOldLayout expectedNewLayout : VkImageLayout)
  : list printed :=
  image_barrier_test_array testName [prevAccess] [nextAccess]
    expectedSrcStageMask expectedDstStageMask
    expectedSrcAccessMask expectedDstAccessMask
    expectedOldLayout expectedNewLayout.

(** The calls of [main], in order; the value is what the program
    prints. *)
Definition main : list printed :=
  global_barrier_test
    "Compute write to storage buffer/image, Compute read from storage buffer/image"%string
    THSVS_ACCESS_COMPUTE_SHADER_WRITE
    THSVS_ACCESS_COMPUTE_SHADER_READ_OTHER
    VK_PIPELINE_STAGE_COMPUTE_SHADER_BIT
    VK_PIPELINE_STAGE_COMPUTE_SHADER_BIT
    VK_ACCESS_SHADER_WRITE_BIT
    VK_ACCESS_SHADER_READ_BIT
  ++
  global_barrier_test
    "Compute read from storage buffer, Compute write from storage buffer"%string
    THSVS_ACCESS_COMPUTE_SHADER_READ_OTHER
    THSVS_ACCESS_COMPUTE_SHADER_WRITE
    VK_PIPELINE_STAGE_COMPUTE_SHADER_BIT
    VK_PIPELINE_STAGE_COMPUTE_SHADER_BIT
    0
    0
  ++
  global_barrier_test
    "Compute write to storage buffer, Graphics read as index buffer"%string
    THSVS_ACCESS_COMPUTE_SHADER_WRITE
    THSVS_ACCESS_INDEX_BUFFER
    VK_PIPELINE_STAGE_COMPUTE_SHADER_BIT
    VK_PIPELINE_STAGE_VERTEX_INPUT_BIT
    VK_ACCESS_SHADER_WRITE_BIT
    VK_ACCESS_INDEX_READ_BIT
  ++
  global_barrier_test_array
    "Compute write to storage buffer, Graphics read as index buffer & Compute read as uniform buffer"%string
    [THSVS_ACCESS_COMPUTE_SHADER_WRITE]
    [THSVS_ACCESS_INDEX_BUFFER; THSVS_ACCESS_COMPUTE_SHADER_READ_UNIFORM_BUFFER]
    VK_PIPELINE_STAGE_COMPUTE_SHADER_BIT
    (Z.lor VK_PIPELINE_STAGE_VERTEX_INPUT_BIT VK_PIPELINE_STAGE_COMPUTE_SHADER_BIT)
    VK_ACCESS_SHADER_WRITE_BIT
    (Z.lor VK_ACCESS_INDEX_READ_BIT VK_ACCESS_UNIFORM_READ_BIT)
  ++
  global_barrier_test
    "Compute write to storage buffer, Graphics read as indirect buffer"%string
    THSVS_ACCESS_COMPUTE_SHADER_WRITE
    THSVS_ACCESS_INDIRECT_BUFFER
    VK_PIPELINE_STAGE_COMPUTE_SHADER_BIT
    VK_PIPELINE_STAGE_DRAW_INDIRECT_BIT
    VK_ACCESS_SHADER_WRITE_BIT
    VK_ACCESS_INDIRECT_COMMAND_READ_BIT
  ++
  image_barrier_test
    "Compute write to storage image, Graphics fragment read as sampled image"%string
    THSVS_ACCESS_COMPUTE_SHADER_WRITE
    THSVS_ACCESS_FRAGMENT_SHADER_READ_SAMPLED_IMAGE_OR_UNIFORM_TEXEL_BUFFER
    VK_PIPELINE_STAGE_COMPUTE_SHADER_BIT
    VK_PIPELINE_STAGE_FRAGMENT_SHADER_BIT
    VK_ACCESS_SHADER_WRITE_BIT
    VK_ACCESS_SHADER_READ_BIT
    VK_IMAGE_LAYOUT_GENERAL
    VK_IMAGE_LAYOUT_SHADER_READ_ONLY_OPTIMAL
  ++
  global_barrier_test_array
    "Compute write to storage texel buffer, Graphics read as indirect buffer & fragment read as uniform buffer"%string
    [THSVS_ACCESS_COMPUTE_SHADER_WRITE]
    [THSVS_ACCESS_INDIRECT_BUFFER; THSVS_ACCESS_FRAGMENT_SHADER_READ_UNIFORM_BUFFER]
    VK_PIPELINE_STAGE_COMPUTE_SHADER_BIT
    (Z.lor VK_PIPELINE_STAGE_DRAW_INDIRECT_BIT VK_PIPELINE_STAGE_FRAGMENT_SHADER_BIT)
    VK_ACCESS_SHADER_WRITE_BIT
    (Z.lor VK_ACCESS_INDIRECT_COMMAND_READ_BIT VK_ACCESS_UNIFORM_READ_BIT)
  ++
  image_barrier_test
    "Graphics write to color attachment, Compute read from sampled image"%string
    THSVS_ACCESS_COLOR_ATTACHMENT_WRITE
    THSVS_ACCESS_COMPUTE_SHADER_READ_SAMPLED_IMAGE_OR_UNIFORM_TEXEL_BUFFER
    VK_PIPELINE_STAGE_COLOR_ATTACHMENT_OUTPUT_BIT
    VK_PIPELINE_STAGE_COMPUTE_SHADER_BIT
    VK_ACCESS_COLOR_ATTACHMENT_WRITE_BIT
    VK_ACCESS_SHADER_READ_BIT
    VK_IMAGE_LAYOUT_COLOR_ATTACHMENT_OPTIMAL
    VK_IMAGE_LAYOUT_SHADER_READ_ONLY_OPTIMAL
  ++
  image_barrier_test
    "Graphics write to depth attachment, Compute read from sampled image"%string
    THSVS_ACCESS_DEPTH_STENCIL_ATTACHMENT_WRITE
    THSVS_ACCESS_COMPUTE_SHADER_READ_SAMPLED_IMAGE_OR_UNIFORM_TEXEL_BUFFER
    (Z.lor VK_PIPELINE_STAGE_EARLY_FRAGMENT_TESTS_BIT VK_PIPELINE_STAGE_LATE_FRAGMENT_TESTS_BIT)
    VK_PIPELINE_STAGE_COMPUTE_SHADER_BIT
    VK_ACCESS_DEPTH_STENCIL_ATTACHMENT_WRITE_BIT
    VK_ACCESS_SHADER_READ_BIT
    VK_IMAGE_LAYOUT_DEPTH_STENCIL_ATTACHMENT_OPTIMAL
    VK_IMAGE_LAYOUT_SHADER_READ_ONLY_OPTIMAL
  ++
  image_barrier_test
    "Graphics write to depth attachment, Graphics fragment read from input attachment"%string
    THSVS_ACCESS_DEPTH_STENCIL_ATTACHMENT_WRITE
    THSVS_ACCESS_FRAGMENT_SHADER_READ_DEPTH_STENCIL_INPUT_ATTACHMENT
    (Z.lor VK_PIPELINE_STAGE_EARLY_FRAGMENT_TESTS_BIT VK_PIPELINE_STAGE_LATE_FRAGMENT_TESTS_BIT)
    VK_PIPELINE_STAGE_FRAGMENT_SHADER_BIT
    VK_ACCESS_DEPTH_STENCIL_ATTACHMENT_WRITE_BIT
    VK_ACCESS_INPUT_ATTACHMENT_READ_BIT
    VK_IMAGE_LAYOUT_DEPTH_STENCIL_ATTACHMENT_OPTIMAL
    VK_IMAGE_LAYOUT_DEPTH_STENCIL_READ_ONLY_OPTIMAL
  ++
  image_barrier_test
    "Graphics write to depth attachment, Graphics fragment read from sampled image"%string
    THSVS_ACCESS_DEPTH_STENCIL_ATTACHMENT_WRITE
    THSVS_ACCESS_FRAGMENT_SHADER_READ_SAMPLED_IMAGE_OR_UNIFORM_TEXEL_BUFFER
    (Z.lor VK_PIPELINE_STAGE_EARLY_FRAGMENT_TESTS_BIT VK_PIPELINE_STAGE_LATE_FRAGMENT_TESTS_BIT)
    VK_PIPELINE_STAGE_FRAGMENT_SHADER_BIT
    VK_ACCESS_DEPTH_STENCIL_ATTACHMENT_WRITE_BIT
    VK_ACCESS_SHADER_READ_BIT
    VK_IMAGE_LAYOUT_DEPTH_STENCIL_ATTACHMENT_OPTIMAL
    VK_IMAGE_LAYOUT_SHADER_READ_ONLY_OPTIMAL
  ++
  image_barrier_test
    "Graphics write to color attachment, Graphics fragment read from input attachment"%string
    THSVS_ACCESS_COLOR_ATTACHMENT_WRITE
    THSVS_ACCESS_FRAGMENT_SHADER_READ_COLOR_INPUT_ATTACHMENT
    VK_PIPELINE_STAGE_COLOR_ATTACHMENT_OUTPUT_BIT
    VK_PIPELINE_STAGE_FRAGMENT_SHADER_BIT
    VK_ACCESS_COLOR_ATTACHMENT_WRITE_BIT
    VK_ACCESS_INPUT_ATTACHMENT_READ_BIT
    VK_IMAGE_LAYOUT_COLOR_ATTACHMENT_OPTIMAL
    VK_IMAGE_LAYOUT_SHADER_READ_ONLY_OPTIMAL
  ++
  image_barrier_test
    "Graphics write to color attachment, Graphics fragment read from sampled image"%string
    THSVS_ACCESS_COLOR_ATTACHMENT_WRITE
    THSVS_ACCESS_FRAGMENT_SHADER_READ_SAMPLED_IMAGE_OR_UNIFORM_TEXEL_BUFFER
    VK_PIPELINE_STAGE_COLOR_ATTACHMENT_OUTPUT_BIT
    VK_PIPELINE_STAGE_FRAGMENT_SHADER_BIT
    VK_ACCESS_COLOR_ATTACHMENT_WRITE_BIT
    VK_ACCESS_SHADER_READ_BIT
    VK_IMAGE_LAYOUT_COLOR_ATTACHMENT_OPTIMAL
    VK_IMAGE_LAYOUT_SHADER_READ_ONLY_OPTIMAL
  ++
  image_barrier_test
    "Graphics write to color attachment, Graphics vertex read from sampled image"%string
    THSVS_ACCESS_COLOR_ATTACHMENT_WRITE
    THSVS_ACCESS_VERTEX_SHADER_READ_SAMPLED_IMAGE_OR_UNIFORM_TEXEL_BUFFER
    VK_PIPELINE_STAGE_COLOR_ATTACHMENT_OUTPUT_BIT
    VK_PIPELINE_STAGE_VERTEX_SHADER_BIT
    VK_ACCESS_COLOR_ATTACHMENT_WRITE_BIT
    VK_ACCESS_SHADER_READ_BIT
    VK_IMAGE_LAYOUT_COLOR_ATTACHMENT_OPTIMAL
    VK_IMAGE_LAYOUT_SHADER_READ_ONLY_OPTIMAL
  ++
  image_barrier_test
    "Graphics fragment read from sampled image, Graphics write to color attachment"%string
    THSVS_ACCESS_FRAGMENT_SHADER_READ_SAMPLED_IMAGE_OR_UNIFORM_TEXEL_BUFFER
    THSVS_ACCESS_COLOR_ATTACHMENT_WRITE
    VK_PIPELINE_STAGE_FRAGMENT_SHADER_BIT
    VK_PIPELINE_STAGE_COLOR_ATTACHMENT_OUTPUT_BIT
    0
    0
    VK_IMAGE_LAYOUT_SHADER_READ_ONLY_OPTIMAL
    VK_IMAGE_LAYOUT_COLOR_ATTACHMENT_OPTIMAL
  ++
  global_barrier_test
    "None, Transfer read from buffer"%string
    THSVS_ACCESS_NONE
    THSVS_ACCESS_TRANSFER_READ
    VK_PIPELINE_STAGE_TOP_OF_PIPE_BIT
    VK_PIPELINE_STAGE_TRANSFER_BIT
    0
    0
  ++
  global_barrier_test
    "Transfer write to buffer, Graphics read from vertex buffer"%string
    THSVS_ACCESS_TRANSFER_WRITE
    THSVS_ACCESS_VERTEX_BUFFER
    VK_PIPELINE_STAGE_TRANSFER_BIT
    VK_PIPELINE_STAGE_VERTEX_INPUT_BIT
    VK_ACCESS_TRANSFER_WRITE_BIT
    VK_ACCESS_VERTEX_ATTRIBUTE_READ_BIT
  ++
  image_barrier_test
    "Transfer write to image, Graphics fragment read from sampled image"%string
    THSVS_ACCESS_TRANSFER_WRITE
    THSVS_ACCESS_FRAGMENT_SHADER_READ_SAMPLED_IMAGE_OR_UNIFORM_TEXEL_BUFFER
    VK_PIPELINE_STAGE_TRANSFER_BIT
    VK_PIPELINE_STAGE_FRAGMENT_SHADER_BIT
    VK_ACCESS_TRANSFER_WRITE_BIT
    VK_ACCESS_SHADER_READ_BIT
    VK_IMAGE_LAYOUT_TRANSFER_DST_OPTIMAL
    VK_IMAGE_LAYOUT_SHADER_READ_ONLY_OPTIMAL
  ++
  image_barrier_test
    "Graphics color attachment write, Presentation"%string
    THSVS_ACCESS_COLOR_ATTACHMENT_WRITE
    THSVS_ACCESS_PRESENT
    VK_PIPELINE_STAGE_COLOR_ATTACHMENT_OUTPUT_BIT
    VK_PIPELINE_STAGE_BOTTOM_OF_PIPE_BIT
    VK_ACCESS_COLOR_ATTACHMENT_WRITE_BIT
    0
    VK_IMAGE_LAYOUT_COLOR_ATTACHMENT_OPTIMAL
    VK_IMAGE_LAYOUT_PRESENT_SRC_KHR
  ++
  global_barrier_test
    "Full pipeline barrier"%string
    THSVS_ACCESS_GENERAL
    THSVS_ACCESS_GENERAL
    VK_PIPELINE_STAGE_ALL_COMMANDS_BIT
    VK_PIPELINE_STAGE_ALL_COMMANDS_BIT
    (Z.lor VK_ACCESS_MEMORY_READ_BIT VK_ACCESS_MEMORY_WRITE_BIT)
    (Z.lor VK_ACCESS_MEMORY_READ_BIT VK_ACCESS_MEMORY_WRITE_BIT).

(** ** Further vocabulary *)

(** Only [THSVS_ERROR_CHECK_MIXED_IMAGE_LAYOUT] defined. *)
Definition mixed_build : Build :=
  {| THSVS_ERROR_CHECK_MIXED_IMAGE_LAYOUT := true;
     THSVS_ERROR_CHECK_POTENTIAL_HAZARD := false |}.

(** Walking a list of resolved layouts from the layout [stored] before:
    each layout is accepted when the one before it is undefined or the
    same. *)
Fixpoint layouts_accepted (stored : VkImageLayout)
  (layouts : list VkImageLayout) : bool :=
  match layouts with
  | [] => true
  | layout :: rest =>
      (VkImageLayout_beq stored VK_IMAGE_LAYOUT_UNDEFINED
       || VkImageLayout_beq stored layout)
      && layouts_accepted layout rest
  end.

(** The Vulkan barrier of one global, buffer or image barrier. *)
Definition memory_vk (b : ThsvsGlobalBarrier) : VkMemoryBarrier :=
  {| mem_sType := VK_STRUCTURE_TYPE_MEMORY_BARRIER;
     mem_pNext := NULL;
     mem_srcAccessMask := access_bits (write_entries (glob_pPrevAccesses b));
     mem_dstAccessMask := access_bits (glob_pNextAccesses b) |}.

Definition buffer_vk (b : ThsvsBufferBarrier) : VkBufferMemoryBarrier :=
  {| buf_sType := VK_STRUCTURE_TYPE_BUFFER_MEMORY_BARRIER;
     buf_pNext := NULL;
     buf_srcAccessMask := access_bits (write_entries (bb_pPrevAccesses b));
     buf_dstAccessMask := access_bits (bb_pNextAccesses b);
     buf_srcQueueFamilyIndex := bb_srcQueueFamilyIndex b;
     buf_dstQueueFamilyIndex := bb_dstQueueFamilyIndex b;
     buf_buffer := bb_buffer b;
     buf_offset := bb_offset b;
     buf_size := bb_size b |}.

(** For an image the layouts of a side without accesses are those of
    the storage the barrier is written to. *)
Definition image_vk (b : ThsvsImageBarrier) (storage : VkImageMemoryBarrier)
  : VkImageMemoryBarrier :=
  {| img_sType := VK_STRUCTURE_TYPE_IMAGE_MEMORY_BARRIER;
     img_pNext := NULL;
     img_srcAccessMask := access_bits (write_entries (ib_pPrevAccesses b));
     img_dstAccessMask := access_bits (ib_pNextAccesses b);
     img_oldLayout :=
       layout_after (old_layout_of b) (ib_pPrevAccesses b)
         (img_oldLayout storage);
     img_newLayout :=
       layout_after (mode_layout (ib_nextLayout b)) (ib_pNextAccesses b)
         (img_newLayout storage);
     img_srcQueueFamilyIndex := ib_srcQueueFamilyIndex b;
     img_dstQueueFamilyIndex := ib_dstQueueFamilyIndex b;
     img_image := ib_image b;
     img_subresourceRange := ib_subresourceRange b |}.

(** The Vulkan barriers of the image barriers [l], written to the
    elements [i], [i+1], ... of the block [pOut]. *)
Fixpoint image_vks (pOut : nat -> VkImageMemoryBarrier) (i : nat)
  (l : list ThsvsImageBarrier) : list VkImageMemoryBarrier :=
  match l with
  | [] => []
  | b :: rest => image_vk b (pOut i) :: image_vks pOut (S i) rest
  end.

(** All previous accesses of a batch: those of the global barrier, of
    the buffer barriers and of the image barriers. *)
Definition batch_prev (pGlobalBarrier : option ThsvsGlobalBarrier)
  (pBufferBarriers : list ThsvsBufferBarrier)
  (pImageBarriers : list ThsvsImageBarrier) : list ThsvsAccessType :=
  match pGlobalBarrier with
  | Some g => glob_pPrevAccesses g
  | None => []
  end
  ++ concat (map bb_pPrevAccesses pBufferBarriers)
  ++ concat (map ib_pPrevAccesses pImageBarriers).

(** All next accesses of a batch. *)
Definition batch_next (pGlobalBarrier : option ThsvsGlobalBarrier)
  (pBufferBarriers : list ThsvsBufferBarrier)
  (pImageBarriers : list ThsvsImageBarrier) : list ThsvsAccessType :=
  match pGlobalBarrier with
  | Some g => glob_pNextAccesses g
  | None => []
  end
  ++ concat (map bb_pNextAccesses pBufferBarriers)
  ++ concat (map ib_pNextAccesses pImageBarriers).

(** The barrier a wrapper hands to Vulkan for the global barrier. *)
Definition batch_memory (pGlobalBarrier : option ThsvsGlobalBarrier)
  : list VkMemoryBarrier :=
  match pGlobalBarrier with
  | Some g => [memory_vk g]
  | None => []
  end.

(** A barrier of the batch mixes a write with other accesses. *)
Definition batch_mixes_write (pGlobalBarrier : option ThsvsGlobalBarrier)
  (pBufferBarriers : list ThsvsBufferBarrier)
  (pImageBarriers : list ThsvsImageBarrier) : Prop :=
  (exists g, pGlobalBarrier = Some g /\
     (mixes_write (glob_pPrevAccesses g) \/ mixes_write (glob_pNextAccesses g)))
  \/ (exists b, In b pBufferBarriers /\
        (mixes_write (bb_pPrevAccesses b) \/ mixes_write (bb_pNextAccesses b)))
  \/ (exists b, In b pImageBarriers /\
        (mixes_write (ib_pPrevAccesses b) \/ mixes_write (ib_pNextAccesses b))).

(** The write bits of [VkAccessFlagBits] that the table uses. *)
Definition VK_ACCESS_WRITE_BITS : Z :=
  Z.lor VK_ACCESS_SHADER_WRITE_BIT
 (Z.lor VK_ACCESS_COLOR_ATTACHMENT_WRITE_BIT
 (Z.lor VK_ACCESS_DEPTH_STENCIL_ATTACHMENT_WRITE_BIT
 (Z.lor VK_ACCESS_TRANSFER_WRITE_BIT
 (Z.lor VK_ACCESS_HOST_WRITE_BIT
 (Z.lor VK_ACCESS_MEMORY_WRITE_BIT
        VK_ACCESS_COMMAND_PROCESS_WRITE_BIT_NVX))))).

(** A [VkFlags] value fits its 32 bits. *)
Definition is_VkFlags (m : Z) : Prop := 0 <= m < 2 ^ 32.

(** The lines [PASSED] and [FAILED] of an output. *)
Definition verdicts (out : list printed) : list printed :=
  filter (fun p => match p with PASSED | FAILED => true | _ => false end) out.

(** Temporary storage of a wrapper that holds zeros, and one whose
    image block holds stale layouts. *)
Definition zero_scratch : Scratch :=
  {| scratch_memoryBarrier := zero_memory_barrier;
     scratch_buffer := fun _ => zero_buffer_barrier;
     scratch_image := fun _ => zero_image_barrier |}.

Definition stale_scratch : Scratch :=
  {| scratch_memoryBarrier := zero_memory_barrier;
     scratch_buffer := fun _ => zero_buffer_barrier;
     scratch_image := fun _ => stale_image_barrier |}.

(** A buffer barrier whose previous side lists a write next to a read. *)
Definition write_and_read_buffer_barrier : ThsvsBufferBarrier :=
  {| bb_pPrevAccesses :=
       [THSVS_ACCESS_TRANSFER_WRITE; THSVS_ACCESS_VERTEX_BUFFER];
     bb_pNextAccesses := [THSVS_ACCESS_COMPUTE_SHADER_READ_OTHER];
     bb_srcQueueFamilyIndex := 0; bb_dstQueueFamilyIndex := 1;
     bb_buffer := 0; bb_offset := 0; bb_size := 256 |}.

(** The mixed-layout assertions accept the barrier [b] written to
    [storage]: the layouts resolved for the previous accesses are
    accepted from the old layout the storage holds, unless the contents
    are discarded (no assertion then), and those of the next accesses
    from the new layout it holds. *)
Definition mixed_layout_accepted (b : ThsvsImageBarrier)
  (storage : VkImageMemoryBarrier) : bool :=
  ((ib_discardContents b =? VK_TRUE)
   || layouts_accepted (img_oldLayout storage)
        (map (mode_layout (ib_prevLayout b)) (ib_pPrevAccesses b)))
  && layouts_accepted (img_newLayout storage)
       (map (mode_layout (ib_nextLayout b)) (ib_pNextAccesses b)).

(** An output without the lines that name the tests. *)
Definition without_names (out : list printed) : list printed :=
  filter (fun p => match p with Test _ => false | _ => true end) out.

(** * Properties *)

(** ** The table and the enumeration *)

Lemma ThsvsAccessMap_length : length ThsvsAccessMap = THSVS_NUM_ACCESS_TYPES.
Proof. reflexivity. Qed.

Lemma ordinal_in_range (a : ThsvsAccessType) :
  (ordinal a < THSVS_NUM_ACCESS_TYPES)%nat.
Proof. destruct a; vm_compute; lia. Qed.

Lemma ordinal_enumerator (a : ThsvsAccessType) :
  nth_error ThsvsAccessType_enumerators (ordinal a) = Some a.
Proof. destruct a; reflexivity. Qed.

(** The entries after [THSVS_ACCESS_PRESENT] are the ones the header
    lists under "Write access" and "General access". *)
Lemma write_entries_of_enumeration :
  write_entries ThsvsAccessType_enumerators =
  [ THSVS_ACCESS_COMMAND_BUFFER_WRITE_NVX;
    THSVS_ACCESS_VERTEX_SHADER_WRITE;
    THSVS_ACCESS_TESSELLATION_CONTROL_SHADER_WRITE;
    THSVS_ACCESS_TESSELLATION_EVALUATION_SHADER_WRITE;
    THSVS_ACCESS_GEOMETRY_SHADER_WRITE;
    THSVS_ACCESS_FRAGMENT_SHADER_WRITE;
    THSVS_ACCESS_COLOR_ATTACHMENT_WRITE;
    THSVS_ACCESS_DEPTH_STENCIL_ATTACHMENT_WRITE;
    THSVS_ACCESS_DEPTH_ATTACHMENT_WRITE_STENCIL_READ_ONLY;
    THSVS_ACCESS_STENCIL_ATTACHMENT_WRITE_DEPTH_READ_ONLY;
    THSVS_ACCESS_COMPUTE_SHADER_WRITE;
    THSVS_ACCESS_ANY_SHADER_WRITE;
    THSVS_ACCESS_TRANSFER_WRITE;
    THSVS_ACCESS_HOST_WRITE;
    THSVS_ACCESS_COLOR_ATTACHMENT_READ_WRITE;
    THSVS_ACCESS_GENERAL ].
Proof. reflexivity. Qed.

Lemma beq_present (a : ThsvsAccessType) :
  ThsvsAccessType_beq a THSVS_ACCESS_PRESENT = true <-> a = THSVS_ACCESS_PRESENT.
Proof. split; [ destruct a; simpl; congruence | intros ->; reflexivity ]. Qed.

(** The [switch] of the image function computes the mode table. *)
Lemma switch_is_mode_layout (mode : ThsvsImageLayout) (a : ThsvsAccessType) :
  match mode with
  | THSVS_IMAGE_LAYOUT_GENERAL =>
      if ThsvsAccessType_beq a THSVS_ACCESS_PRESENT
      then VK_IMAGE_LAYOUT_PRESENT_SRC_KHR
      else VK_IMAGE_LAYOUT_GENERAL
  | THSVS_IMAGE_LAYOUT_OPTIMAL => imageLayout (access_info a)
  | THSVS_IMAGE_LAYOUT_GENERAL_AND_PRESENTATION =>
      VK_IMAGE_LAYOUT_SHARED_PRESENT_KHR
  end = mode_layout mode a.
Proof. destruct mode; try reflexivity; destruct a; reflexivity. Qed.

(** ** Masks *)

Lemma mask_or_app (l1 l2 : list Z) :
  mask_or (l1 ++ l2) = Z.lor (mask_or l1) (mask_or l2).
Proof.
  induction l1 as [|m l1 IH]; simpl.
  - reflexivity.
  - rewrite IH. apply Z.lor_assoc.
Qed.

Lemma mask_or_Permutation (l l' : list Z) :
  Permutation l l' -> mask_or l = mask_or l'.
Proof.
  induction 1 as [| m l l' _ IH | m n l | l l' l'' _ IH1 _ IH2]; simpl.
  - reflexivity.
  - now rewrite IH.
  - rewrite !Z.lor_assoc. f_equal. apply Z.lor_comm.
  - congruence.
Qed.

Lemma stage_bits_cons a l :
  stage_bits (a :: l) = Z.lor (stageMask (access_info a)) (stage_bits l).
Proof. reflexivity. Qed.

Lemma access_bits_cons a l :
  access_bits (a :: l) = Z.lor (accessMask (access_info a)) (access_bits l).
Proof. reflexivity. Qed.

Lemma write_entries_cons a l :
  write_entries (a :: l) =
  if after_present a then a :: write_entries l else write_entries l.
Proof. reflexivity. Qed.

Lemma stage_bits_Permutation l l' :
  Permutation l l' -> stage_bits l = stage_bits l'.
Proof. intros H. apply mask_or_Permutation, Permutation_map, H. Qed.

Lemma access_bits_Permutation l l' :
  Permutation l l' -> access_bits l = access_bits l'.
Proof. intros H. apply mask_or_Permutation, Permutation_map, H. Qed.

Lemma write_entries_Permutation l l' :
  Permutation l l' -> Permutation (write_entries l) (write_entries l').
Proof.
  unfold write_entries.
  induction 1 as [| a l l' _ IH | a b l | l l' l'' _ IH1 _ IH2]; simpl.
  - constructor.
  - destruct (after_present a); auto.
  - destruct (after_present a), (after_present b); auto using perm_swap.
  - eapply perm_trans; eassumption.
Qed.

(** ** Last entries *)

Lemma last_entry_cons {A : Type} (a : A) (l : list A) :
  last_entry (a :: l) =
  match last_entry l with Some x => Some x | None => Some a end.
Proof.
  unfold last_entry. simpl. destruct (rev l); reflexivity.
Qed.

Lemma last_entry_snoc {A : Type} (l : list A) (a : A) :
  last_entry (l ++ [a]) = Some a.
Proof. unfold last_entry. rewrite rev_app_distr. reflexivity. Qed.

Lemma last_entry_In {A : Type} (l : list A) (a : A) :
  last_entry l = Some a -> In a l.
Proof.
  unfold last_entry. intros H. apply in_rev.
  destruct (rev l); simpl in H; [ discriminate | injection H as -> ].
  now left.
Qed.

Lemma last_entry_None {A : Type} (l : list A) :
  last_entry l = None -> l = [].
Proof.
  unfold last_entry. intros H.
  destruct (rev l) eqn:E; [ | discriminate ].
  rewrite <- (rev_involutive l), E. reflexivity.
Qed.

Lemma layout_after_cons resolve a l stored :
  layout_after resolve (a :: l) stored = layout_after resolve l (resolve a).
Proof.
  unfold layout_after. rewrite last_entry_cons.
  destruct (last_entry l); reflexivity.
Qed.

Lemma layout_after_nil resolve stored :
  layout_after resolve [] stored = stored.
Proof. reflexivity. Qed.

(** ** The loops in closed form *)

(** Closes the goals left by one loop iteration: both sides are the same
    record up to associativity of [Z.lor]. *)
Ltac same_state :=
  unfold or_pSrcStages, or_pDstStages, store; simpl;
  rewrite ?stage_bits_cons, ?access_bits_cons, ?Z.lor_assoc, ?Z.lor_0_r;
  reflexivity.

Ltac loop_step IH a :=
  let Hh := fresh "Hh" in
  let Hf := fresh "Hf" in
  let Hp := fresh "Hp" in
  match goal with
  | |- context [THSVS_ERROR_CHECK_POTENTIAL_HAZARD ?cfg] =>
      destruct (THSVS_ERROR_CHECK_POTENTIAL_HAZARD cfg) eqn:Hh
  end;
  cbn [ifdef assert bind negb orb forallb];
  [ match goal with
    | |- context [hazard_free a ?n] => destruct (hazard_free a n) eqn:Hf
    end;
    cbn [ifdef assert bind andb]; [ | reflexivity ] | ];
  rewrite IH, ?Hh; cbn [negb orb];
  rewrite ?write_entries_cons;
  try (destruct (after_present a) eqn:Hp);
  try match goal with
  | |- context [forallb ?f ?l] => destruct (forallb f l)
  end;
  try reflexivity; f_equal; same_state.

Lemma memory_prev_loop cfg b l : forall st,
  for_each l (memory_prev_body cfg b) st =
  if negb (THSVS_ERROR_CHECK_POTENTIAL_HAZARD cfg)
     || forallb (fun a => hazard_free a (length (glob_pPrevAccesses b))) l
  then Returns
         {| pSrcStages := Z.lor (pSrcStages st) (stage_bits l);
            pDstStages := pDstStages st;
            pVkBarrier :=
              set_mem_srcAccessMask
                (Z.lor (mem_srcAccessMask (pVkBarrier st))
                       (access_bits (write_entries l)))
                (pVkBarrier st) |}
  else Aborts.
Proof.
  induction l as [|a l IH]; intros st.
  - rewrite orb_true_r. destruct st as [s d []].
    unfold set_mem_srcAccessMask; simpl. now rewrite !Z.lor_0_r.
  - cbn [for_each]. unfold memory_prev_body at 1. loop_step IH a.
Qed.

Lemma memory_next_loop cfg b l : forall st,
  for_each l (memory_next_body cfg b) st =
  if negb (THSVS_ERROR_CHECK_POTENTIAL_HAZARD cfg)
     || forallb (fun a => hazard_free a (length (glob_pNextAccesses b))) l
  then Returns
         {| pSrcStages := pSrcStages st;
            pDstStages := Z.lor (pDstStages st) (stage_bits l);
            pVkBarrier :=
              set_mem_dstAccessMask
                (Z.lor (mem_dstAccessMask (pVkBarrier st)) (access_bits l))
                (pVkBarrier st) |}
  else Aborts.
Proof.
  induction l as [|a l IH]; intros st.
  - rewrite orb_true_r. destruct st as [s d []].
    unfold set_mem_dstAccessMask; simpl. now rewrite !Z.lor_0_r.
  - cbn [for_each]. unfold memory_next_body at 1. loop_step IH a.
Qed.

Lemma buffer_prev_loop cfg b l : forall st,
  for_each l (buffer_prev_body cfg b) st =
  if negb (THSVS_ERROR_CHECK_POTENTIAL_HAZARD cfg)
     || forallb (fun a => hazard_free a (length (bb_pPrevAccesses b))) l
  then Returns
         {| pSrcStages := Z.lor (pSrcStages st) (stage_bits l);
            pDstStages := pDstStages st;
            pVkBarrier :=
              set_buf_srcAccessMask
                (Z.lor (buf_srcAccessMask (pVkBarrier st))
                       (access_bits (write_entries l)))
                (pVkBarrier st) |}
  else Aborts.
Proof.
  induction l as [|a l IH]; intros st.
  - rewrite orb_true_r. destruct st as [s d []].
    unfold set_buf_srcAccessMask; simpl. now rewrite !Z.lor_0_r.
  - cbn [for_each]. unfold buffer_prev_body at 1. loop_step IH a.
Qed.

Lemma buffer_next_loop cfg b l : forall st,
  for_each l (buffer_next_body cfg b) st =
  if negb (THSVS_ERROR_CHECK_POTENTIAL_HAZARD cfg)
     || forallb (fun a => hazard_free a (length (bb_pNextAccesses b))) l
  then Returns
         {| pSrcStages := pSrcStages st;
            pDstStages := Z.lor (pDstStages st) (stage_bits l);
            pVkBarrier :=
              set_buf_dstAccessMask
                (Z.lor (buf_dstAccessMask (pVkBarrier st)) (access_bits l))
                (pVkBarrier st) |}
  else Aborts.
Proof.
  induction l as [|a l IH]; intros st.
  - rewrite orb_true_r. destruct st as [s d []].
    unfold set_buf_dstAccessMask; simpl. now rewrite !Z.lor_0_r.
  - cbn [for_each]. unfold buffer_next_body at 1. loop_step IH a.
Qed.

(** The image loops, in the builds without the mixed-layout check. *)
Lemma image_prev_loop cfg b l :
  THSVS_ERROR_CHECK_MIXED_IMAGE_LAYOUT cfg = false ->
  forall st,
  for_each l (image_prev_body cfg b) st =
  if negb (THSVS_ERROR_CHECK_POTENTIAL_HAZARD cfg)
     || forallb (fun a => hazard_free a (length (ib_pPrevAccesses b))) l
  then Returns
         {| pSrcStages := Z.lor (pSrcStages st) (stage_bits l);
            pDstStages := pDstStages st;
            pVkBarrier :=
              set_img_oldLayout
                (layout_after (old_layout_of b) l
                   (img_oldLayout (pVkBarrier st)))
                (set_img_srcAccessMask
                   (Z.lor (img_srcAccessMask (pVkBarrier st))
                          (access_bits (write_entries l)))
                   (pVkBarrier st)) |}
  else Aborts.
Proof.
  intros Hm. induction l as [|a l IH]; intros st.
  - rewrite orb_true_r. destruct st as [s d []].
    unfold set_img_srcAccessMask, set_img_oldLayout; simpl.
    now rewrite !Z.lor_0_r.
  - cbn [for_each]. unfold image_prev_body at 1.
    rewrite Hm, switch_is_mode_layout, layout_after_cons.
    unfold old_layout_of at 2.
    destruct (ib_discardContents b =? VK_TRUE); loop_step IH a.
Qed.

Lemma image_next_loop cfg b l :
  THSVS_ERROR_CHECK_MIXED_IMAGE_LAYOUT cfg = false ->
  forall st,
  for_each l (image_next_body cfg b) st =
  if negb (THSVS_ERROR_CHECK_POTENTIAL_HAZARD cfg)
     || forallb (fun a => hazard_free a (length (ib_pNextAccesses b))) l
  then Returns
         {| pSrcStages := pSrcStages st;
            pDstStages := Z.lor (pDstStages st) (stage_bits l);
            pVkBarrier :=
              set_img_newLayout
                (layout_after (mode_layout (ib_nextLayout b)) l
                   (img_newLayout (pVkBarrier st)))
                (set_img_dstAccessMask
                   (Z.lor (img_dstAccessMask (pVkBarrier st)) (access_bits l))
                   (pVkBarrier st)) |}
  else Aborts.
Proof.
  intros Hm. induction l as [|a l IH]; intros st.
  - rewrite orb_true_r. destruct st as [s d []].
    unfold set_img_dstAccessMask, set_img_newLayout; simpl.
    now rewrite !Z.lor_0_r.
  - cbn [for_each]. unfold image_next_body at 1.
    rewrite Hm, switch_is_mode_layout, layout_after_cons.
    loop_step IH a.
Qed.

(** ** The mapping functions in closed form *)

Lemma memory_barrier_closed cfg b st :
  thsvsGetVulkanMemoryBarrier cfg b st =
  if hazard_guard cfg (glob_pPrevAccesses b)
     && hazard_guard cfg (glob_pNextAccesses b)
  then Returns
         {| pSrcStages := Z.lor (pSrcStages st) (stage_bits (glob_pPrevAccesses b));
            pDstStages := Z.lor (pDstStages st) (stage_bits (glob_pNextAccesses b));
            pVkBarrier :=
              {| mem_sType := VK_STRUCTURE_TYPE_MEMORY_BARRIER;
                 mem_pNext := NULL;
                 mem_srcAccessMask := access_bits (write_entries (glob_pPrevAccesses b));
                 mem_dstAccessMask := access_bits (glob_pNextAccesses b) |} |}
  else Aborts.
Proof.
  unfold thsvsGetVulkanMemoryBarrier, hazard_guard.
  rewrite memory_prev_loop.
  destruct (negb _ || forallb _ (glob_pPrevAccesses b)); [ | reflexivity ].
  cbn [bind andb]. rewrite memory_next_loop.
  destruct (negb _ || forallb _ (glob_pNextAccesses b)); reflexivity.
Qed.

Lemma buffer_barrier_closed cfg b st :
  thsvsGetVulkanBufferMemoryBarrier cfg b st =
  if hazard_guard cfg (bb_pPrevAccesses b)
     && hazard_guard cfg (bb_pNextAccesses b)
  then Returns
         {| pSrcStages := Z.lor (pSrcStages st) (stage_bits (bb_pPrevAccesses b));
            pDstStages := Z.lor (pDstStages st) (stage_bits (bb_pNextAccesses b));
            pVkBarrier :=
              {| buf_sType := VK_STRUCTURE_TYPE_BUFFER_MEMORY_BARRIER;
                 buf_pNext := NULL;
                 buf_srcAccessMask := access_bits (write_entries (bb_pPrevAccesses b));
                 buf_dstAccessMask := access_bits (bb_pNextAccesses b);
                 buf_srcQueueFamilyIndex := bb_srcQueueFamilyIndex b;
                 buf_dstQueueFamilyIndex := bb_dstQueueFamilyIndex b;
                 buf_buffer := bb_buffer b;
                 buf_offset := bb_offset b;
                 buf_size := bb_size b |} |}
  else Aborts.
Proof.
  unfold thsvsGetVulkanBufferMemoryBarrier, hazard_guard.
  rewrite buffer_prev_loop.
  destruct (negb _ || forallb _ (bb_pPrevAccesses b)); [ | reflexivity ].
  cbn [bind andb]. rewrite buffer_next_loop.
  destruct (negb _ || forallb _ (bb_pNextAccesses b)); reflexivity.
Qed.

Lemma image_barrier_closed cfg b st :
  THSVS_ERROR_CHECK_MIXED_IMAGE_LAYOUT cfg = false ->
  thsvsGetVulkanImageMemoryBarrier cfg b st =
  if hazard_guard cfg (ib_pPrevAccesses b)
     && hazard_guard cfg (ib_pNextAccesses b)
  then Returns
         {| pSrcStages := Z.lor (pSrcStages st) (stage_bits (ib_pPrevAccesses b));
            pDstStages := Z.lor (pDstStages st) (stage_bits (ib_pNextAccesses b));
            pVkBarrier :=
              {| img_sType := VK_STRUCTURE_TYPE_IMAGE_MEMORY_BARRIER;
                 img_pNext := NULL;
                 img_srcAccessMask := access_bits (write_entries (ib_pPrevAccesses b));
                 img_dstAccessMask := access_bits (ib_pNextAccesses b);
                 img_oldLayout :=
                   layout_after (old_layout_of b) (ib_pPrevAccesses b)
                     (img_oldLayout (pVkBarrier st));
                 img_newLayout :=
                   layout_after (mode_layout (ib_nextLayout b))
                     (ib_pNextAccesses b) (img_newLayout (pVkBarrier st));
                 img_srcQueueFamilyIndex := ib_srcQueueFamilyIndex b;
                 img_dstQueueFamilyIndex := ib_dstQueueFamilyIndex b;
                 img_image := ib_image b;
                 img_subresourceRange := ib_subresourceRange b |} |}
  else Aborts.
Proof.
  intros Hm.
  unfold thsvsGetVulkanImageMemoryBarrier, hazard_guard.
  rewrite (image_prev_loop _ _ _ Hm).
  destruct (negb _ || forallb _ (ib_pPrevAccesses b)); [ | reflexivity ].
  cbn [bind andb]. rewrite (image_next_loop _ _ _ Hm).
  destruct (negb _ || forallb _ (ib_pNextAccesses b)); reflexivity.
Qed.

Lemma default_guard (l : list ThsvsAccessType) :
  hazard_guard default_build l = true.
Proof. reflexivity. Qed.

(** The mapping functions in the header as shipped: every call returns,
    with these contents behind the three out-pointers. *)
Lemma memory_barrier_default b st :
  thsvsGetVulkanMemoryBarrier default_build b st =
  Returns
    {| pSrcStages := Z.lor (pSrcStages st) (stage_bits (glob_pPrevAccesses b));
       pDstStages := Z.lor (pDstStages st) (stage_bits (glob_pNextAccesses b));
       pVkBarrier :=
         {| mem_sType := VK_STRUCTURE_TYPE_MEMORY_BARRIER;
            mem_pNext := NULL;
            mem_srcAccessMask := access_bits (write_entries (glob_pPrevAccesses b));
            mem_dstAccessMask := access_bits (glob_pNextAccesses b) |} |}.
Proof. rewrite memory_barrier_closed. reflexivity. Qed.

Lemma buffer_barrier_default b st :
  thsvsGetVulkanBufferMemoryBarrier default_build b st =
  Returns
    {| pSrcStages := Z.lor (pSrcStages st) (stage_bits (bb_pPrevAccesses b));
       pDstStages := Z.lor (pDstStages st) (stage_bits (bb_pNextAccesses b));
       pVkBarrier :=
         {| buf_sType := VK_STRUCTURE_TYPE_BUFFER_MEMORY_BARRIER;
            buf_pNext := NULL;
            buf_srcAccessMask := access_bits (write_entries (bb_pPrevAccesses b));
            buf_dstAccessMask := access_bits (bb_pNextAccesses b);
            buf_srcQueueFamilyIndex := bb_srcQueueFamilyIndex b;
            buf_dstQueueFamilyIndex := bb_dstQueueFamilyIndex b;
            buf_buffer := bb_buffer b;
            buf_offset := bb_offset b;
            buf_size := bb_size b |} |}.
Proof. rewrite buffer_barrier_closed. reflexivity. Qed.

Lemma image_barrier_default b st :
  thsvsGetVulkanImageMemoryBarrier default_build b st =
  Returns
    {| pSrcStages := Z.lor (pSrcStages st) (stage_bits (ib_pPrevAccesses b));
       pDstStages := Z.lor (pDstStages st) (stage_bits (ib_pNextAccesses b));
       pVkBarrier :=
         {| img_sType := VK_STRUCTURE_TYPE_IMAGE_MEMORY_BARRIER;
            img_pNext := NULL;
            img_srcAccessMask := access_bits (write_entries (ib_pPrevAccesses b));
            img_dstAccessMask := access_bits (ib_pNextAccesses b);
            img_oldLayout :=
              layout_after (old_layout_of b) (ib_pPrevAccesses b)
                (img_oldLayout (pVkBarrier st));
            img_newLayout :=
              layout_after (mode_layout (ib_nextLayout b))
                (ib_pNextAccesses b) (img_newLayout (pVkBarrier st));
            img_srcQueueFamilyIndex := ib_srcQueueFamilyIndex b;
            img_dstQueueFamilyIndex := ib_dstQueueFamilyIndex b;
            img_image := ib_image b;
            img_subresourceRange := ib_subresourceRange b |} |}.
Proof. rewrite image_barrier_closed by reflexivity. reflexivity. Qed.

(** ** Source side: reads give a stage, writes give a stage and access bits *)

Lemma write_entries_of_reads (l : list ThsvsAccessType) :
  (forall a, In a l -> (ordinal a <= ordinal THSVS_ACCESS_PRESENT)%nat) ->
  write_entries l = [].
Proof.
  induction l as [|a l IH]; intros H; [ reflexivity | ].
  rewrite write_entries_cons.
  replace (after_present a) with false.
  - apply IH. intros x Hx. apply H. now right.
  - symmetry. apply Nat.ltb_ge, H. now left.
Qed.

(** C1.  In each of the three mapping functions the source access mask
    is the OR of the table's [accessMask] over exactly the previous
    accesses that come after [THSVS_ACCESS_PRESENT] in the enumeration,
    while the [stageMask] of every previous access, read or write, is
    ORed into [*pSrcStages].  For prev = compute-shader read (other) and
    next = compute-shader write, on zeroed stage masks: source access
    mask 0, destination access mask [VK_ACCESS_SHADER_WRITE_BIT], both
    stage masks [VK_PIPELINE_STAGE_COMPUTE_SHADER_BIT]. *)
Theorem src_access_mask_skips_reads
  (g : ThsvsGlobalBarrier) (sg : MapState VkMemoryBarrier)
  (b : ThsvsBufferBarrier) (sb : MapState VkBufferMemoryBarrier)
  (i : ThsvsImageBarrier) (si : MapState VkImageMemoryBarrier)
  (vk : VkMemoryBarrier) :
  (exists st',
      thsvsGetVulkanMemoryBarrier default_build g sg = Returns st' /\
      mem_srcAccessMask (pVkBarrier st') =
        access_bits (write_entries (glob_pPrevAccesses g)) /\
      pSrcStages st' = Z.lor (pSrcStages sg) (stage_bits (glob_pPrevAccesses g)))
  /\
  (exists st',
      thsvsGetVulkanBufferMemoryBarrier default_build b sb = Returns st' /\
      buf_srcAccessMask (pVkBarrier st') =
        access_bits (write_entries (bb_pPrevAccesses b)) /\
      pSrcStages st' = Z.lor (pSrcStages sb) (stage_bits (bb_pPrevAccesses b)))
  /\
  (exists st',
      thsvsGetVulkanImageMemoryBarrier default_build i si = Returns st' /\
      img_srcAccessMask (pVkBarrier st') =
        access_bits (write_entries (ib_pPrevAccesses i)) /\
      pSrcStages st' = Z.lor (pSrcStages si) (stage_bits (ib_pPrevAccesses i)))
  /\
  thsvsGetVulkanMemoryBarrier default_build
    {| glob_pPrevAccesses := [THSVS_ACCESS_COMPUTE_SHADER_READ_OTHER];
       glob_pNextAccesses := [THSVS_ACCESS_COMPUTE_SHADER_WRITE] |}
    (zero_state vk) =
  Returns
    {| pSrcStages := VK_PIPELINE_STAGE_COMPUTE_SHADER_BIT;
       pDstStages := VK_PIPELINE_STAGE_COMPUTE_SHADER_BIT;
       pVkBarrier :=
         {| mem_sType := VK_STRUCTURE_TYPE_MEMORY_BARRIER;
            mem_pNext := NULL;
            mem_srcAccessMask := 0;
            mem_dstAccessMask := VK_ACCESS_SHADER_WRITE_BIT |} |}.
Proof.
  split; [ | split; [ | split ] ].
  - eexists. split; [ apply memory_barrier_default | split; reflexivity ].
  - eexists. split; [ apply buffer_barrier_default | split; reflexivity ].
  - eexists. split; [ apply image_barrier_default | split; reflexivity ].
  - rewrite memory_barrier_default. reflexivity.
Qed.

(** ** Destination side: every next access gives its stage and access bits *)

(** C3.  In each of the three mapping functions the destination access
    mask is the OR of the table's [accessMask] over all next accesses,
    with no filter, and the [stageMask] of every next access is ORed into
    [*pDstStages].  For prev = compute-shader write and next = index
    buffer, compute-shader uniform-buffer read, on zeroed stage masks:
    destination stages vertex-input | compute-shader, destination access
    mask index-read | uniform-read. *)
Theorem dst_masks_union_all_next
  (g : ThsvsGlobalBarrier) (sg : MapState VkMemoryBarrier)
  (b : ThsvsBufferBarrier) (sb : MapState VkBufferMemoryBarrier)
  (i : ThsvsImageBarrier) (si : MapState VkImageMemoryBarrier)
  (vk : VkMemoryBarrier) :
  (exists st',
      thsvsGetVulkanMemoryBarrier default_build g sg = Returns st' /\
      mem_dstAccessMask (pVkBarrier st') = access_bits (glob_pNextAccesses g) /\
      pDstStages st' = Z.lor (pDstStages sg) (stage_bits (glob_pNextAccesses g)))
  /\
  (exists st',
      thsvsGetVulkanBufferMemoryBarrier default_build b sb = Returns st' /\
      buf_dstAccessMask (pVkBarrier st') = access_bits (bb_pNextAccesses b) /\
      pDstStages st' = Z.lor (pDstStages sb) (stage_bits (bb_pNextAccesses b)))
  /\
  (exists st',
      thsvsGetVulkanImageMemoryBarrier default_build i si = Returns st' /\
      img_dstAccessMask (pVkBarrier st') = access_bits (ib_pNextAccesses i) /\
      pDstStages st' = Z.lor (pDstStages si) (stage_bits (ib_pNextAccesses i)))
  /\
  (exists st',
      thsvsGetVulkanMemoryBarrier default_build
        {| glob_pPrevAccesses := [THSVS_ACCESS_COMPUTE_SHADER_WRITE];
           glob_pNextAccesses :=
             [THSVS_ACCESS_INDEX_BUFFER;
              THSVS_ACCESS_COMPUTE_SHADER_READ_UNIFORM_BUFFER] |}
        (zero_state vk) = Returns st' /\
      pDstStages st' =
        Z.lor VK_PIPELINE_STAGE_VERTEX_INPUT_BIT
              VK_PIPELINE_STAGE_COMPUTE_SHADER_BIT /\
      mem_dstAccessMask (pVkBarrier st') =
        Z.lor VK_ACCESS_INDEX_READ_BIT VK_ACCESS_UNIFORM_READ_BIT).
Proof.
  split; [ | split; [ | split ] ].
  - eexists. split; [ apply memory_barrier_default | split; reflexivity ].
  - eexists. split; [ apply buffer_barrier_default | split; reflexivity ].
  - eexists. split; [ apply image_barrier_default | split; reflexivity ].
  - eexists. split; [ apply memory_barrier_default | split; reflexivity ].
Qed.

(** ** Empty lists *)

(** C6.  With no previous and no next access the global mapping function
    stores zero in both access masks and leaves [*pSrcStages] and
    [*pDstStages] as the caller set them: it adds no top-of-pipe or
    bottom-of-pipe bit of its own. *)
Theorem empty_global_barrier_keeps_stages (st : MapState VkMemoryBarrier) :
  thsvsGetVulkanMemoryBarrier default_build
    {| glob_pPrevAccesses := []; glob_pNextAccesses := [] |} st =
  Returns
    {| pSrcStages := pSrcStages st;
       pDstStages := pDstStages st;
       pVkBarrier :=
         {| mem_sType := VK_STRUCTURE_TYPE_MEMORY_BARRIER;
            mem_pNext := NULL;
            mem_srcAccessMask := 0;
            mem_dstAccessMask := 0 |} |}.
Proof.
  rewrite memory_barrier_default. cbn [glob_pPrevAccesses glob_pNextAccesses].
  unfold stage_bits, access_bits, write_entries. cbn [filter map mask_or fold_right].
  now rewrite !Z.lor_0_r.
Qed.

(** ** Fields passed through *)

(** C8.  The buffer mapping function copies the queue family indices,
    the buffer, the offset and the size of the barrier into the Vulkan
    barrier, and the image mapping function the queue family indices,
    the image and the subresource range, whatever the access lists
    are. *)
Theorem opaque_fields_pass_through
  (b : ThsvsBufferBarrier) (sb : MapState VkBufferMemoryBarrier)
  (i : ThsvsImageBarrier) (si : MapState VkImageMemoryBarrier) :
  (exists st',
      thsvsGetVulkanBufferMemoryBarrier default_build b sb = Returns st' /\
      buf_srcQueueFamilyIndex (pVkBarrier st') = bb_srcQueueFamilyIndex b /\
      buf_dstQueueFamilyIndex (pVkBarrier st') = bb_dstQueueFamilyIndex b /\
      buf_buffer (pVkBarrier st') = bb_buffer b /\
      buf_offset (pVkBarrier st') = bb_offset b /\
      buf_size (pVkBarrier st') = bb_size b)
  /\
  (exists st',
      thsvsGetVulkanImageMemoryBarrier default_build i si = Returns st' /\
      img_srcQueueFamilyIndex (pVkBarrier st') = ib_srcQueueFamilyIndex i /\
      img_dstQueueFamilyIndex (pVkBarrier st') = ib_dstQueueFamilyIndex i /\
      img_image (pVkBarrier st') = ib_image i /\
      img_subresourceRange (pVkBarrier st') = ib_subresourceRange i).
Proof.
  split.
  - eexists. split; [ apply buffer_barrier_default | repeat split ].
  - eexists. split; [ apply image_barrier_default | repeat split ].
Qed.

(** ** Image layouts *)

(** C4.  The new layout the image mapping function computes for a next
    access [a] (the value [newLayout] holds once [a], the last entry of
    the list [l ++ [a]], has been processed): in mode GENERAL it is
    [VK_IMAGE_LAYOUT_GENERAL], except for [THSVS_ACCESS_PRESENT] where it
    is [VK_IMAGE_LAYOUT_PRESENT_SRC_KHR]; in mode
    GENERAL_AND_PRESENTATION it is [VK_IMAGE_LAYOUT_SHARED_PRESENT_KHR]
    for every access; in mode OPTIMAL it is the [imageLayout] of the
    access in the table.  The old layout is computed from a previous
    access in the same way when [discardContents] is not [VK_TRUE]. *)
Theorem layout_follows_mode
  (b : ThsvsImageBarrier) (st : MapState VkImageMemoryBarrier) :
  exists st',
    thsvsGetVulkanImageMemoryBarrier default_build b st = Returns st' /\
    (forall l a, ib_pNextAccesses b = l ++ [a] ->
       (ib_nextLayout b = THSVS_IMAGE_LAYOUT_GENERAL ->
        a = THSVS_ACCESS_PRESENT ->
        img_newLayout (pVkBarrier st') = VK_IMAGE_LAYOUT_PRESENT_SRC_KHR) /\
       (ib_nextLayout b = THSVS_IMAGE_LAYOUT_GENERAL ->
        a <> THSVS_ACCESS_PRESENT ->
        img_newLayout (pVkBarrier st') = VK_IMAGE_LAYOUT_GENERAL) /\
       (ib_nextLayout b = THSVS_IMAGE_LAYOUT_GENERAL_AND_PRESENTATION ->
        img_newLayout (pVkBarrier st') = VK_IMAGE_LAYOUT_SHARED_PRESENT_KHR) /\
       (ib_nextLayout b = THSVS_IMAGE_LAYOUT_OPTIMAL ->
        img_newLayout (pVkBarrier st') = imageLayout (access_info a))) /\
    (forall l a, ib_pPrevAccesses b = l ++ [a] ->
       ib_discardContents b <> VK_TRUE ->
       (ib_prevLayout b = THSVS_IMAGE_LAYOUT_GENERAL ->
        a = THSVS_ACCESS_PRESENT ->
        img_oldLayout (pVkBarrier st') = VK_IMAGE_LAYOUT_PRESENT_SRC_KHR) /\
       (ib_prevLayout b = THSVS_IMAGE_LAYOUT_GENERAL ->
        a <> THSVS_ACCESS_PRESENT ->
        img_oldLayout (pVkBarrier st') = VK_IMAGE_LAYOUT_GENERAL) /\
       (ib_prevLayout b = THSVS_IMAGE_LAYOUT_GENERAL_AND_PRESENTATION ->
        img_oldLayout (pVkBarrier st') = VK_IMAGE_LAYOUT_SHARED_PRESENT_KHR) /\
       (ib_prevLayout b = THSVS_IMAGE_LAYOUT_OPTIMAL ->
        img_oldLayout (pVkBarrier st') = imageLayout (access_info a))).
Proof.
  eexists. split; [ apply image_barrier_default | ].
  cbn [pVkBarrier img_newLayout img_oldLayout]. split.
  - intros l a ->. unfold layout_after. rewrite last_entry_snoc.
    repeat split; intros ->; try reflexivity.
    + intros ->. reflexivity.
    + intros Ha. destruct a; try reflexivity. now elim Ha.
  - intros l a -> Hd. unfold layout_after. rewrite last_entry_snoc.
    unfold old_layout_of.
    destruct (Z.eqb_spec (ib_discardContents b) VK_TRUE) as [E|_];
      [ now elim Hd | ].
    repeat split; intros ->; try reflexivity.
    + intros ->. reflexivity.
    + intros Ha. destruct a; try reflexivity. now elim Ha.
Qed.

Lemma layout_follows_mode_witness :
  exists st',
    thsvsGetVulkanImageMemoryBarrier default_build
      (color_write_then_sample VK_FALSE)
      (zero_state zero_image_barrier) = Returns st' /\
    img_newLayout (pVkBarrier st') = VK_IMAGE_LAYOUT_SHADER_READ_ONLY_OPTIMAL /\
    img_oldLayout (pVkBarrier st') = VK_IMAGE_LAYOUT_COLOR_ATTACHMENT_OPTIMAL.
Proof.
  destruct (layout_follows_mode (color_write_then_sample VK_FALSE)
              (zero_state zero_image_barrier)) as (st' & E & Hnew & Hold).
  exists st'. split; [ exact E | split ].
  - apply (Hnew []
             THSVS_ACCESS_FRAGMENT_SHADER_READ_SAMPLED_IMAGE_OR_UNIFORM_TEXEL_BUFFER
             eq_refl).
    reflexivity.
  - apply (Hold [] THSVS_ACCESS_COLOR_ATTACHMENT_WRITE eq_refl).
    + discriminate.
    + reflexivity.
Defined.

(** C5.  With at least one previous access and [discardContents] equal
    to [VK_TRUE], the image mapping function leaves
    [VK_IMAGE_LAYOUT_UNDEFINED] in [oldLayout], whatever the previous
    layout mode and the previous accesses are. *)
Theorem discard_gives_undefined_old_layout
  (b : ThsvsImageBarrier) (st : MapState VkImageMemoryBarrier) :
  ib_pPrevAccesses b <> [] ->
  ib_discardContents b = VK_TRUE ->
  exists st',
    thsvsGetVulkanImageMemoryBarrier default_build b st = Returns st' /\
    img_oldLayout (pVkBarrier st') = VK_IMAGE_LAYOUT_UNDEFINED.
Proof.
  intros Hne Hd. eexists. split; [ apply image_barrier_default | ].
  cbn [pVkBarrier img_oldLayout]. unfold layout_after.
  destruct (last_entry (ib_pPrevAccesses b)) as [a|] eqn:E.
  - unfold old_layout_of. rewrite Hd. reflexivity.
  - apply last_entry_None in E. now elim Hne.
Qed.

Lemma discard_gives_undefined_old_layout_witness :
  exists st',
    thsvsGetVulkanImageMemoryBarrier default_build
      (color_write_then_sample VK_TRUE)
      (zero_state stale_image_barrier) = Returns st' /\
    img_oldLayout (pVkBarrier st') = VK_IMAGE_LAYOUT_UNDEFINED.
Proof.
  apply (discard_gives_undefined_old_layout (color_write_then_sample VK_TRUE)
           (zero_state stale_image_barrier)).
  - discriminate.
  - reflexivity.
Defined.

(** C9.  The image mapping function stores to [oldLayout] only in the
    loop over the previous accesses and to [newLayout] only in the loop
    over the next accesses: with no previous access [oldLayout] still
    holds what the caller's storage held, also when [discardContents] is
    [VK_TRUE], and with no next access [newLayout] does. *)
Theorem layouts_untouched_without_accesses
  (b : ThsvsImageBarrier) (st : MapState VkImageMemoryBarrier) :
  exists st',
    thsvsGetVulkanImageMemoryBarrier default_build b st = Returns st' /\
    (ib_pPrevAccesses b = [] ->
     img_oldLayout (pVkBarrier st') = img_oldLayout (pVkBarrier st)) /\
    (ib_pNextAccesses b = [] ->
     img_newLayout (pVkBarrier st') = img_newLayout (pVkBarrier st)).
Proof.
  eexists. split; [ apply image_barrier_default | ].
  cbn [pVkBarrier img_oldLayout img_newLayout].
  split; intros ->; apply layout_after_nil.
Qed.

Lemma layouts_untouched_without_accesses_witness :
  ib_discardContents empty_discard_barrier = VK_TRUE /\
  exists st',
    thsvsGetVulkanImageMemoryBarrier default_build empty_discard_barrier
      (zero_state stale_image_barrier) = Returns st' /\
    img_oldLayout (pVkBarrier st') = VK_IMAGE_LAYOUT_TRANSFER_DST_OPTIMAL /\
    img_newLayout (pVkBarrier st') = VK_IMAGE_LAYOUT_PREINITIALIZED.
Proof.
  split; [ reflexivity | ].
  destruct (layouts_untouched_without_accesses empty_discard_barrier
              (zero_state stale_image_barrier)) as (st' & E & Hold & Hnew).
  exists st'. split; [ exact E | split ].
  - apply (Hold eq_refl).
  - apply (Hnew eq_refl).
Defined.

(** ** Permuting the access lists *)

Lemma Permutation_nil_last_entry {A : Type} (l l' : list A) :
  Permutation l l' -> last_entry l = None -> last_entry l' = None.
Proof.
  intros HP E. apply last_entry_None in E. subst l.
  apply Permutation_nil in HP. now subst l'.
Qed.

(** When all entries resolve alike, the layout a loop leaves does not
    depend on which entry comes last. *)
Lemma layout_after_Permutation resolve l l' stored :
  Permutation l l' ->
  (forall a a', In a l -> In a' l -> resolve a = resolve a') ->
  layout_after resolve l stored = layout_after resolve l' stored.
Proof.
  intros HP Hsame. unfold layout_after.
  destruct (last_entry l) as [a|] eqn:E, (last_entry l') as [a'|] eqn:E'.
  - apply Hsame.
    + now apply last_entry_In.
    + apply Permutation_in with (l := l'); [ now symmetry | ].
      now apply last_entry_In.
  - apply Permutation_sym in HP.
    rewrite (Permutation_nil_last_entry _ _ HP E') in E. discriminate.
  - rewrite (Permutation_nil_last_entry _ _ HP E) in E'. discriminate.
  - reflexivity.
Qed.

(** C2, as the code does not have it.  The two barriers differ only in
    the order of their two previous reads, and the image mapping function
    leaves different old layouts: the layout of whichever read is
    last. *)
Lemma swapped_reads_change_old_layout :
  Permutation (ib_pPrevAccesses two_layout_barrier)
              (ib_pPrevAccesses two_layout_barrier_swapped) /\
  Permutation (ib_pNextAccesses two_layout_barrier)
              (ib_pNextAccesses two_layout_barrier_swapped) /\
  exists r r',
    thsvsGetVulkanImageMemoryBarrier default_build two_layout_barrier
      (zero_state zero_image_barrier) = Returns r /\
    thsvsGetVulkanImageMemoryBarrier default_build two_layout_barrier_swapped
      (zero_state zero_image_barrier) = Returns r' /\
    img_oldLayout (pVkBarrier r) = VK_IMAGE_LAYOUT_TRANSFER_SRC_OPTIMAL /\
    img_oldLayout (pVkBarrier r') = VK_IMAGE_LAYOUT_SHADER_READ_ONLY_OPTIMAL /\
    r <> r'.
Proof.
  split; [ apply perm_swap | split; [ apply Permutation_refl | ] ].
  do 2 eexists.
  split; [ reflexivity | split; [ reflexivity | ] ].
  split; [ reflexivity | split; [ reflexivity | discriminate ] ].
Qed.

(** C2, amended.  Permuting the previous or the next accesses never
    changes the stage masks and the access masks of any of the three
    mapping functions, so the global and the buffer barrier are
    unchanged as a whole.  Of an image barrier, [oldLayout] is unchanged
    when [discardContents] is [VK_TRUE] or all previous accesses resolve
    to one layout in the previous mode, and [newLayout] is unchanged
    when all next accesses resolve to one layout in the next mode; with
    both, the image barrier is unchanged as a whole. *)
Theorem permuted_lists_same_masks
  (prev prev' next next' : list ThsvsAccessType) :
  Permutation prev prev' ->
  Permutation next next' ->
  (forall st,
     thsvsGetVulkanMemoryBarrier default_build
       {| glob_pPrevAccesses := prev; glob_pNextAccesses := next |} st =
     thsvsGetVulkanMemoryBarrier default_build
       {| glob_pPrevAccesses := prev'; glob_pNextAccesses := next' |} st)
  /\
  (forall srcQ dstQ buffer offset size st,
     thsvsGetVulkanBufferMemoryBarrier default_build
       {| bb_pPrevAccesses := prev; bb_pNextAccesses := next;
          bb_srcQueueFamilyIndex := srcQ; bb_dstQueueFamilyIndex := dstQ;
          bb_buffer := buffer; bb_offset := offset; bb_size := size |} st =
     thsvsGetVulkanBufferMemoryBarrier default_build
       {| bb_pPrevAccesses := prev'; bb_pNextAccesses := next';
          bb_srcQueueFamilyIndex := srcQ; bb_dstQueueFamilyIndex := dstQ;
          bb_buffer := buffer; bb_offset := offset; bb_size := size |} st)
  /\
  (forall prevLayout nextLayout discard srcQ dstQ image range st,
     let b :=
       {| ib_pPrevAccesses := prev; ib_pNextAccesses := next;
          ib_prevLayout := prevLayout; ib_nextLayout := nextLayout;
          ib_discardContents := discard;
          ib_srcQueueFamilyIndex := srcQ; ib_dstQueueFamilyIndex := dstQ;
          ib_image := image; ib_subresourceRange := range |} in
     let b' :=
       {| ib_pPrevAccesses := prev'; ib_pNextAccesses := next';
          ib_prevLayout := prevLayout; ib_nextLayout := nextLayout;
          ib_discardContents := discard;
          ib_srcQueueFamilyIndex := srcQ; ib_dstQueueFamilyIndex := dstQ;
          ib_image := image; ib_subresourceRange := range |} in
     exists r r',
       thsvsGetVulkanImageMemoryBarrier default_build b st = Returns r /\
       thsvsGetVulkanImageMemoryBarrier default_build b' st = Returns r' /\
       pSrcStages r = pSrcStages r' /\
       pDstStages r = pDstStages r' /\
       img_srcAccessMask (pVkBarrier r) = img_srcAccessMask (pVkBarrier r') /\
       img_dstAccessMask (pVkBarrier r) = img_dstAccessMask (pVkBarrier r') /\
       (discard = VK_TRUE \/ one_layout prevLayout prev ->
        img_oldLayout (pVkBarrier r) = img_oldLayout (pVkBarrier r')) /\
       (one_layout nextLayout next ->
        img_newLayout (pVkBarrier r) = img_newLayout (pVkBarrier r')) /\
       (discard = VK_TRUE \/ one_layout prevLayout prev ->
        one_layout nextLayout next ->
        r = r')).
Proof.
  intros Hprev Hnext.
  pose proof (stage_bits_Permutation _ _ Hprev) as Hsp.
  pose proof (stage_bits_Permutation _ _ Hnext) as Hsn.
  pose proof (access_bits_Permutation _ _ Hnext) as Han.
  pose proof (access_bits_Permutation _ _ (write_entries_Permutation _ _ Hprev))
    as Hap.
  split; [ | split ].
  - intros st. rewrite !memory_barrier_default. cbn [glob_pPrevAccesses glob_pNextAccesses].
    now rewrite Hsp, Hsn, Han, Hap.
  - intros srcQ dstQ buffer offset size st. rewrite !buffer_barrier_default.
    cbn [bb_pPrevAccesses bb_pNextAccesses bb_srcQueueFamilyIndex
         bb_dstQueueFamilyIndex bb_buffer bb_offset bb_size].
    now rewrite Hsp, Hsn, Han, Hap.
  - intros prevLayout nextLayout discard srcQ dstQ image range st b b'.
    assert (Hold : discard = VK_TRUE \/ one_layout prevLayout prev ->
                   forall stored,
                   layout_after (old_layout_of b) prev stored =
                   layout_after (old_layout_of b') prev' stored).
    { intros H stored.
      apply (layout_after_Permutation (old_layout_of b) prev prev' stored Hprev).
      intros a a' Ha Ha'. unfold old_layout_of, b. cbn [ib_discardContents ib_prevLayout].
      destruct H as [-> | H]; [ reflexivity | ].
      destruct (discard =? VK_TRUE); [ reflexivity | now apply H ]. }
    assert (Hnew : one_layout nextLayout next ->
                   forall stored,
                   layout_after (mode_layout nextLayout) next stored =
                   layout_after (mode_layout nextLayout) next' stored).
    { intros H stored. now apply layout_after_Permutation. }
    do 2 eexists.
    split; [ apply image_barrier_default | ].
    split; [ apply image_barrier_default | ].
    unfold b, b'.
    cbn [pSrcStages pDstStages pVkBarrier img_srcAccessMask img_dstAccessMask
         img_oldLayout img_newLayout ib_pPrevAccesses ib_pNextAccesses
         ib_nextLayout ib_srcQueueFamilyIndex ib_dstQueueFamilyIndex
         ib_image ib_subresourceRange].
    repeat split; try congruence.
    + intros H. apply (Hold H).
    + intros H. apply (Hnew H).
    + intros H1 H2.
      rewrite Hsp, Hsn, Han, Hap.
      fold b b'. rewrite (Hold H1), (Hnew H2). reflexivity.
Qed.

Lemma permuted_lists_same_masks_witness :
  thsvsGetVulkanImageMemoryBarrier default_build
    {| ib_pPrevAccesses :=
         [THSVS_ACCESS_FRAGMENT_SHADER_READ_SAMPLED_IMAGE_OR_UNIFORM_TEXEL_BUFFER;
          THSVS_ACCESS_COMPUTE_SHADER_READ_SAMPLED_IMAGE_OR_UNIFORM_TEXEL_BUFFER];
       ib_pNextAccesses := [THSVS_ACCESS_COLOR_ATTACHMENT_WRITE];
       ib_prevLayout := THSVS_IMAGE_LAYOUT_OPTIMAL;
       ib_nextLayout := THSVS_IMAGE_LAYOUT_OPTIMAL;
       ib_discardContents := VK_FALSE;
       ib_srcQueueFamilyIndex := 0; ib_dstQueueFamilyIndex := 0;
       ib_image := 0; ib_subresourceRange := zero_range |}
    (zero_state zero_image_barrier) =
  thsvsGetVulkanImageMemoryBarrier default_build
    {| ib_pPrevAccesses :=
         [THSVS_ACCESS_COMPUTE_SHADER_READ_SAMPLED_IMAGE_OR_UNIFORM_TEXEL_BUFFER;
          THSVS_ACCESS_FRAGMENT_SHADER_READ_SAMPLED_IMAGE_OR_UNIFORM_TEXEL_BUFFER];
       ib_pNextAccesses := [THSVS_ACCESS_COLOR_ATTACHMENT_WRITE];
       ib_prevLayout := THSVS_IMAGE_LAYOUT_OPTIMAL;
       ib_nextLayout := THSVS_IMAGE_LAYOUT_OPTIMAL;
       ib_discardContents := VK_FALSE;
       ib_srcQueueFamilyIndex := 0; ib_dstQueueFamilyIndex := 0;
       ib_image := 0; ib_subresourceRange := zero_range |}
    (zero_state zero_image_barrier).
Proof.
  destruct (permuted_lists_same_masks
              [THSVS_ACCESS_FRAGMENT_SHADER_READ_SAMPLED_IMAGE_OR_UNIFORM_TEXEL_BUFFER;
               THSVS_ACCESS_COMPUTE_SHADER_READ_SAMPLED_IMAGE_OR_UNIFORM_TEXEL_BUFFER]
              [THSVS_ACCESS_COMPUTE_SHADER_READ_SAMPLED_IMAGE_OR_UNIFORM_TEXEL_BUFFER;
               THSVS_ACCESS_FRAGMENT_SHADER_READ_SAMPLED_IMAGE_OR_UNIFORM_TEXEL_BUFFER]
              [THSVS_ACCESS_COLOR_ATTACHMENT_WRITE]
              [THSVS_ACCESS_COLOR_ATTACHMENT_WRITE]
              (perm_swap _ _ _) (Permutation_refl _)) as (_ & _ & Himg).
  destruct (Himg THSVS_IMAGE_LAYOUT_OPTIMAL THSVS_IMAGE_LAYOUT_OPTIMAL VK_FALSE
              0 0 0 zero_range (zero_state zero_image_barrier))
    as (r & r' & E & E' & _ & _ & _ & _ & _ & _ & Hall).
  rewrite E, E'. f_equal. apply Hall.
  - right. intros a a' [<-|[<-|[]]] [<-|[<-|[]]]; reflexivity.
  - intros a a' [<-|[]] [<-|[]]; reflexivity.
Defined.

(** ** The potential-hazard check *)

Lemma forallb_false {A : Type} (f : A -> bool) (l : list A) :
  forallb f l = false <-> exists x, In x l /\ f x = false.
Proof.
  induction l as [|a l IH]; simpl.
  - split; [ discriminate | intros (x & [] & _) ].
  - rewrite andb_false_iff, IH. split.
    + intros [H | (x & Hx & Hf)]; [ exists a | exists x ]; auto.
    + intros (x & [<- | Hx] & Hf); [ now left | right; now exists x ].
Qed.

Lemma hazard_free_false (a : ThsvsAccessType) (n : nat) :
  hazard_free a n = false <->
  (ordinal THSVS_ACCESS_PRESENT < ordinal a)%nat /\ n <> 1%nat.
Proof.
  unfold hazard_free.
  rewrite orb_false_iff, Nat.leb_gt, Nat.eqb_neq. reflexivity.
Qed.

(** An assertion of the hazard build fails on a list exactly when the
    list mixes a write with something else. *)
Lemma hazard_guard_false (l : list ThsvsAccessType) :
  hazard_guard hazard_build l = false <-> mixes_write l.
Proof.
  unfold hazard_guard, mixes_write. cbn [hazard_build
    THSVS_ERROR_CHECK_POTENTIAL_HAZARD negb orb].
  rewrite forallb_false. split.
  - intros (a & Ha & Hf). apply hazard_free_false in Hf as [Hw Hn].
    split; [ | now exists a ].
    destruct l as [|x [|y l]]; simpl in *; [ contradiction | congruence | lia ].
  - intros (Hlen & a & Ha & Hw). exists a. split; [ exact Ha | ].
    apply hazard_free_false. split; [ exact Hw | lia ].
Qed.

Lemma guards_false (l l' : list ThsvsAccessType) :
  hazard_guard hazard_build l && hazard_guard hazard_build l' = false <->
  mixes_write l \/ mixes_write l'.
Proof. now rewrite andb_false_iff, !hazard_guard_false. Qed.

(** C7.  In the build with the potential-hazard check, each mapping
    function dies in a failed assertion if and only if the previous or
    the next list has more than one entry and holds an entry after
    [THSVS_ACCESS_PRESENT] in the enumeration.  So lists of reads and
    lists of one entry never stop it.  There is no third outcome: a call
    that does not die returns what the unchecked build returns. *)
Theorem hazard_assert_fails_iff_write_mixed
  (g : ThsvsGlobalBarrier) (sg : MapState VkMemoryBarrier)
  (b : ThsvsBufferBarrier) (sb : MapState VkBufferMemoryBarrier)
  (i : ThsvsImageBarrier) (si : MapState VkImageMemoryBarrier) :
  ((thsvsGetVulkanMemoryBarrier hazard_build g sg = Aborts <->
    mixes_write (glob_pPrevAccesses g) \/ mixes_write (glob_pNextAccesses g))
   /\
   (thsvsGetVulkanMemoryBarrier hazard_build g sg = Aborts \/
    thsvsGetVulkanMemoryBarrier hazard_build g sg =
    thsvsGetVulkanMemoryBarrier default_build g sg))
  /\
  ((thsvsGetVulkanBufferMemoryBarrier hazard_build b sb = Aborts <->
    mixes_write (bb_pPrevAccesses b) \/ mixes_write (bb_pNextAccesses b))
   /\
   (thsvsGetVulkanBufferMemoryBarrier hazard_build b sb = Aborts \/
    thsvsGetVulkanBufferMemoryBarrier hazard_build b sb =
    thsvsGetVulkanBufferMemoryBarrier default_build b sb))
  /\
  ((thsvsGetVulkanImageMemoryBarrier hazard_build i si = Aborts <->
    mixes_write (ib_pPrevAccesses i) \/ mixes_write (ib_pNextAccesses i))
   /\
   (thsvsGetVulkanImageMemoryBarrier hazard_build i si = Aborts \/
    thsvsGetVulkanImageMemoryBarrier hazard_build i si =
    thsvsGetVulkanImageMemoryBarrier default_build i si)).
Proof.
  split; [ | split ].
  - rewrite memory_barrier_default, memory_barrier_closed, <- guards_false.
    destruct (hazard_guard hazard_build (glob_pPrevAccesses g)
              && hazard_guard hazard_build (glob_pNextAccesses g));
      split; try (split; [ discriminate | discriminate ]); auto.
    split; reflexivity.
  - rewrite buffer_barrier_default, buffer_barrier_closed, <- guards_false.
    destruct (hazard_guard hazard_build (bb_pPrevAccesses b)
              && hazard_guard hazard_build (bb_pNextAccesses b));
      split; try (split; [ discriminate | discriminate ]); auto.
    split; reflexivity.
  - rewrite image_barrier_default, image_barrier_closed, <- guards_false
      by reflexivity.
    destruct (hazard_guard hazard_build (ib_pPrevAccesses i)
              && hazard_guard hazard_build (ib_pNextAccesses i));
      split; try (split; [ discriminate | discriminate ]); auto.
    split; reflexivity.
Qed.

Lemma hazard_assert_fails_iff_write_mixed_witness :
  thsvsGetVulkanMemoryBarrier hazard_build
    {| glob_pPrevAccesses :=
         [THSVS_ACCESS_COMPUTE_SHADER_WRITE; THSVS_ACCESS_TRANSFER_READ];
       glob_pNextAccesses := [THSVS_ACCESS_INDEX_BUFFER] |}
    (zero_state zero_memory_barrier) = Aborts.
Proof.
  apply (proj2 (proj1 (proj1
           (hazard_assert_fails_iff_write_mixed
              {| glob_pPrevAccesses :=
                   [THSVS_ACCESS_COMPUTE_SHADER_WRITE; THSVS_ACCESS_TRANSFER_READ];
                 glob_pNextAccesses := [THSVS_ACCESS_INDEX_BUFFER] |}
              (zero_state zero_memory_barrier)
              {| bb_pPrevAccesses := []; bb_pNextAccesses := [];
                 bb_srcQueueFamilyIndex := 0; bb_dstQueueFamilyIndex := 0;
                 bb_buffer := 0; bb_offset := 0; bb_size := 0 |}
              (zero_state zero_buffer_barrier)
              empty_discard_barrier
              (zero_state zero_image_barrier))))).
  left. split.
  - simpl. lia.
  - exists THSVS_ACCESS_COMPUTE_SHADER_WRITE. split.
    + left. reflexivity.
    + vm_compute. lia.
Defined.

(** ** The batching wrappers *)

Lemma has_bits_lor (m x bits : Z) :
  has_bits m bits -> has_bits (Z.lor m x) bits.
Proof.
  unfold has_bits. intros H.
  rewrite Z.land_lor_distr_l, H.
  apply Z.bits_inj'. intros n _.
  rewrite Z.lor_spec, Z.land_spec.
  destruct (Z.testbit bits n), (Z.testbit x n); reflexivity.
Qed.

Lemma ored_into_refl (m : Z) : ored_into m m.
Proof. exists 0. now rewrite Z.lor_0_r. Qed.

Lemma ored_into_trans (m1 m2 m3 : Z) :
  ored_into m1 m2 -> ored_into m2 m3 -> ored_into m1 m3.
Proof.
  intros [x ->] [y ->]. exists (Z.lor x y). now rewrite Z.lor_assoc.
Qed.

Lemma ored_into_has_bits (m m' bits : Z) :
  ored_into m m' -> has_bits m bits -> has_bits m' bits.
Proof. intros [x ->]. apply has_bits_lor. Qed.

(** A loop over barriers whose mapping function always returns and only
    ORs into the stage masks does the same as a whole. *)
Lemma map_barriers_ored {TB VB : Type}
  (get : TB -> MapState VB -> run (MapState VB)) (pOut : nat -> VB) :
  (forall b st, exists st',
      get b st = Returns st' /\
      ored_into (pSrcStages st) (pSrcStages st') /\
      ored_into (pDstStages st) (pDstStages st')) ->
  forall l i src dst, exists r,
    map_barriers get pOut i l src dst = Returns r /\
    ored_into src (fst (fst r)) /\
    ored_into dst (snd (fst r)) /\
    length (snd r) = length l.
Proof.
  intros Hget. induction l as [|b l IH]; intros i src dst.
  - eexists. split; [ reflexivity | ].
    cbn [fst snd]. repeat split; apply ored_into_refl.
  - cbn [map_barriers].
    destruct (Hget b {| pSrcStages := src; pDstStages := dst;
                        pVkBarrier := pOut i |}) as (st' & -> & Hs & Hd).
    cbn [bind pSrcStages pDstStages] in *.
    destruct (IH (S i) (pSrcStages st') (pDstStages st'))
      as (r & -> & Hs' & Hd' & Hlen).
    cbn [bind]. eexists. split; [ reflexivity | ].
    cbn [fst snd length].
    repeat split; try (eapply ored_into_trans; eassumption).
    now rewrite Hlen.
Qed.

Lemma memory_barrier_ored g st : exists st',
  thsvsGetVulkanMemoryBarrier default_build g st = Returns st' /\
  ored_into (pSrcStages st) (pSrcStages st') /\
  ored_into (pDstStages st) (pDstStages st').
Proof.
  eexists. split; [ apply memory_barrier_default | ].
  split; eexists; reflexivity.
Qed.

Lemma buffer_barrier_ored b st : exists st',
  thsvsGetVulkanBufferMemoryBarrier default_build b st = Returns st' /\
  ored_into (pSrcStages st) (pSrcStages st') /\
  ored_into (pDstStages st) (pDstStages st').
Proof.
  eexists. split; [ apply buffer_barrier_default | ].
  split; eexists; reflexivity.
Qed.

Lemma image_barrier_ored b st : exists st',
  thsvsGetVulkanImageMemoryBarrier default_build b st = Returns st' /\
  ored_into (pSrcStages st) (pSrcStages st') /\
  ored_into (pDstStages st) (pDstStages st').
Proof.
  eexists. split; [ apply image_barrier_default | ].
  split; eexists; reflexivity.
Qed.

(** C10.  Whatever barriers they are given, [thsvsCmdPipelineBarrier]
    and [thsvsCmdWaitEvents] call Vulkan with a source stage mask that
    holds [VK_PIPELINE_STAGE_TOP_OF_PIPE_BIT] and a destination stage
    mask that holds [VK_PIPELINE_STAGE_BOTTOM_OF_PIPE_BIT]: the masks
    start from these bits and are only ORed into. *)
Theorem wrappers_keep_default_stage_bits
  (mem : Scratch) (commandBuffer : Z) (pEvents : list Z)
  (pGlobalBarrier : option ThsvsGlobalBarrier)
  (pBufferBarriers : list ThsvsBufferBarrier)
  (pImageBarriers : list ThsvsImageBarrier) :
  (exists call,
      thsvsCmdPipelineBarrier default_build mem commandBuffer
        pGlobalBarrier pBufferBarriers pImageBarriers = Returns call /\
      has_bits (pb_srcStageMask call) VK_PIPELINE_STAGE_TOP_OF_PIPE_BIT /\
      has_bits (pb_dstStageMask call) VK_PIPELINE_STAGE_BOTTOM_OF_PIPE_BIT)
  /\
  (exists call,
      thsvsCmdWaitEvents default_build mem commandBuffer pEvents
        pGlobalBarrier pBufferBarriers pImageBarriers = Returns call /\
      has_bits (we_srcStageMask call) VK_PIPELINE_STAGE_TOP_OF_PIPE_BIT /\
      has_bits (we_dstStageMask call) VK_PIPELINE_STAGE_BOTTOM_OF_PIPE_BIT).
Proof.
  assert (Hg : exists g,
    match pGlobalBarrier with
    | Some thBarrier =>
        st <- thsvsGetVulkanMemoryBarrier default_build thBarrier
                {| pSrcStages := VK_PIPELINE_STAGE_TOP_OF_PIPE_BIT;
                   pDstStages := VK_PIPELINE_STAGE_BOTTOM_OF_PIPE_BIT;
                   pVkBarrier := scratch_memoryBarrier mem |} ;;
        Returns (pSrcStages st, pDstStages st, [pVkBarrier st])
    | None => Returns (VK_PIPELINE_STAGE_TOP_OF_PIPE_BIT,
                       VK_PIPELINE_STAGE_BOTTOM_OF_PIPE_BIT, [])
    end = Returns g /\
    ored_into VK_PIPELINE_STAGE_TOP_OF_PIPE_BIT (fst (fst g)) /\
    ored_into VK_PIPELINE_STAGE_BOTTOM_OF_PIPE_BIT (snd (fst g))).
  { destruct pGlobalBarrier as [thBarrier|].
    - destruct (memory_barrier_ored thBarrier
                  {| pSrcStages := VK_PIPELINE_STAGE_TOP_OF_PIPE_BIT;
                     pDstStages := VK_PIPELINE_STAGE_BOTTOM_OF_PIPE_BIT;
                     pVkBarrier := scratch_memoryBarrier mem |})
        as (st' & -> & Hs & Hd).
      eexists. split; [ reflexivity | split; assumption ].
    - eexists. split; [ reflexivity | split; apply ored_into_refl ]. }
  destruct Hg as (g & Eg & Hgs & Hgd).
  destruct (map_barriers_ored (thsvsGetVulkanBufferMemoryBarrier default_build)
              (scratch_buffer mem) buffer_barrier_ored pBufferBarriers O
              (fst (fst g)) (snd (fst g))) as (b & Eb & Hbs & Hbd & _).
  destruct (map_barriers_ored (thsvsGetVulkanImageMemoryBarrier default_build)
              (scratch_image mem) image_barrier_ored pImageBarriers O
              (fst (fst b)) (snd (fst b))) as (i & Ei & His & Hid & _).
  assert (Hsrc : has_bits (fst (fst i)) VK_PIPELINE_STAGE_TOP_OF_PIPE_BIT).
  { apply (ored_into_has_bits VK_PIPELINE_STAGE_TOP_OF_PIPE_BIT);
      [ | reflexivity ].
    eapply ored_into_trans; [ | exact His ].
    eapply ored_into_trans; eassumption. }
  assert (Hdst : has_bits (snd (fst i)) VK_PIPELINE_STAGE_BOTTOM_OF_PIPE_BIT).
  { apply (ored_into_has_bits VK_PIPELINE_STAGE_BOTTOM_OF_PIPE_BIT);
      [ | reflexivity ].
    eapply ored_into_trans; [ | exact Hid ].
    eapply ored_into_trans; eassumption. }
  split.
  - unfold thsvsCmdPipelineBarrier. rewrite Eg. cbn [bind].
    rewrite Eb. cbn [bind]. rewrite Ei. cbn [bind].
    eexists. split; [ reflexivity | split; assumption ].
  - unfold thsvsCmdWaitEvents. rewrite Eg. cbn [bind].
    rewrite Eb. cbn [bind]. rewrite Ei. cbn [bind].
    eexists. split; [ reflexivity | split; assumption ].
Qed.

(** ** Checked builds against the build as shipped *)

(** The assertions only stop a call: in every build, a call that returns
    leaves what the unchecked build leaves.  So all of the above carries
    over to a returning call of any checked build. *)

Lemma for_each_refines {A S : Type} (body body' : A -> S -> run S) :
  (forall a s s', body a s = Returns s' -> body' a s = Returns s') ->
  forall l s s',
    for_each l body s = Returns s' -> for_each l body' s = Returns s'.
Proof.
  intros Hbody. induction l as [|a l IH]; intros s s'; cbn [for_each].
  - trivial.
  - destruct (body a s) as [s1|] eqn:E; [ | discriminate ].
    rewrite (Hbody _ _ _ E). cbn [bind]. apply IH.
Qed.

Lemma bind_Returns {A B : Type} (c : run A) (k : A -> run B) (b : B) :
  bind c k = Returns b -> exists a, c = Returns a /\ k a = Returns b.
Proof. destruct c as [a|]; [ now exists a | discriminate ]. Qed.

Ltac drop_checks :=
  cbn [default_build THSVS_ERROR_CHECK_POTENTIAL_HAZARD
       THSVS_ERROR_CHECK_MIXED_IMAGE_LAYOUT];
  repeat match goal with
  | |- context [ifdef ?t _] => destruct t; cbn [ifdef]
  | |- context [assert ?c] => destruct c; cbn [assert bind]
  | |- context [if ?c then _ else _] => destruct c
  | |- context [bind (Returns _) _] => cbn [bind]
  end; try discriminate; trivial.

Lemma memory_prev_body_refines cfg b a s s' :
  memory_prev_body cfg b a s = Returns s' ->
  memory_prev_body default_build b a s = Returns s'.
Proof. unfold memory_prev_body. drop_checks. Qed.

Lemma memory_next_body_refines cfg b a s s' :
  memory_next_body cfg b a s = Returns s' ->
  memory_next_body default_build b a s = Returns s'.
Proof. unfold memory_next_body. drop_checks. Qed.

Lemma buffer_prev_body_refines cfg b a s s' :
  buffer_prev_body cfg b a s = Returns s' ->
  buffer_prev_body default_build b a s = Returns s'.
Proof. unfold buffer_prev_body. drop_checks. Qed.

Lemma buffer_next_body_refines cfg b a s s' :
  buffer_next_body cfg b a s = Returns s' ->
  buffer_next_body default_build b a s = Returns s'.
Proof. unfold buffer_next_body. drop_checks. Qed.

Lemma image_prev_body_refines cfg b a s s' :
  image_prev_body cfg b a s = Returns s' ->
  image_prev_body default_build b a s = Returns s'.
Proof. unfold image_prev_body. drop_checks. Qed.

Lemma image_next_body_refines cfg b a s s' :
  image_next_body cfg b a s = Returns s' ->
  image_next_body default_build b a s = Returns s'.
Proof. unfold image_next_body. drop_checks. Qed.

Theorem checked_build_returns_the_same (cfg : Build) :
  (forall g st st',
     thsvsGetVulkanMemoryBarrier cfg g st = Returns st' ->
     thsvsGetVulkanMemoryBarrier default_build g st = Returns st')
  /\
  (forall b st st',
     thsvsGetVulkanBufferMemoryBarrier cfg b st = Returns st' ->
     thsvsGetVulkanBufferMemoryBarrier default_build b st = Returns st')
  /\
  (forall i st st',
     thsvsGetVulkanImageMemoryBarrier cfg i st = Returns st' ->
     thsvsGetVulkanImageMemoryBarrier default_build i st = Returns st').
Proof.
  split; [ | split ].
  - intros g st st' H. unfold thsvsGetVulkanMemoryBarrier in *.
    apply bind_Returns in H as (s1 & H1 & H2).
    apply (for_each_refines _ _ (memory_prev_body_refines cfg g)) in H1.
    apply (for_each_refines _ _ (memory_next_body_refines cfg g)) in H2.
    now rewrite H1.
  - intros b st st' H. unfold thsvsGetVulkanBufferMemoryBarrier in *.
    apply bind_Returns in H as (s1 & H1 & H2).
    apply (for_each_refines _ _ (buffer_prev_body_refines cfg b)) in H1.
    apply (for_each_refines _ _ (buffer_next_body_refines cfg b)) in H2.
    now rewrite H1.
  - intros i st st' H. unfold thsvsGetVulkanImageMemoryBarrier in *.
    apply bind_Returns in H as (s1 & H1 & H2).
    apply (for_each_refines _ _ (image_prev_body_refines cfg i)) in H1.
    apply (for_each_refines _ _ (image_next_body_refines cfg i)) in H2.
    now rewrite H1.
Qed.

(** * Further properties of the sources *)

(** ** The table behind the lookups *)

(** X1.  The table has one entry per enumerator: the enumerators count
    from 0 to 49 without gap or repetition, an enumerator sits at its own
    ordinal in the enumeration, and a lookup reads an entry of the table,
    never past its end. *)
Theorem access_table_covers_enumeration :
  length ThsvsAccessMap = THSVS_NUM_ACCESS_TYPES /\
  map ordinal ThsvsAccessType_enumerators = seq 0 THSVS_NUM_ACCESS_TYPES /\
  forall a,
    nth_error ThsvsAccessType_enumerators (ordinal a) = Some a /\
    nth_error ThsvsAccessMap (ordinal a) = Some (access_info a).
Proof.
  split; [ reflexivity | split; [ reflexivity | ] ].
  intros a. destruct a; split; reflexivity.
Qed.

(** ** Read and write accesses *)

Lemma land_mask_or_app (l : list Z) (w : Z) :
  Z.land (mask_or l) w = mask_or (map (fun m => Z.land m w) l).
Proof.
  induction l as [|m l IH]; simpl.
  - reflexivity.
  - now rewrite Z.land_lor_distr_l, IH.
Qed.

Lemma after_present_write_bit (a : ThsvsAccessType) :
  after_present a =
  negb (Z.land (accessMask (access_info a)) VK_ACCESS_WRITE_BITS =? 0).
Proof. destruct a; reflexivity. Qed.

Lemma write_bits_of_write_entries (l : list ThsvsAccessType) :
  Z.land (access_bits (write_entries l)) VK_ACCESS_WRITE_BITS =
  Z.land (access_bits l) VK_ACCESS_WRITE_BITS.
Proof.
  induction l as [|a l IH]; [ reflexivity | ].
  rewrite write_entries_cons, access_bits_cons, Z.land_lor_distr_l, <- IH.
  rewrite (after_present_write_bit a).
  destruct (Z.eqb_spec (Z.land (accessMask (access_info a)) VK_ACCESS_WRITE_BITS) 0)
    as [E|_]; cbn [negb].
  - now rewrite E.
  - now rewrite access_bits_cons, Z.land_lor_distr_l.
Qed.

(** X2.  The place of an access in the enumeration agrees with its
    access mask in the table: the accesses after [THSVS_ACCESS_PRESENT]
    are exactly those whose mask holds a write bit.  So leaving the
    earlier accesses out of the source access mask loses no write: the
    source access mask of each mapping function holds every write bit of
    every previous access. *)
Theorem src_access_mask_keeps_write_bits
  (g : ThsvsGlobalBarrier) (sg : MapState VkMemoryBarrier)
  (b : ThsvsBufferBarrier) (sb : MapState VkBufferMemoryBarrier)
  (i : ThsvsImageBarrier) (si : MapState VkImageMemoryBarrier) :
  (forall a,
     after_present a =
     negb (Z.land (accessMask (access_info a)) VK_ACCESS_WRITE_BITS =? 0))
  /\
  (exists st',
     thsvsGetVulkanMemoryBarrier default_build g sg = Returns st' /\
     Z.land (mem_srcAccessMask (pVkBarrier st')) VK_ACCESS_WRITE_BITS =
     Z.land (access_bits (glob_pPrevAccesses g)) VK_ACCESS_WRITE_BITS)
  /\
  (exists st',
     thsvsGetVulkanBufferMemoryBarrier default_build b sb = Returns st' /\
     Z.land (buf_srcAccessMask (pVkBarrier st')) VK_ACCESS_WRITE_BITS =
     Z.land (access_bits (bb_pPrevAccesses b)) VK_ACCESS_WRITE_BITS)
  /\
  (exists st',
     thsvsGetVulkanImageMemoryBarrier default_build i si = Returns st' /\
     Z.land (img_srcAccessMask (pVkBarrier st')) VK_ACCESS_WRITE_BITS =
     Z.land (access_bits (ib_pPrevAccesses i)) VK_ACCESS_WRITE_BITS).
Proof.
  split; [ exact after_present_write_bit | split; [ | split ] ].
  - eexists. split; [ apply memory_barrier_default | ].
    apply write_bits_of_write_entries.
  - eexists. split; [ apply buffer_barrier_default | ].
    apply write_bits_of_write_entries.
  - eexists. split; [ apply image_barrier_default | ].
    apply write_bits_of_write_entries.
Qed.

(** ** Masks stay 32-bit words *)

Lemma is_VkFlags_lor (a b : Z) :
  is_VkFlags a -> is_VkFlags b -> is_VkFlags (Z.lor a b).
Proof.
  unfold is_VkFlags. intros [Ha Ha'] [Hb Hb'].
  assert (H0 : 0 <= Z.lor a b) by (apply Z.lor_nonneg; auto).
  split; [ exact H0 | ].
  destruct (Z.eq_dec (Z.lor a b) 0) as [E|E]; [ rewrite E; reflexivity | ].
  apply Z.log2_lt_pow2; [ lia | ].
  rewrite Z.log2_lor by assumption.
  apply Z.max_lub_lt.
  - destruct (Z.eq_dec a 0) as [->|]; [ reflexivity | ].
    apply Z.log2_lt_pow2; lia.
  - destruct (Z.eq_dec b 0) as [->|]; [ reflexivity | ].
    apply Z.log2_lt_pow2; lia.
Qed.

Lemma table_entries_are_VkFlags (a : ThsvsAccessType) :
  is_VkFlags (stageMask (access_info a)) /\
  is_VkFlags (accessMask (access_info a)).
Proof. destruct a; vm_compute; repeat split; congruence. Qed.

Lemma is_VkFlags_0 : is_VkFlags 0.
Proof. vm_compute. split; congruence. Qed.

Lemma stage_bits_are_VkFlags (l : list ThsvsAccessType) :
  is_VkFlags (stage_bits l).
Proof.
  induction l as [|a l IH]; [ exact is_VkFlags_0 | ].
  rewrite stage_bits_cons. apply is_VkFlags_lor; [ | exact IH ].
  apply table_entries_are_VkFlags.
Qed.

Lemma access_bits_are_VkFlags (l : list ThsvsAccessType) :
  is_VkFlags (access_bits l).
Proof.
  induction l as [|a l IH]; [ exact is_VkFlags_0 | ].
  rewrite access_bits_cons. apply is_VkFlags_lor; [ | exact IH ].
  apply table_entries_are_VkFlags.
Qed.

(** X3.  The mapping functions keep the masks within 32 bits: when the
    two stage words the caller hands in are 32-bit values, so are the two
    stage words and the two access masks of the result, for lists of any
    length. *)
Theorem masks_stay_VkFlags
  (g : ThsvsGlobalBarrier) (sg : MapState VkMemoryBarrier)
  (b : ThsvsBufferBarrier) (sb : MapState VkBufferMemoryBarrier)
  (i : ThsvsImageBarrier) (si : MapState VkImageMemoryBarrier) :
  (is_VkFlags (pSrcStages sg) -> is_VkFlags (pDstStages sg) ->
   exists st',
     thsvsGetVulkanMemoryBarrier default_build g sg = Returns st' /\
     is_VkFlags (pSrcStages st') /\ is_VkFlags (pDstStages st') /\
     is_VkFlags (mem_srcAccessMask (pVkBarrier st')) /\
     is_VkFlags (mem_dstAccessMask (pVkBarrier st')))
  /\
  (is_VkFlags (pSrcStages sb) -> is_VkFlags (pDstStages sb) ->
   exists st',
     thsvsGetVulkanBufferMemoryBarrier default_build b sb = Returns st' /\
     is_VkFlags (pSrcStages st') /\ is_VkFlags (pDstStages st') /\
     is_VkFlags (buf_srcAccessMask (pVkBarrier st')) /\
     is_VkFlags (buf_dstAccessMask (pVkBarrier st')))
  /\
  (is_VkFlags (pSrcStages si) -> is_VkFlags (pDstStages si) ->
   exists st',
     thsvsGetVulkanImageMemoryBarrier default_build i si = Returns st' /\
     is_VkFlags (pSrcStages st') /\ is_VkFlags (pDstStages st') /\
     is_VkFlags (img_srcAccessMask (pVkBarrier st')) /\
     is_VkFlags (img_dstAccessMask (pVkBarrier st'))).
Proof.
  split; [ | split ]; intros Hs Hd; eexists.
  - split; [ apply memory_barrier_default | ].
    cbn [pSrcStages pDstStages pVkBarrier mem_srcAccessMask mem_dstAccessMask].
    auto using is_VkFlags_lor, stage_bits_are_VkFlags, access_bits_are_VkFlags.
  - split; [ apply buffer_barrier_default | ].
    cbn [pSrcStages pDstStages pVkBarrier buf_srcAccessMask buf_dstAccessMask].
    auto using is_VkFlags_lor, stage_bits_are_VkFlags, access_bits_are_VkFlags.
  - split; [ apply image_barrier_default | ].
    cbn [pSrcStages pDstStages pVkBarrier img_srcAccessMask img_dstAccessMask].
    auto using is_VkFlags_lor, stage_bits_are_VkFlags, access_bits_are_VkFlags.
Qed.

Lemma masks_stay_VkFlags_witness :
  exists st',
    thsvsGetVulkanImageMemoryBarrier default_build two_layout_barrier
      (zero_state stale_image_barrier) = Returns st' /\
    is_VkFlags (pSrcStages st') /\ is_VkFlags (pDstStages st') /\
    is_VkFlags (img_srcAccessMask (pVkBarrier st')) /\
    is_VkFlags (img_dstAccessMask (pVkBarrier st')).
Proof.
  apply (proj2 (proj2
           (masks_stay_VkFlags
              {| glob_pPrevAccesses := []; glob_pNextAccesses := [] |}
              (zero_state zero_memory_barrier)
              {| bb_pPrevAccesses := []; bb_pNextAccesses := [];
                 bb_srcQueueFamilyIndex := 0; bb_dstQueueFamilyIndex := 0;
                 bb_buffer := 0; bb_offset := 0; bb_size := 0 |}
              (zero_state zero_buffer_barrier)
              two_layout_barrier
              (zero_state stale_image_barrier)))).
  - vm_compute. split; congruence.
  - vm_compute. split; congruence.
Defined.

(** ** Events *)

Lemma event_stage_fold (l : list ThsvsAccessType) (m : Z) :
  fold_left
    (fun stages prevAccess =>
       let pPrevAccessInfo := access_info prevAccess in
       Z.lor stages (stageMask pPrevAccessInfo))
    l m = Z.lor m (stage_bits l).
Proof.
  revert m. induction l as [|a l IH]; intros m; cbn [fold_left].
  - unfold stage_bits. simpl. now rewrite Z.lor_0_r.
  - rewrite IH, stage_bits_cons. cbv zeta. now rewrite Z.lor_assoc.
Qed.

(** X4.  [thsvsCmdSetEvent] and [thsvsCmdResetEvent] hand the command
    buffer and the event on as they are, with one and the same stage
    mask: [VK_PIPELINE_STAGE_TOP_OF_PIPE_BIT] ORed with the stage of
    every listed access, reads and writes alike.  The order of the
    accesses does not matter, and an empty list gives top-of-pipe
    alone. *)
Theorem event_stage_mask
  (commandBuffer event : Z) (pPrevAccesses : list ThsvsAccessType) :
  thsvsCmdSetEvent commandBuffer event pPrevAccesses =
    {| se_commandBuffer := commandBuffer;
       se_event := event;
       se_stageMask :=
         Z.lor VK_PIPELINE_STAGE_TOP_OF_PIPE_BIT (stage_bits pPrevAccesses) |}
  /\
  thsvsCmdResetEvent commandBuffer event pPrevAccesses =
    {| re_commandBuffer := commandBuffer;
       re_event := event;
       re_stageMask :=
         Z.lor VK_PIPELINE_STAGE_TOP_OF_PIPE_BIT (stage_bits pPrevAccesses) |}
  /\
  (forall l', Permutation pPrevAccesses l' ->
     se_stageMask (thsvsCmdSetEvent commandBuffer event l') =
     se_stageMask (thsvsCmdSetEvent commandBuffer event pPrevAccesses) /\
     re_stageMask (thsvsCmdResetEvent commandBuffer event l') =
     re_stageMask (thsvsCmdResetEvent commandBuffer event pPrevAccesses))
  /\
  se_stageMask (thsvsCmdSetEvent commandBuffer event []) =
    VK_PIPELINE_STAGE_TOP_OF_PIPE_BIT.
Proof.
  unfold thsvsCmdSetEvent, thsvsCmdResetEvent.
  cbn [se_stageMask re_stageMask]. rewrite !event_stage_fold.
  repeat split.
  - rewrite event_stage_fold.
    now rewrite (stage_bits_Permutation _ _ H).
  - rewrite event_stage_fold.
    now rewrite (stage_bits_Permutation _ _ H).
Qed.

Lemma event_stage_mask_witness :
  se_stageMask
    (thsvsCmdSetEvent 1 2
       [THSVS_ACCESS_TRANSFER_READ; THSVS_ACCESS_COMPUTE_SHADER_WRITE]) =
  se_stageMask
    (thsvsCmdSetEvent 1 2
       [THSVS_ACCESS_COMPUTE_SHADER_WRITE; THSVS_ACCESS_TRANSFER_READ]).
Proof.
  apply (proj1 (proj2 (proj2
           (event_stage_mask 1 2
              [THSVS_ACCESS_COMPUTE_SHADER_WRITE; THSVS_ACCESS_TRANSFER_READ])))).
  apply perm_swap.
Defined.

(** ** The batching wrappers in closed form *)

Lemma stage_bits_app (l1 l2 : list ThsvsAccessType) :
  stage_bits (l1 ++ l2) = Z.lor (stage_bits l1) (stage_bits l2).
Proof. unfold stage_bits. now rewrite map_app, mask_or_app. Qed.


Lemma map_buffer_barriers_default pOut l : forall i src dst,
  map_barriers (thsvsGetVulkanBufferMemoryBarrier default_build) pOut i l
    src dst =
  Returns (Z.lor src (stage_bits (concat (map bb_pPrevAccesses l))),
           Z.lor dst (stage_bits (concat (map bb_pNextAccesses l))),
           map buffer_vk l).
Proof.
  induction l as [|b l IH]; intros i src dst; cbn [map_barriers map concat].
  - unfold stage_bits. simpl. now rewrite !Z.lor_0_r.
  - rewrite buffer_barrier_default. cbn [bind pSrcStages pDstStages pVkBarrier].
    rewrite IH. cbn [bind fst snd].
    now rewrite !stage_bits_app, !Z.lor_assoc.
Qed.

Lemma map_image_barriers_default pOut l : forall i src dst,
  map_barriers (thsvsGetVulkanImageMemoryBarrier default_build) pOut i l
    src dst =
  Returns (Z.lor src (stage_bits (concat (map ib_pPrevAccesses l))),
           Z.lor dst (stage_bits (concat (map ib_pNextAccesses l))),
           image_vks pOut i l).
Proof.
  induction l as [|b l IH]; intros i src dst;
    cbn [map_barriers map concat image_vks].
  - unfold stage_bits. simpl. now rewrite !Z.lor_0_r.
  - rewrite image_barrier_default. cbn [bind pSrcStages pDstStages pVkBarrier].
    rewrite IH. cbn [bind fst snd].
    now rewrite !stage_bits_app, !Z.lor_assoc.
Qed.

Lemma pipeline_barrier_default mem commandBuffer g bufs imgs :
  thsvsCmdPipelineBarrier default_build mem commandBuffer g bufs imgs =
  Returns
    {| pb_commandBuffer := commandBuffer;
       pb_srcStageMask :=
         Z.lor VK_PIPELINE_STAGE_TOP_OF_PIPE_BIT
               (stage_bits (batch_prev g bufs imgs));
       pb_dstStageMask :=
         Z.lor VK_PIPELINE_STAGE_BOTTOM_OF_PIPE_BIT
               (stage_bits (batch_next g bufs imgs));
       pb_dependencyFlags := 0;
       pb_pMemoryBarriers := batch_memory g;
       pb_pBufferMemoryBarriers := map buffer_vk bufs;
       pb_pImageMemoryBarriers := image_vks (scratch_image mem) O imgs |}.
Proof.
  unfold thsvsCmdPipelineBarrier, batch_prev, batch_next, batch_memory.
  destruct g as [g|].
  - rewrite memory_barrier_default. cbn [bind pSrcStages pDstStages pVkBarrier fst snd].
    rewrite map_buffer_barriers_default. cbn [bind fst snd].
    rewrite map_image_barriers_default. cbn [bind fst snd].
    now rewrite !stage_bits_app, !Z.lor_assoc.
  - cbn [bind fst snd].
    rewrite map_buffer_barriers_default. cbn [bind fst snd].
    rewrite map_image_barriers_default. cbn [bind fst snd app].
    now rewrite !stage_bits_app, !Z.lor_assoc.
Qed.

Lemma wait_events_default mem commandBuffer pEvents g bufs imgs :
  thsvsCmdWaitEvents default_build mem commandBuffer pEvents g bufs imgs =
  Returns
    {| we_commandBuffer := commandBuffer;
       we_pEvents := pEvents;
       we_srcStageMask :=
         Z.lor VK_PIPELINE_STAGE_TOP_OF_PIPE_BIT
               (stage_bits (batch_prev g bufs imgs));
       we_dstStageMask :=
         Z.lor VK_PIPELINE_STAGE_BOTTOM_OF_PIPE_BIT
               (stage_bits (batch_next g bufs imgs));
       we_pMemoryBarriers := batch_memory g;
       we_pBufferMemoryBarriers := map buffer_vk bufs;
       we_pImageMemoryBarriers := image_vks (scratch_image mem) O imgs |}.
Proof.
  unfold thsvsCmdWaitEvents, batch_prev, batch_next, batch_memory.
  destruct g as [g|].
  - rewrite memory_barrier_default. cbn [bind pSrcStages pDstStages pVkBarrier fst snd].
    rewrite map_buffer_barriers_default. cbn [bind fst snd].
    rewrite map_image_barriers_default. cbn [bind fst snd].
    now rewrite !stage_bits_app, !Z.lor_assoc.
  - cbn [bind fst snd].
    rewrite map_buffer_barriers_default. cbn [bind fst snd].
    rewrite map_image_barriers_default. cbn [bind fst snd app].
    now rewrite !stage_bits_app, !Z.lor_assoc.
Qed.

(** X5.  The stage masks a wrapper hands to Vulkan are the two default
    bits ORed with the stages of all accesses of the batch: the source
    mask is top-of-pipe with the stage of every previous access of the
    global barrier, of every buffer barrier and of every image barrier,
    the destination mask bottom-of-pipe with the stage of every next
    access.  The command buffer and the events go through unchanged and
    the dependency flags of the pipeline barrier are 0. *)
Theorem wrappers_stage_masks
  (mem : Scratch) (commandBuffer : Z) (pEvents : list Z)
  (pGlobalBarrier : option ThsvsGlobalBarrier)
  (pBufferBarriers : list ThsvsBufferBarrier)
  (pImageBarriers : list ThsvsImageBarrier) :
  (exists call,
     thsvsCmdPipelineBarrier default_build mem commandBuffer
       pGlobalBarrier pBufferBarriers pImageBarriers = Returns call /\
     pb_commandBuffer call = commandBuffer /\
     pb_dependencyFlags call = 0 /\
     pb_srcStageMask call =
       Z.lor VK_PIPELINE_STAGE_TOP_OF_PIPE_BIT
         (stage_bits (batch_prev pGlobalBarrier pBufferBarriers pImageBarriers)) /\
     pb_dstStageMask call =
       Z.lor VK_PIPELINE_STAGE_BOTTOM_OF_PIPE_BIT
         (stage_bits (batch_next pGlobalBarrier pBufferBarriers pImageBarriers)))
  /\
  (exists call,
     thsvsCmdWaitEvents default_build mem commandBuffer pEvents
       pGlobalBarrier pBufferBarriers pImageBarriers = Returns call /\
     we_commandBuffer call = commandBuffer /\
     we_pEvents call = pEvents /\
     we_srcStageMask call =
       Z.lor VK_PIPELINE_STAGE_TOP_OF_PIPE_BIT
         (stage_bits (batch_prev pGlobalBarrier pBufferBarriers pImageBarriers)) /\
     we_dstStageMask call =
       Z.lor VK_PIPELINE_STAGE_BOTTOM_OF_PIPE_BIT
         (stage_bits (batch_next pGlobalBarrier pBufferBarriers pImageBarriers))).
Proof.
  split; eexists.
  - split; [ apply pipeline_barrier_default | repeat split ].
  - split; [ apply wait_events_default | repeat split ].
Qed.

(** X6.  The barriers a wrapper hands to Vulkan: one memory barrier when
    a global barrier is given and none otherwise, and one buffer barrier
    per buffer barrier and one image barrier per image barrier, in the
    order given.  Each is the barrier of its own input alone: the other
    barriers of the batch do not touch it, and the buffer and memory
    barriers do not depend on what the temporary storage held. *)
Theorem wrappers_barrier_arrays
  (mem : Scratch) (commandBuffer : Z) (pEvents : list Z)
  (pGlobalBarrier : option ThsvsGlobalBarrier)
  (pBufferBarriers : list ThsvsBufferBarrier)
  (pImageBarriers : list ThsvsImageBarrier) :
  (exists call,
     thsvsCmdPipelineBarrier default_build mem commandBuffer
       pGlobalBarrier pBufferBarriers pImageBarriers = Returns call /\
     pb_pMemoryBarriers call = batch_memory pGlobalBarrier /\
     pb_pBufferMemoryBarriers call = map buffer_vk pBufferBarriers /\
     pb_pImageMemoryBarriers call =
       image_vks (scratch_image mem) O pImageBarriers /\
     length (pb_pBufferMemoryBarriers call) = length pBufferBarriers /\
     length (pb_pImageMemoryBarriers call) = length pImageBarriers)
  /\
  (exists call,
     thsvsCmdWaitEvents default_build mem commandBuffer pEvents
       pGlobalBarrier pBufferBarriers pImageBarriers = Returns call /\
     we_pMemoryBarriers call = batch_memory pGlobalBarrier /\
     we_pBufferMemoryBarriers call = map buffer_vk pBufferBarriers /\
     we_pImageMemoryBarriers call =
       image_vks (scratch_image mem) O pImageBarriers /\
     length (we_pBufferMemoryBarriers call) = length pBufferBarriers /\
     length (we_pImageMemoryBarriers call) = length pImageBarriers)
  /\
  (forall g st, exists st',
     thsvsGetVulkanMemoryBarrier default_build g st = Returns st' /\
     pVkBarrier st' = memory_vk g)
  /\
  (forall b st, exists st',
     thsvsGetVulkanBufferMemoryBarrier default_build b st = Returns st' /\
     pVkBarrier st' = buffer_vk b)
  /\
  (forall b st, exists st',
     thsvsGetVulkanImageMemoryBarrier default_build b st = Returns st' /\
     pVkBarrier st' = image_vk b (pVkBarrier st)).
Proof.
  assert (Hlen : forall pOut l i, length (image_vks pOut i l) = length l).
  { intros pOut l. induction l as [|b l IH]; intros i; simpl; auto. }
  split; [ | split; [ | split; [ | split ] ] ].
  - eexists. split; [ apply pipeline_barrier_default | ].
    cbn [pb_pMemoryBarriers pb_pBufferMemoryBarriers pb_pImageMemoryBarriers].
    repeat split; [ apply length_map | apply Hlen ].
  - eexists. split; [ apply wait_events_default | ].
    cbn [we_pMemoryBarriers we_pBufferMemoryBarriers we_pImageMemoryBarriers].
    repeat split; [ apply length_map | apply Hlen ].
  - intros g st. eexists. split; [ apply memory_barrier_default | reflexivity ].
  - intros b st. eexists. split; [ apply buffer_barrier_default | reflexivity ].
  - intros b st. eexists. split; [ apply image_barrier_default | reflexivity ].
Qed.

(** X7.  An event set for the previous accesses of a batch is waited
    for with the same stages: the source stage mask [thsvsCmdWaitEvents]
    hands to [vkCmdWaitEvents] equals the stage mask [thsvsCmdSetEvent]
    hands to [vkCmdSetEvent] for the previous accesses of the batch. *)
Theorem wait_matches_set
  (mem : Scratch) (commandBuffer event : Z) (pEvents : list Z)
  (pGlobalBarrier : option ThsvsGlobalBarrier)
  (pBufferBarriers : list ThsvsBufferBarrier)
  (pImageBarriers : list ThsvsImageBarrier) :
  exists call,
    thsvsCmdWaitEvents default_build mem commandBuffer pEvents
      pGlobalBarrier pBufferBarriers pImageBarriers = Returns call /\
    we_srcStageMask call =
    se_stageMask
      (thsvsCmdSetEvent commandBuffer event
         (batch_prev pGlobalBarrier pBufferBarriers pImageBarriers)).
Proof.
  eexists. split; [ apply wait_events_default | ].
  unfold thsvsCmdSetEvent. cbn [we_srcStageMask se_stageMask].
  now rewrite event_stage_fold.
Qed.


(** ** The wrappers in the build with the potential-hazard check *)

Lemma memory_hazard_aborts g st :
  thsvsGetVulkanMemoryBarrier hazard_build g st = Aborts <->
  mixes_write (glob_pPrevAccesses g) \/ mixes_write (glob_pNextAccesses g).
Proof.
  rewrite memory_barrier_closed, <- guards_false.
  destruct (hazard_guard hazard_build (glob_pPrevAccesses g)
            && hazard_guard hazard_build (glob_pNextAccesses g));
    split; congruence.
Qed.

Lemma buffer_hazard_aborts b st :
  thsvsGetVulkanBufferMemoryBarrier hazard_build b st = Aborts <->
  mixes_write (bb_pPrevAccesses b) \/ mixes_write (bb_pNextAccesses b).
Proof.
  rewrite buffer_barrier_closed, <- guards_false.
  destruct (hazard_guard hazard_build (bb_pPrevAccesses b)
            && hazard_guard hazard_build (bb_pNextAccesses b));
    split; congruence.
Qed.

Lemma image_hazard_aborts b st :
  thsvsGetVulkanImageMemoryBarrier hazard_build b st = Aborts <->
  mixes_write (ib_pPrevAccesses b) \/ mixes_write (ib_pNextAccesses b).
Proof.
  rewrite image_barrier_closed, <- guards_false by reflexivity.
  destruct (hazard_guard hazard_build (ib_pPrevAccesses b)
            && hazard_guard hazard_build (ib_pNextAccesses b));
    split; congruence.
Qed.

(** A loop over barriers dies exactly when the mapping function dies on
    one of them, provided that depends on the barrier alone. *)
Lemma map_barriers_aborts {TB VB : Type}
  (get : TB -> MapState VB -> run (MapState VB)) (pOut : nat -> VB)
  (P : TB -> Prop) :
  (forall b st, get b st = Aborts <-> P b) ->
  forall l i src dst,
    map_barriers get pOut i l src dst = Aborts <-> exists b, In b l /\ P b.
Proof.
  intros Hget. induction l as [|b l IH]; intros i src dst; cbn [map_barriers].
  - split; [ discriminate | intros (b & [] & _) ].
  - destruct (get b {| pSrcStages := src; pDstStages := dst;
                       pVkBarrier := pOut i |}) as [st|] eqn:E; cbn [bind].
    + destruct (map_barriers get pOut (S i) l (pSrcStages st) (pDstStages st))
        as [r|] eqn:E'; cbn [bind].
      * split; [ discriminate | ].
        intros (b' & [<-|Hin] & HP).
        -- apply Hget with (st := {| pSrcStages := src; pDstStages := dst;
                                     pVkBarrier := pOut i |}) in HP.
           congruence.
        -- assert (map_barriers get pOut (S i) l (pSrcStages st) (pDstStages st)
                   = Aborts) by (apply IH; now exists b').
           congruence.
      * split; [ intros _ | reflexivity ].
        apply IH in E' as (b' & Hin & HP). exists b'. split; [ now right | exact HP ].
    + split; [ intros _ | reflexivity ].
      exists b. split; [ now left | ]. now apply Hget in E.
Qed.

(** X9.  In the build with the potential-hazard check a wrapper dies in
    an assertion, before any Vulkan command is recorded, if and only if
    some barrier of the batch (the global barrier, a buffer barrier or an
    image barrier) lists a write or general access together with another
    access on one of its two sides. *)
Theorem wrappers_hazard_abort
  (mem : Scratch) (commandBuffer : Z) (pEvents : list Z)
  (pGlobalBarrier : option ThsvsGlobalBarrier)
  (pBufferBarriers : list ThsvsBufferBarrier)
  (pImageBarriers : list ThsvsImageBarrier) :
  (thsvsCmdPipelineBarrier hazard_build mem commandBuffer
     pGlobalBarrier pBufferBarriers pImageBarriers = Aborts <->
   batch_mixes_write pGlobalBarrier pBufferBarriers pImageBarriers)
  /\
  (thsvsCmdWaitEvents hazard_build mem commandBuffer pEvents
     pGlobalBarrier pBufferBarriers pImageBarriers = Aborts <->
   batch_mixes_write pGlobalBarrier pBufferBarriers pImageBarriers).
Proof.
  pose proof (map_barriers_aborts
                (thsvsGetVulkanBufferMemoryBarrier hazard_build)
                (scratch_buffer mem) _ buffer_hazard_aborts pBufferBarriers O)
    as Hbuf.
  pose proof (map_barriers_aborts
                (thsvsGetVulkanImageMemoryBarrier hazard_build)
                (scratch_image mem) _ image_hazard_aborts pImageBarriers O)
    as Himg.
  assert (Hglob : forall st,
    (exists r,
       match pGlobalBarrier with
       | Some thBarrier =>
           st <- thsvsGetVulkanMemoryBarrier hazard_build thBarrier st ;;
           Returns (pSrcStages st, pDstStages st, [pVkBarrier st])
       | None => Returns (VK_PIPELINE_STAGE_TOP_OF_PIPE_BIT,
                          VK_PIPELINE_STAGE_BOTTOM_OF_PIPE_BIT, [])
       end = Returns r /\
       ~ (exists g, pGlobalBarrier = Some g /\
            (mixes_write (glob_pPrevAccesses g) \/
             mixes_write (glob_pNextAccesses g))))
    \/
    (match pGlobalBarrier with
     | Some thBarrier =>
         st <- thsvsGetVulkanMemoryBarrier hazard_build thBarrier st ;;
         Returns (pSrcStages st, pDstStages st, [pVkBarrier st])
     | None => Returns (VK_PIPELINE_STAGE_TOP_OF_PIPE_BIT,
                        VK_PIPELINE_STAGE_BOTTOM_OF_PIPE_BIT, [])
     end = Aborts /\
     exists g, pGlobalBarrier = Some g /\
       (mixes_write (glob_pPrevAccesses g) \/
        mixes_write (glob_pNextAccesses g)))).
  { intros st. destruct pGlobalBarrier as [g|].
    - destruct (thsvsGetVulkanMemoryBarrier hazard_build g st) as [st'|] eqn:E;
        cbn [bind].
      + left. eexists. split; [ reflexivity | ].
        intros (g' & [= <-] & H). apply (memory_hazard_aborts g st) in H.
        congruence.
      + right. split; [ reflexivity | ].
        exists g. split; [ reflexivity | ]. now apply memory_hazard_aborts in E.
    - left. eexists. split; [ reflexivity | ]. intros (g & [=] & _). }
  unfold batch_mixes_write.
  split.
  - unfold thsvsCmdPipelineBarrier.
    destruct (Hglob {| pSrcStages := VK_PIPELINE_STAGE_TOP_OF_PIPE_BIT;
                       pDstStages := VK_PIPELINE_STAGE_BOTTOM_OF_PIPE_BIT;
                       pVkBarrier := scratch_memoryBarrier mem |})
      as [(r & -> & Hno) | (-> & Hyes)]; cbn [bind];
      [ | split; [ intros _; now left | reflexivity ] ].
    destruct (map_barriers (thsvsGetVulkanBufferMemoryBarrier hazard_build)
                (scratch_buffer mem) 0 pBufferBarriers
                (fst (fst r)) (snd (fst r))) as [b|] eqn:Eb; cbn [bind];
      [ | split; [ intros _; right; left; now apply Hbuf in Eb | reflexivity ] ].
    destruct (map_barriers (thsvsGetVulkanImageMemoryBarrier hazard_build)
                (scratch_image mem) 0 pImageBarriers
                (fst (fst b)) (snd (fst b))) as [i|] eqn:Ei; cbn [bind];
      [ | split; [ intros _; right; right; now apply Himg in Ei | reflexivity ] ].
    split; [ discriminate | ].
    intros [H | [H | H]].
    + now elim Hno.
    + apply Hbuf with (src := fst (fst r)) (dst := snd (fst r)) in H. congruence.
    + apply Himg with (src := fst (fst b)) (dst := snd (fst b)) in H. congruence.
  - unfold thsvsCmdWaitEvents.
    destruct (Hglob {| pSrcStages := VK_PIPELINE_STAGE_TOP_OF_PIPE_BIT;
                       pDstStages := VK_PIPELINE_STAGE_BOTTOM_OF_PIPE_BIT;
                       pVkBarrier := scratch_memoryBarrier mem |})
      as [(r & -> & Hno) | (-> & Hyes)]; cbn [bind];
      [ | split; [ intros _; now left | reflexivity ] ].
    destruct (map_barriers (thsvsGetVulkanBufferMemoryBarrier hazard_build)
                (scratch_buffer mem) 0 pBufferBarriers
                (fst (fst r)) (snd (fst r))) as [b|] eqn:Eb; cbn [bind];
      [ | split; [ intros _; right; left; now apply Hbuf in Eb | reflexivity ] ].
    destruct (map_barriers (thsvsGetVulkanImageMemoryBarrier hazard_build)
                (scratch_image mem) 0 pImageBarriers
                (fst (fst b)) (snd (fst b))) as [i|] eqn:Ei; cbn [bind];
      [ | split; [ intros _; right; right; now apply Himg in Ei | reflexivity ] ].
    split; [ discriminate | ].
    intros [H | [H | H]].
    + now elim Hno.
    + apply Hbuf with (src := fst (fst r)) (dst := snd (fst r)) in H. congruence.
    + apply Himg with (src := fst (fst b)) (dst := snd (fst b)) in H. congruence.
Qed.

Lemma wrappers_hazard_abort_witness :
  thsvsCmdPipelineBarrier hazard_build zero_scratch 0
    None [write_and_read_buffer_barrier] [] = Aborts.
Proof.
  apply (proj2 (proj1 (wrappers_hazard_abort zero_scratch 0 []
                         None [write_and_read_buffer_barrier] []))).
  right. left. exists write_and_read_buffer_barrier.
  split; [ now left | ].
  left. split.
  - simpl. lia.
  - exists THSVS_ACCESS_TRANSFER_WRITE. split; [ now left | vm_compute; lia ].
Defined.

(** ** What the temporary storage of a wrapper leaks *)

Lemma nth_error_image_vks pOut l : forall i k,
  nth_error (image_vks pOut i l) k =
  option_map (fun b => image_vk b (pOut (i + k)%nat)) (nth_error l k).
Proof.
  induction l as [|b l IH]; intros i k; destruct k as [|k]; cbn.
  - reflexivity.
  - reflexivity.
  - now rewrite Nat.add_0_r.
  - rewrite IH. now rewrite Nat.add_succ_r.
Qed.

Lemma layout_after_nonempty resolve l stored stored' :
  l <> [] -> layout_after resolve l stored = layout_after resolve l stored'.
Proof.
  intros Hne. unfold layout_after.
  destruct (last_entry l) eqn:E; [ reflexivity | ].
  apply last_entry_None in E. now elim Hne.
Qed.

Lemma image_vk_nonempty b storage storage' :
  ib_pPrevAccesses b <> [] -> ib_pNextAccesses b <> [] ->
  image_vk b storage = image_vk b storage'.
Proof.
  intros Hp Hn. unfold image_vk.
  rewrite (layout_after_nonempty _ _ (img_oldLayout storage)
             (img_oldLayout storage') Hp).
  rewrite (layout_after_nonempty _ _ (img_newLayout storage)
             (img_newLayout storage') Hn).
  reflexivity.
Qed.

Lemma image_vks_nonempty pOut pOut' l : forall i,
  (forall b, In b l -> ib_pPrevAccesses b <> [] /\ ib_pNextAccesses b <> []) ->
  image_vks pOut i l = image_vks pOut' i l.
Proof.
  induction l as [|b l IH]; intros i H; cbn [image_vks]; [ reflexivity | ].
  destruct (H b (or_introl eq_refl)) as [Hp Hn].
  rewrite (image_vk_nonempty b (pOut i) (pOut' i) Hp Hn).
  f_equal. apply IH. intros b' Hb'. apply H. now right.
Qed.

(** X10.  For an image barrier without previous accesses a wrapper hands
    to Vulkan, as [oldLayout], what the element of its temporary block
    held before: the wrappers never initialise the block, and the mapping
    function stores no old layout for an empty list.  The same holds for
    [newLayout] and an image barrier without next accesses. *)
Theorem wrappers_leak_scratch_layouts
  (mem : Scratch) (commandBuffer : Z) (pEvents : list Z)
  (pGlobalBarrier : option ThsvsGlobalBarrier)
  (pBufferBarriers : list ThsvsBufferBarrier)
  (pImageBarriers : list ThsvsImageBarrier)
  (k : nat) (b : ThsvsImageBarrier) :
  nth_error pImageBarriers k = Some b ->
  exists pb we vk,
    thsvsCmdPipelineBarrier default_build mem commandBuffer
      pGlobalBarrier pBufferBarriers pImageBarriers = Returns pb /\
    thsvsCmdWaitEvents default_build mem commandBuffer pEvents
      pGlobalBarrier pBufferBarriers pImageBarriers = Returns we /\
    nth_error (pb_pImageMemoryBarriers pb) k = Some vk /\
    nth_error (we_pImageMemoryBarriers we) k = Some vk /\
    (ib_pPrevAccesses b = [] ->
     img_oldLayout vk = img_oldLayout (scratch_image mem k)) /\
    (ib_pNextAccesses b = [] ->
     img_newLayout vk = img_newLayout (scratch_image mem k)).
Proof.
  intros Hk. do 3 eexists.
  split; [ apply pipeline_barrier_default | ].
  split; [ apply wait_events_default | ].
  cbn [pb_pImageMemoryBarriers we_pImageMemoryBarriers].
  rewrite nth_error_image_vks, Hk. cbn [option_map Nat.add].
  split; [ reflexivity | split; [ reflexivity | ] ].
  cbn [image_vk img_oldLayout img_newLayout].
  split; intros ->; apply layout_after_nil.
Qed.

Lemma wrappers_leak_scratch_layouts_witness :
  exists pb we vk,
    thsvsCmdPipelineBarrier default_build stale_scratch 0
      None [] [empty_discard_barrier] = Returns pb /\
    thsvsCmdWaitEvents default_build stale_scratch 0 []
      None [] [empty_discard_barrier] = Returns we /\
    nth_error (pb_pImageMemoryBarriers pb) 0 = Some vk /\
    nth_error (we_pImageMemoryBarriers we) 0 = Some vk /\
    img_oldLayout vk = VK_IMAGE_LAYOUT_TRANSFER_DST_OPTIMAL /\
    img_newLayout vk = VK_IMAGE_LAYOUT_PREINITIALIZED.
Proof.
  destruct (wrappers_leak_scratch_layouts stale_scratch 0 [] None []
              [empty_discard_barrier] 0 empty_discard_barrier eq_refl)
    as (pb & we & vk & Epb & Ewe & Hpb & Hwe & Hold & Hnew).
  exists pb, we, vk.
  repeat (split; [ assumption | ]).
  split; [ apply (Hold eq_refl) | apply (Hnew eq_refl) ].
Defined.

(** X11.  When every image barrier of a batch lists at least one
    previous and one next access, what a wrapper hands to Vulkan does not
    depend on what its temporary storage held: every field of every
    barrier is written. *)
Theorem wrappers_ignore_scratch
  (mem mem' : Scratch) (commandBuffer : Z) (pEvents : list Z)
  (pGlobalBarrier : option ThsvsGlobalBarrier)
  (pBufferBarriers : list ThsvsBufferBarrier)
  (pImageBarriers : list ThsvsImageBarrier) :
  (forall b, In b pImageBarriers ->
     ib_pPrevAccesses b <> [] /\ ib_pNextAccesses b <> []) ->
  thsvsCmdPipelineBarrier default_build mem commandBuffer
    pGlobalBarrier pBufferBarriers pImageBarriers =
  thsvsCmdPipelineBarrier default_build mem' commandBuffer
    pGlobalBarrier pBufferBarriers pImageBarriers
  /\
  thsvsCmdWaitEvents default_build mem commandBuffer pEvents
    pGlobalBarrier pBufferBarriers pImageBarriers =
  thsvsCmdWaitEvents default_build mem' commandBuffer pEvents
    pGlobalBarrier pBufferBarriers pImageBarriers.
Proof.
  intros H.
  rewrite !pipeline_barrier_default, !wait_events_default.
  rewrite (image_vks_nonempty (scratch_image mem) (scratch_image mem')
             pImageBarriers O H).
  split; reflexivity.
Qed.

Lemma wrappers_ignore_scratch_witness :
  thsvsCmdPipelineBarrier default_build zero_scratch 0
    None [write_and_read_buffer_barrier] [two_layout_barrier] =
  thsvsCmdPipelineBarrier default_build stale_scratch 0
    None [write_and_read_buffer_barrier] [two_layout_barrier].
Proof.
  apply (wrappers_ignore_scratch zero_scratch stale_scratch 0 [] None
           [write_and_read_buffer_barrier] [two_layout_barrier]).
  intros b [<- | []]. split; discriminate.
Defined.

(** ** Calling a mapping function again, and on other storage *)

Lemma lor_twice (m x : Z) : Z.lor (Z.lor m x) x = Z.lor m x.
Proof. now rewrite <- Z.lor_assoc, Z.lor_diag. Qed.

Lemma layout_after_twice resolve l stored :
  layout_after resolve l (layout_after resolve l stored) =
  layout_after resolve l stored.
Proof. unfold layout_after. destruct (last_entry l); reflexivity. Qed.

(** X12.  Each mapping function is idempotent: called a second time
    with the same barrier on the stage words and the Vulkan barrier its
    first call left, it leaves them as they are. *)
Theorem mapping_twice_is_once
  (g : ThsvsGlobalBarrier) (sg : MapState VkMemoryBarrier)
  (b : ThsvsBufferBarrier) (sb : MapState VkBufferMemoryBarrier)
  (i : ThsvsImageBarrier) (si : MapState VkImageMemoryBarrier) :
  (exists st',
     thsvsGetVulkanMemoryBarrier default_build g sg = Returns st' /\
     thsvsGetVulkanMemoryBarrier default_build g st' = Returns st')
  /\
  (exists st',
     thsvsGetVulkanBufferMemoryBarrier default_build b sb = Returns st' /\
     thsvsGetVulkanBufferMemoryBarrier default_build b st' = Returns st')
  /\
  (exists st',
     thsvsGetVulkanImageMemoryBarrier default_build i si = Returns st' /\
     thsvsGetVulkanImageMemoryBarrier default_build i st' = Returns st').
Proof.
  split; [ | split ]; eexists.
  - split; [ apply memory_barrier_default | ].
    rewrite memory_barrier_default. cbn [pSrcStages pDstStages pVkBarrier].
    now rewrite !lor_twice.
  - split; [ apply buffer_barrier_default | ].
    rewrite buffer_barrier_default. cbn [pSrcStages pDstStages pVkBarrier].
    now rewrite !lor_twice.
  - split; [ apply image_barrier_default | ].
    rewrite image_barrier_default.
    cbn [pSrcStages pDstStages pVkBarrier img_oldLayout img_newLayout].
    now rewrite !lor_twice, !layout_after_twice.
Qed.

(** X13.  The access masks a mapping function leaves do not depend on
    what the Vulkan barrier held before the call: both are set to zero
    before any bit is ORed in.  The global and the buffer barrier are
    written in full, so the whole result is independent of the storage;
    the image barrier is, too, whenever both access lists are
    non-empty. *)
Theorem result_independent_of_storage
  (src dst : VkPipelineStageFlags)
  (g : ThsvsGlobalBarrier) (mb mb' : VkMemoryBarrier)
  (b : ThsvsBufferBarrier) (bb bb' : VkBufferMemoryBarrier)
  (i : ThsvsImageBarrier) (ib ib' : VkImageMemoryBarrier) :
  thsvsGetVulkanMemoryBarrier default_build g
    {| pSrcStages := src; pDstStages := dst; pVkBarrier := mb |} =
  thsvsGetVulkanMemoryBarrier default_build g
    {| pSrcStages := src; pDstStages := dst; pVkBarrier := mb' |}
  /\
  thsvsGetVulkanBufferMemoryBarrier default_build b
    {| pSrcStages := src; pDstStages := dst; pVkBarrier := bb |} =
  thsvsGetVulkanBufferMemoryBarrier default_build b
    {| pSrcStages := src; pDstStages := dst; pVkBarrier := bb' |}
  /\
  (exists r r',
     thsvsGetVulkanImageMemoryBarrier default_build i
       {| pSrcStages := src; pDstStages := dst; pVkBarrier := ib |} =
       Returns r /\
     thsvsGetVulkanImageMemoryBarrier default_build i
       {| pSrcStages := src; pDstStages := dst; pVkBarrier := ib' |} =
       Returns r' /\
     img_srcAccessMask (pVkBarrier r) = img_srcAccessMask (pVkBarrier r') /\
     img_dstAccessMask (pVkBarrier r) = img_dstAccessMask (pVkBarrier r') /\
     (ib_pPrevAccesses i <> [] -> ib_pNextAccesses i <> [] -> r = r')).
Proof.
  split; [ | split ].
  - now rewrite !memory_barrier_default.
  - now rewrite !buffer_barrier_default.
  - do 2 eexists.
    split; [ apply image_barrier_default | ].
    split; [ apply image_barrier_default | ].
    split; [ reflexivity | split; [ reflexivity | ] ].
    intros Hp Hn. cbn [pSrcStages pDstStages pVkBarrier].
    f_equal. apply (image_vk_nonempty i ib ib' Hp Hn).
Qed.

Lemma result_independent_of_storage_witness :
  thsvsGetVulkanImageMemoryBarrier default_build two_layout_barrier
    (zero_state zero_image_barrier) =
  thsvsGetVulkanImageMemoryBarrier default_build two_layout_barrier
    (zero_state stale_image_barrier).
Proof.
  destruct (result_independent_of_storage 0 0
              {| glob_pPrevAccesses := []; glob_pNextAccesses := [] |}
              zero_memory_barrier zero_memory_barrier
              write_and_read_buffer_barrier
              zero_buffer_barrier zero_buffer_barrier
              two_layout_barrier zero_image_barrier stale_image_barrier)
    as (_ & _ & r & r' & E & E' & _ & _ & H).
  unfold zero_state. rewrite E, E'. f_equal. apply H; discriminate.
Defined.

(** ** [THSVS_ACCESS_NONE] *)






(** ** Layout modes without a transition *)

Lemma mode_layout_general_not_present a :
  a <> THSVS_ACCESS_PRESENT ->
  mode_layout THSVS_IMAGE_LAYOUT_GENERAL a = VK_IMAGE_LAYOUT_GENERAL.
Proof. intros H. destruct a; try reflexivity. now elim H. Qed.

(** X15.  With accesses on both sides and [discardContents] not
    [VK_TRUE], an image barrier whose two modes are
    GENERAL_AND_PRESENTATION asks for no layout transition (old and new
    layout are both [VK_IMAGE_LAYOUT_SHARED_PRESENT_KHR]), and so does
    one whose two modes are GENERAL and that lists no
    [THSVS_ACCESS_PRESENT] (both are [VK_IMAGE_LAYOUT_GENERAL]). *)
Theorem general_modes_ask_no_transition
  (b : ThsvsImageBarrier) (st : MapState VkImageMemoryBarrier) :
  ib_pPrevAccesses b <> [] ->
  ib_pNextAccesses b <> [] ->
  ib_discardContents b <> VK_TRUE ->
  exists st',
    thsvsGetVulkanImageMemoryBarrier default_build b st = Returns st' /\
    (ib_prevLayout b = THSVS_IMAGE_LAYOUT_GENERAL_AND_PRESENTATION ->
     ib_nextLayout b = THSVS_IMAGE_LAYOUT_GENERAL_AND_PRESENTATION ->
     img_oldLayout (pVkBarrier st') = VK_IMAGE_LAYOUT_SHARED_PRESENT_KHR /\
     img_newLayout (pVkBarrier st') = VK_IMAGE_LAYOUT_SHARED_PRESENT_KHR) /\
    (ib_prevLayout b = THSVS_IMAGE_LAYOUT_GENERAL ->
     ib_nextLayout b = THSVS_IMAGE_LAYOUT_GENERAL ->
     ~ In THSVS_ACCESS_PRESENT (ib_pPrevAccesses b) ->
     ~ In THSVS_ACCESS_PRESENT (ib_pNextAccesses b) ->
     img_oldLayout (pVkBarrier st') = VK_IMAGE_LAYOUT_GENERAL /\
     img_newLayout (pVkBarrier st') = VK_IMAGE_LAYOUT_GENERAL).
Proof.
  intros Hp Hn Hd. eexists. split; [ apply image_barrier_default | ].
  cbn [pVkBarrier img_oldLayout img_newLayout]. unfold layout_after.
  destruct (last_entry (ib_pPrevAccesses b)) as [p|] eqn:Ep;
    [ | apply last_entry_None in Ep; now elim Hp ].
  destruct (last_entry (ib_pNextAccesses b)) as [n|] eqn:En;
    [ | apply last_entry_None in En; now elim Hn ].
  unfold old_layout_of.
  destruct (Z.eqb_spec (ib_discardContents b) VK_TRUE) as [E|_];
    [ now elim Hd | ].
  split.
  - intros -> ->. split; reflexivity.
  - intros -> -> Hnp Hnn. split; apply mode_layout_general_not_present.
    + intros ->. apply Hnp. now apply last_entry_In.
    + intros ->. apply Hnn. now apply last_entry_In.
Qed.

Lemma general_modes_ask_no_transition_witness :
  exists st',
    thsvsGetVulkanImageMemoryBarrier default_build
      {| ib_pPrevAccesses := [THSVS_ACCESS_COLOR_ATTACHMENT_WRITE];
         ib_pNextAccesses := [THSVS_ACCESS_TRANSFER_READ];
         ib_prevLayout := THSVS_IMAGE_LAYOUT_GENERAL;
         ib_nextLayout := THSVS_IMAGE_LAYOUT_GENERAL;
         ib_discardContents := VK_FALSE;
         ib_srcQueueFamilyIndex := 0; ib_dstQueueFamilyIndex := 0;
         ib_image := 0; ib_subresourceRange := zero_range |}
      (zero_state stale_image_barrier) = Returns st' /\
    img_oldLayout (pVkBarrier st') = VK_IMAGE_LAYOUT_GENERAL /\
    img_newLayout (pVkBarrier st') = VK_IMAGE_LAYOUT_GENERAL.
Proof.
  destruct (general_modes_ask_no_transition
              {| ib_pPrevAccesses := [THSVS_ACCESS_COLOR_ATTACHMENT_WRITE];
                 ib_pNextAccesses := [THSVS_ACCESS_TRANSFER_READ];
                 ib_prevLayout := THSVS_IMAGE_LAYOUT_GENERAL;
                 ib_nextLayout := THSVS_IMAGE_LAYOUT_GENERAL;
                 ib_discardContents := VK_FALSE;
                 ib_srcQueueFamilyIndex := 0; ib_dstQueueFamilyIndex := 0;
                 ib_image := 0; ib_subresourceRange := zero_range |}
              (zero_state stale_image_barrier))
    as (st' & E & _ & H); try discriminate.
  exists st'. split; [ exact E | ].
  apply H; try reflexivity.
  - intros [H0 | []]. discriminate.
  - intros [H0 | []]. discriminate.
Defined.

(** ** The mixed-layout check *)

Lemma VkImageLayout_beq_eq (x y : VkImageLayout) :
  VkImageLayout_beq x y = true <-> x = y.
Proof.
  split; [ destruct x, y; simpl; congruence | intros ->; destruct y; reflexivity ].
Qed.

Lemma image_prev_loop_mixed b l : forall st,
  for_each l (image_prev_body mixed_build b) st =
  if (ib_discardContents b =? VK_TRUE)
     || layouts_accepted (img_oldLayout (pVkBarrier st))
          (map (mode_layout (ib_prevLayout b)) l)
  then for_each l (image_prev_body default_build b) st
  else Aborts.
Proof.
  induction l as [|a l IH]; intros st; cbn [for_each map layouts_accepted].
  - now rewrite orb_true_r.
  - unfold image_prev_body at 1 3.
    cbn [mixed_build default_build THSVS_ERROR_CHECK_POTENTIAL_HAZARD
         THSVS_ERROR_CHECK_MIXED_IMAGE_LAYOUT ifdef bind].
    rewrite switch_is_mode_layout.
    destruct (ib_discardContents b =? VK_TRUE) eqn:Ed; cbn [orb bind].
    + rewrite IH, ?Ed. reflexivity.
    + assert (Hold : img_oldLayout
                (pVkBarrier
                   (if after_present a
                    then store
                           (fun b0 => set_img_srcAccessMask
                              (Z.lor (img_srcAccessMask b0)
                                 (accessMask (access_info a))) b0)
                           (or_pSrcStages (stageMask (access_info a)) st)
                    else or_pSrcStages (stageMask (access_info a)) st)) =
              img_oldLayout (pVkBarrier st))
        by (destruct (after_present a); reflexivity).
      rewrite Hold.
      destruct (VkImageLayout_beq (img_oldLayout (pVkBarrier st))
                  VK_IMAGE_LAYOUT_UNDEFINED
                || VkImageLayout_beq (img_oldLayout (pVkBarrier st))
                     (mode_layout (ib_prevLayout b) a));
        cbn [assert bind andb]; [ | reflexivity ].
      rewrite IH, ?Ed. reflexivity.
Qed.

Lemma image_next_loop_mixed b l : forall st,
  for_each l (image_next_body mixed_build b) st =
  if layouts_accepted (img_newLayout (pVkBarrier st))
       (map (mode_layout (ib_nextLayout b)) l)
  then for_each l (image_next_body default_build b) st
  else Aborts.
Proof.
  induction l as [|a l IH]; intros st; cbn [for_each map layouts_accepted].
  - reflexivity.
  - unfold image_next_body at 1 3.
    cbn [mixed_build default_build THSVS_ERROR_CHECK_POTENTIAL_HAZARD
         THSVS_ERROR_CHECK_MIXED_IMAGE_LAYOUT ifdef bind
         store or_pDstStages pVkBarrier img_newLayout set_img_dstAccessMask].
    rewrite switch_is_mode_layout.
    destruct (VkImageLayout_beq (img_newLayout (pVkBarrier st))
                VK_IMAGE_LAYOUT_UNDEFINED
              || VkImageLayout_beq (img_newLayout (pVkBarrier st))
                   (mode_layout (ib_nextLayout b) a));
      cbn [assert bind andb]; [ | reflexivity ].
    rewrite IH. reflexivity.
Qed.

(** The image mapping function in the build with the mixed-layout
    check. *)
Lemma image_barrier_mixed
  (b : ThsvsImageBarrier) (st : MapState VkImageMemoryBarrier) :
  thsvsGetVulkanImageMemoryBarrier mixed_build b st =
  if mixed_layout_accepted b (pVkBarrier st)
  then thsvsGetVulkanImageMemoryBarrier default_build b st
  else Aborts.
Proof.
  unfold thsvsGetVulkanImageMemoryBarrier, mixed_layout_accepted.
  rewrite image_prev_loop_mixed.
  cbn [store pVkBarrier img_oldLayout set_img_sType set_img_pNext
       set_img_srcAccessMask set_img_dstAccessMask
       set_img_srcQueueFamilyIndex set_img_dstQueueFamilyIndex
       set_img_image set_img_subresourceRange].
  destruct ((ib_discardContents b =? VK_TRUE) || _); cbn [andb];
    [ | reflexivity ].
  rewrite image_prev_loop by reflexivity.
  cbn [default_build THSVS_ERROR_CHECK_POTENTIAL_HAZARD negb orb bind].
  rewrite image_next_loop_mixed.
  cbn [pVkBarrier img_newLayout set_img_oldLayout set_img_srcAccessMask].
  reflexivity.
Qed.

(** X16.  In the build with the mixed-layout check the image mapping
    function returns what the unchecked build returns when the layouts
    resolved on each side are accepted one after the other, starting from
    the layout the caller's storage holds, and dies in an assertion
    otherwise.  A layout is accepted when the one before it is
    [VK_IMAGE_LAYOUT_UNDEFINED] or the same layout; with
    [discardContents] equal to [VK_TRUE] nothing is asserted on the
    previous side. *)
Theorem mixed_layout_check_outcome
  (b : ThsvsImageBarrier) (st : MapState VkImageMemoryBarrier) :
  thsvsGetVulkanImageMemoryBarrier mixed_build b st =
  if mixed_layout_accepted b (pVkBarrier st)
  then thsvsGetVulkanImageMemoryBarrier default_build b st
  else Aborts.
Proof.
  unfold thsvsGetVulkanImageMemoryBarrier, mixed_layout_accepted.
  rewrite image_prev_loop_mixed.
  cbn [store pVkBarrier img_oldLayout set_img_sType set_img_pNext
       set_img_srcAccessMask set_img_dstAccessMask
       set_img_srcQueueFamilyIndex set_img_dstQueueFamilyIndex
       set_img_image set_img_subresourceRange].
  destruct ((ib_discardContents b =? VK_TRUE) || _); cbn [andb];
    [ | reflexivity ].
  rewrite image_prev_loop by reflexivity.
  cbn [default_build THSVS_ERROR_CHECK_POTENTIAL_HAZARD negb orb bind].
  rewrite image_next_loop_mixed.
  cbn [pVkBarrier img_newLayout set_img_oldLayout set_img_srcAccessMask].
  reflexivity.
Qed.

Lemma layouts_accepted_same resolve (l : list ThsvsAccessType) :
  (forall a a', In a l -> In a' l -> resolve a = resolve a') ->
  forall stored,
    (stored = VK_IMAGE_LAYOUT_UNDEFINED \/
     forall a, In a l -> stored = resolve a) ->
    layouts_accepted stored (map resolve l) = true.
Proof.
  induction l as [|a l IH]; intros Hsame stored Hst;
    cbn [map layouts_accepted]; [ reflexivity | ].
  apply andb_true_iff. split.
  - apply orb_true_iff. destruct Hst as [-> | H].
    + now left.
    + right. apply VkImageLayout_beq_eq, H. now left.
  - apply IH.
    + intros x y Hx Hy. apply Hsame; now right.
    + right. intros x Hx. apply Hsame; [ now left | now right ].
Qed.

(** X17.  The mixed-layout check raises no false alarm on zeroed
    storage: when the old and the new layout of the caller's storage are
    [VK_IMAGE_LAYOUT_UNDEFINED] and all accesses of each side resolve to
    one layout, the checked build returns what the unchecked build
    returns. *)
Theorem mixed_layout_check_accepts_consistent
  (b : ThsvsImageBarrier) (st : MapState VkImageMemoryBarrier) :
  img_oldLayout (pVkBarrier st) = VK_IMAGE_LAYOUT_UNDEFINED ->
  img_newLayout (pVkBarrier st) = VK_IMAGE_LAYOUT_UNDEFINED ->
  one_layout (ib_prevLayout b) (ib_pPrevAccesses b) ->
  one_layout (ib_nextLayout b) (ib_pNextAccesses b) ->
  exists st',
    thsvsGetVulkanImageMemoryBarrier default_build b st = Returns st' /\
    thsvsGetVulkanImageMemoryBarrier mixed_build b st = Returns st'.
Proof.
  intros Ho Hn Hp Hx.
  assert (Hacc : mixed_layout_accepted b (pVkBarrier st) = true).
  { unfold mixed_layout_accepted. rewrite Ho, Hn.
    rewrite (layouts_accepted_same _ _ Hp) by now left.
    rewrite (layouts_accepted_same _ _ Hx) by now left.
    now rewrite orb_true_r. }
  eexists. split; [ apply image_barrier_default | ].
  rewrite image_barrier_mixed, Hacc. apply image_barrier_default.
Qed.

Lemma mixed_layout_check_accepts_consistent_witness :
  exists st',
    thsvsGetVulkanImageMemoryBarrier default_build
      (color_write_then_sample VK_FALSE)
      (zero_state zero_image_barrier) = Returns st' /\
    thsvsGetVulkanImageMemoryBarrier mixed_build
      (color_write_then_sample VK_FALSE)
      (zero_state zero_image_barrier) = Returns st'.
Proof.
  apply (mixed_layout_check_accepts_consistent
           (color_write_then_sample VK_FALSE)
           (zero_state zero_image_barrier)).
  - reflexivity.
  - reflexivity.
  - intros a a' [<-|[]] [<-|[]]. reflexivity.
  - intros a a' [<-|[]] [<-|[]]. reflexivity.
Defined.

(** X18.  The mixed-layout check reads the old layout of the caller's
    storage before anything is stored there: when the storage holds a
    layout other than [VK_IMAGE_LAYOUT_UNDEFINED] and other than the one
    resolved for the first previous access, the checked build dies, even
    for a single previous access.  (With [discardContents] not
    [VK_TRUE].) *)
Theorem mixed_layout_check_depends_on_storage
  (b : ThsvsImageBarrier) (st : MapState VkImageMemoryBarrier)
  (a : ThsvsAccessType) (rest : list ThsvsAccessType) :
  ib_pPrevAccesses b = a :: rest ->
  ib_discardContents b <> VK_TRUE ->
  img_oldLayout (pVkBarrier st) <> VK_IMAGE_LAYOUT_UNDEFINED ->
  img_oldLayout (pVkBarrier st) <> mode_layout (ib_prevLayout b) a ->
  thsvsGetVulkanImageMemoryBarrier mixed_build b st = Aborts.
Proof.
  intros Hp Hd Hu Hl.
  rewrite image_barrier_mixed. unfold mixed_layout_accepted.
  rewrite Hp. cbn [map layouts_accepted].
  destruct (Z.eqb_spec (ib_discardContents b) VK_TRUE) as [E|_];
    [ now elim Hd | ].
  destruct (VkImageLayout_beq (img_oldLayout (pVkBarrier st))
              VK_IMAGE_LAYOUT_UNDEFINED) eqn:E1;
    [ apply VkImageLayout_beq_eq in E1; now elim Hu | ].
  destruct (VkImageLayout_beq (img_oldLayout (pVkBarrier st))
              (mode_layout (ib_prevLayout b) a)) eqn:E2;
    [ apply VkImageLayout_beq_eq in E2; now elim Hl | ].
  reflexivity.
Qed.

Lemma mixed_layout_check_depends_on_storage_witness :
  thsvsGetVulkanImageMemoryBarrier mixed_build
    (color_write_then_sample VK_FALSE)
    (zero_state stale_image_barrier) = Aborts.
Proof.
  apply (mixed_layout_check_depends_on_storage
           (color_write_then_sample VK_FALSE)
           (zero_state stale_image_barrier)
           THSVS_ACCESS_COLOR_ATTACHMENT_WRITE []);
    [ reflexivity | discriminate | discriminate | discriminate ].
Defined.




(** ** The test program *)

Ltac run_checks :=
  unfold expect, verdict, verdicts;
  repeat match goal with
  | |- context [Z.eqb ?x ?y] => destruct (Z.eqb x y)
  | |- context [VkImageLayout_beq ?x ?y] => destruct (VkImageLayout_beq x y)
  end; reflexivity.

(** X20.  What a test of the test program checks.  It calls the mapping
    function on zeroed stage words and a zeroed Vulkan barrier and prints
    one verdict: [PASSED] exactly when the expected stage masks are the
    OR of the stages of the listed accesses, the expected source access
    mask is the OR of the access masks of the previous writes, the
    expected destination access mask is the OR of the access masks of all
    next accesses and, for an image test, the expected layouts are the
    table layouts of the last previous and the last next access
    ([VK_IMAGE_LAYOUT_UNDEFINED] for an empty list); [FAILED]
    otherwise. *)
Theorem test_verdict
  (testName : String.string) (prev next : list ThsvsAccessType)
  (expectedSrcStageMask expectedDstStageMask : VkPipelineStageFlags)
  (expectedSrcAccessMask expectedDstAccessMask : VkAccessFlags)
  (expectedOldLayout expectedNewLayout : VkImageLayout) :
  verdicts
    (global_barrier_test_array testName prev next
       expectedSrcStageMask expectedDstStageMask
       expectedSrcAccessMask expectedDstAccessMask) =
  [ if (stage_bits prev =? expectedSrcStageMask)
       && (stage_bits next =? expectedDstStageMask)
       && (access_bits (write_entries prev) =? expectedSrcAccessMask)
       && (access_bits next =? expectedDstAccessMask)
    then PASSED else FAILED ]
  /\
  verdicts
    (image_barrier_test_array testName prev next
       expectedSrcStageMask expectedDstStageMask
       expectedSrcAccessMask expectedDstAccessMask
       expectedOldLayout expectedNewLayout) =
  [ if (stage_bits prev =? expectedSrcStageMask)
       && (stage_bits next =? expectedDstStageMask)
       && (access_bits (write_entries prev) =? expectedSrcAccessMask)
       && (access_bits next =? expectedDstAccessMask)
       && VkImageLayout_beq
            (layout_after (fun a => imageLayout (access_info a)) prev
               VK_IMAGE_LAYOUT_UNDEFINED)
            expectedOldLayout
       && VkImageLayout_beq
            (layout_after (fun a => imageLayout (access_info a)) next
               VK_IMAGE_LAYOUT_UNDEFINED)
            expectedNewLayout
    then PASSED else FAILED ].
Proof.
  split.
  - unfold global_barrier_test_array. rewrite memory_barrier_default.
    cbn [pSrcStages pDstStages pVkBarrier mem_srcAccessMask mem_dstAccessMask
         glob_pPrevAccesses glob_pNextAccesses Z.lor].
    run_checks.
  - unfold image_barrier_test_array. rewrite image_barrier_default.
    cbn [pSrcStages pDstStages pVkBarrier img_srcAccessMask img_dstAccessMask
         img_oldLayout img_newLayout ib_pPrevAccesses ib_pNextAccesses
         ib_nextLayout zero_image_barrier Z.lor].
    replace (layout_after
               (old_layout_of
                  {| ib_pPrevAccesses := prev; ib_pNextAccesses := next;
                     ib_prevLayout := THSVS_IMAGE_LAYOUT_OPTIMAL;
                     ib_nextLayout := THSVS_IMAGE_LAYOUT_OPTIMAL;
                     ib_discardContents := 0;
                     ib_srcQueueFamilyIndex := 0;
                     ib_dstQueueFamilyIndex := 0;
                     ib_image := 0;
                     ib_subresourceRange := zero_range |})
               prev VK_IMAGE_LAYOUT_UNDEFINED)
      with (layout_after (fun a => imageLayout (access_info a)) prev
              VK_IMAGE_LAYOUT_UNDEFINED)
      by (unfold layout_after; destruct (last_entry prev); reflexivity).
    replace (layout_after (mode_layout THSVS_IMAGE_LAYOUT_OPTIMAL) next
               VK_IMAGE_LAYOUT_UNDEFINED)
      with (layout_after (fun a => imageLayout (access_info a)) next
              VK_IMAGE_LAYOUT_UNDEFINED)
      by (unfold layout_after; destruct (last_entry next); reflexivity).
    run_checks.
Qed.

(** X21.  The verdicts the test program prints when run against the
    header, test by test: fifteen of its twenty tests pass and five fail.
    The failing ones are "Compute read from storage buffer, Compute write
    from storage buffer", "Graphics write to depth attachment, Graphics
    fragment read from input attachment", "Graphics fragment read from
    sampled image, Graphics write to color attachment", "None, Transfer
    read from buffer" and "Graphics color attachment write,
    Presentation". *)
Theorem main_verdicts :
  verdicts main =
  [ PASSED; FAILED; PASSED; PASSED; PASSED;
    PASSED; PASSED; PASSED; PASSED; FAILED;
    PASSED; PASSED; PASSED; PASSED; FAILED;
    FAILED; PASSED; PASSED; FAILED; PASSED ]
  /\
  without_names main =
  [ PASSED;
    Unexpected_destination_access_mask VK_ACCESS_SHADER_WRITE_BIT; FAILED;
    PASSED; PASSED; PASSED; PASSED; PASSED; PASSED; PASSED;
    Unexpected_destination_access_mask
      VK_ACCESS_DEPTH_STENCIL_ATTACHMENT_READ_BIT; FAILED;
    PASSED; PASSED; PASSED; PASSED;
    Unexpected_destination_access_mask VK_ACCESS_COLOR_ATTACHMENT_WRITE_BIT;
    FAILED;
    Unexpected_source_stage 0;
    Unexpected_destination_access_mask VK_ACCESS_TRANSFER_READ_BIT; FAILED;
    PASSED; PASSED;
    Unexpected_destination_stage VK_PIPELINE_STAGE_TOP_OF_PIPE_BIT; FAILED;
    PASSED ].
Proof. split; vm_compute; reflexivity. Qed.
